(** * PlanScan: single image to textured mesh (single_image_3d/predict.py)

    A shallow embedding of the geometry pipeline of [predict.py]:
    intrinsics inference, MiDaS loading with fallback, depth normalisation,
    back-projection, Poisson meshing with decimation, UV projection and the
    orchestrating [run_single_image].

    Numbers are modelled as the code has them.  NumPy [float32] and Python
    [float] (binary64) values are IEEE 754 values of the standard library's
    [spec_float], with the operations of [SpecFloat] at precision 24 and 53;
    Python [int]s are [Z].  Arrays that the code passes by reference live in
    a store; calls into torch, OpenCV, Open3D and trimesh are parameters of
    the sections that use them. *)

From Stdlib Require Import ZArith List Bool Lia String Ascii.
From Stdlib Require Import Floats.SpecFloat.
From stdpp Require Import base option list strings gmap.
Import ListNotations.

Local Open Scope Z_scope.

(* ===================================================================== *)
(** ** IEEE 754 values and the two formats the pipeline computes in *)
(* ===================================================================== *)

Abbreviation float := spec_float (only parsing).

Definition is_nan (x : float) : bool :=
  match x with S754_nan => true | _ => false end.

Definition is_zero (x : float) : bool :=
  match x with S754_zero _ => true | _ => false end.

(** np.isfinite *)
Definition is_finite (x : float) : bool :=
  match x with S754_zero _ | S754_finite _ _ _ => true | _ => false end.

(** The operations of one IEEE binary format: [prec] bits of mantissa,
    infinities at exponent [emax]; rounding is to nearest, ties to even. *)

(** NumPy's float32 *)
Module F32.
Definition prec : Z := 24.
Definition emax : Z := 128.
Definition add := SFadd prec emax.
Definition sub := SFsub prec emax.
Definition mul := SFmul prec emax.
Definition div := SFdiv prec emax.
(** Round a value of any format to this one. *)
Definition round (x : float) : float :=
  match x with
  | S754_finite s m e => binary_round prec emax s m e
  | _ => x
  end.
(** Conversion of an integer, correctly rounded. *)
Definition of_Z (n : Z) : float := binary_normalize prec emax n 0 false.
(** Membership in the format: a special value or a canonical mantissa. *)
Definition valid (x : float) : bool := valid_binary prec emax x.
End F32.

(** Python's float and NumPy's float64 *)
Module F64.
Definition prec : Z := 53.
Definition emax : Z := 1024.
Definition add := SFadd prec emax.
Definition sub := SFsub prec emax.
Definition mul := SFmul prec emax.
Definition div := SFdiv prec emax.
(** [<] of IEEE 754: false as soon as an operand is NaN. *)
Definition ltb := SFltb.
(** Round a value of any format to this one; on a float32 value this is the
    exact widening. *)
Definition round (x : float) : float :=
  match x with
  | S754_finite s m e => binary_round prec emax s m e
  | _ => x
  end.
Definition of_Z (n : Z) : float := binary_normalize prec emax n 0 false.
End F64.

(** A decimal literal [n / 10^k] of the source, read as Python reads it: the
    binary64 value nearest to the quotient. *)
Definition py_literal (n : Z) (k : nat) : float :=
  F64.div (F64.of_Z n) (F64.of_Z (10 ^ Z.of_nat k)).

(** [float(n)] and the implicit conversion of an [int] operand. Python raises
    OverflowError on integers beyond the binary64 range (2^1024 and above),
    where this conversion gives an infinity; image sizes are array shapes and
    stay far below. *)
Definition py_float (n : Z) : float := F64.of_Z n.

(** The rational value of a finite float, as numerator * 2^exponent. *)
Definition float_val (x : float) : option (Z * Z) :=
  match x with
  | S754_zero _ => Some (0, 0)
  | S754_finite s m e => Some (if s then Z.neg m else Z.pos m, e)
  | _ => None
  end.

(** [x] has the value of the rational [p / q] ([q] a power of two). *)
Definition has_value (x : float) (p q : Z) : Prop :=
  match float_val x with
  | Some (m, e) =>
      if (0 <=? e) then m * 2 ^ e * q = p else m * q = p * 2 ^ (- e)
  | None => False
  end.

(* ===================================================================== *)
(** ** Utility: camera intrinsics *)
(* ===================================================================== *)

(** A 3x3 NumPy array, row by row. *)
Definition row3 : Type := float * float * float.
Definition mat3 : Type := row3 * row3 * row3.

(** [np.array(rows, dtype=np.float32)] on a 3x3 nest of Python numbers. *)
Definition np_array_f32_3x3 (m : mat3) : mat3 :=
  let r := fun '(a, b, c) => (F32.round a, F32.round b, F32.round c) in
  let '(r0, r1, r2) := m in (r r0, r r1, r r2).

(** K[0, 0], K[1, 1], K[0, 2], K[1, 2] *)
Definition K_fx (K : mat3) : float := let '((a, _, _), _, _) := K in a.
Definition K_fy (K : mat3) : float := let '(_, (_, b, _), _) := K in b.
Definition K_cx (K : mat3) : float := let '((_, _, c), _, _) := K in c.
Definition K_cy (K : mat3) : float := let '(_, (_, _, c), _) := K in c.

Definition infer_intrinsics (img_w img_h : Z) (focal_px : option float) : mat3 :=
  let cx := F64.div (py_float img_w) (py_literal 20 1) in
  let cy := F64.div (py_float img_h) (py_literal 20 1) in
  let fx :=
    match focal_px with
    | None => F64.mul (py_literal 12 1) (py_float (Z.max img_w img_h))
    | Some f => f
    end in
  let fy := fx in
  np_array_f32_3x3
    ((fx, py_float 0, cx), (py_float 0, fy, cy), (py_float 0, py_float 0, py_float 1)).

(* ===================================================================== *)
(** ** Python exceptions, the world a run acts on, and its monad *)
(* ===================================================================== *)

(** A raised exception: its class and its message. *)
Record exn := Exn { exn_class : string; exn_msg : string }.

Inductive result (A : Type) : Type :=
| Ok (a : A)
| Raise (e : exn).
Arguments Ok {A} a.
Arguments Raise {A} e.

(** NumPy arrays.  An array object owns a buffer of one element type. *)
Inductive fdtype := Float32 | Float64.

Inductive buffer :=
| FloatBuf (dt : fdtype) (xs : list float)
| IntBuf (xs : list Z)
| BoolBuf (xs : list bool).

Record ndarray := NdArray { nd_shape : list nat; nd_buf : buffer }.

(** A reference to an array object: its index in the store. *)
Definition ref := nat.

(** What a run writes into the output directory. *)
Inductive content :=
| Text (s : string)
| Binary (bs : list Byte.byte)
| Json (vertices faces : Z) (bbox_min bbox_max : list float).

(** Calls into the external libraries, in the order they were made. *)
Inductive call :=
| HubLoad (repo name : string)
| ModelEvalTo
| CreateFromPointCloudPoisson (depth : Z)
| GetAxisAlignedBoundingBox
| Crop
| RemoveDegenerateTriangles
| RemoveDuplicatedTriangles
| RemoveDuplicatedVertices
| RemoveNonManifoldEdges
| FilterSmoothSimple (number_of_iterations : Z)
| SimplifyQuadricDecimation (target : Z)
| ComputeVertexNormals.

Record world := World {
  w_heap : list ndarray;        (* the array objects, by reference *)
  w_files : gmap string content; (* the files written so far, by path *)
  w_calls : list call           (* newest call last *)
}.

Definition M (A : Type) : Type := world -> result A * world.

Definition ret {A} (a : A) : M A := fun w => (Ok a, w).
Definition raise {A} (e : exn) : M A := fun w => (Raise e, w).
Definition bind {A B} (m : M A) (k : A -> M B) : M B :=
  fun w => match m w with
           | (Ok a, w') => k a w'
           | (Raise e, w') => (Raise e, w')
           end.
(** try: body / except Exception as e: handler *)
Definition try_except {A} (body : M A) (handler : exn -> M A) : M A :=
  fun w => match body w with
           | (Ok a, w') => (Ok a, w')
           | (Raise e, w') => handler e w'
           end.
(** The outcome of a call into a library: a value, or the exception it raised. *)
Definition lift {A} (r : result A) : M A := fun w => (r, w).
Definition log (c : call) : M unit :=
  fun w => (Ok tt, World (w_heap w) (w_files w) (w_calls w ++ [c])).

Declare Scope py_scope.
Delimit Scope py_scope with py.
Notation "'let*' x ':=' m 'in' k" := (bind m (fun x => k))
  (at level 10, x pattern, m at level 100, k at level 200) : py_scope.
Notation "'do' m 'then' k" := (bind m (fun _ => k))
  (at level 10, m at level 100, k at level 200) : py_scope.
Local Open Scope py_scope.

(** *** The store of array objects *)

Definition alloc (a : ndarray) : M ref :=
  fun w => (Ok (length (w_heap w)),
            World (w_heap w ++ [a]) (w_files w) (w_calls w)).

Definition deref (r : ref) : M ndarray :=
  fun w => match w_heap w !! r with
           | Some a => (Ok a, w)
           | None => (Raise (Exn "ReferenceError" "no such array object"), w)
           end.


(* ===================================================================== *)
(** ** The NumPy operations the pipeline uses *)
(* ===================================================================== *)

Definition fround (dt : fdtype) : float -> float :=
  match dt with Float32 => F32.round | Float64 => F64.round end.

(** Conversion between the float types: nothing happens within one type,
    widening to float64 is exact, narrowing to float32 rounds. *)
Definition fcast (from to : fdtype) (x : float) : float :=
  match from, to with
  | Float32, Float32 | Float64, Float64 => x
  | _, _ => fround to x
  end.

Inductive arith := Add | Sub | Mul | Div.

Definition farith (dt : fdtype) (op : arith) : float -> float -> float :=
  match dt, op with
  | Float32, Add => F32.add | Float32, Sub => F32.sub
  | Float32, Mul => F32.mul | Float32, Div => F32.div
  | Float64, Add => F64.add | Float64, Sub => F64.sub
  | Float64, Mul => F64.mul | Float64, Div => F64.div
  end.

(** NumPy's type promotion, on the element types that occur: two float32
    operands stay float32, anything else involving a float is float64. *)
Definition promote (d1 d2 : fdtype) : fdtype :=
  match d1, d2 with Float32, Float32 => Float32 | _, _ => Float64 end.

(** The float type an array takes part in arithmetic with, next to a float
    operand of type [other] ([None]: a Python float, which adopts the
    array's own float type). *)
Definition arith_dtype (b : buffer) (other : option fdtype) : fdtype :=
  match b, other with
  | FloatBuf d _, Some d' => promote d d'
  | FloatBuf d _, None => d
  | IntBuf _, _ => Float64
  | BoolBuf _, Some d' => d'
  | BoolBuf _, None => Float64
  end.

(** The elements of a buffer converted to float type [dt]. *)
Definition buf_floats (dt : fdtype) (b : buffer) : list float :=
  match b with
  | FloatBuf d xs => map (fcast d dt) xs
  | IntBuf zs =>
      map (fun z => match dt with Float32 => F32.of_Z z | Float64 => F64.of_Z z end) zs
  | BoolBuf bs =>
      map (fun b : bool =>
             match dt with
             | Float32 => F32.of_Z (if b then 1 else 0)
             | Float64 => F64.of_Z (if b then 1 else 0)
             end) bs
  end.

Definition buf_dtype (b : buffer) : option fdtype :=
  match b with FloatBuf d _ => Some d | _ => None end.

Fixpoint shape_eqb (s t : list nat) : bool :=
  match s, t with
  | [], [] => true
  | a :: s', b :: t' => Nat.eqb a b && shape_eqb s' t'
  | _, _ => false
  end.

(** [H, W = a.shape] *)
Definition nd_shape2 (a : ndarray) : result (nat * nat) :=
  match nd_shape a with
  | [h; w] => Ok (h, w)
  | _ => Raise (Exn "ValueError" "cannot unpack the shape into two values")
  end.

(** [np.arange(n)] *)
Definition nd_arange (n : nat) : ndarray :=
  NdArray [n] (IntBuf (map Z.of_nat (seq 0 n))).

(** [np.meshgrid(us, vs)] on two one-dimensional arrays: both results have
    shape (len(vs), len(us)); the first repeats [us] along the rows, the
    second repeats each element of [vs] along its row. *)
Definition nd_meshgrid (us vs : ndarray) : result (ndarray * ndarray) :=
  match nd_shape us, nd_buf us, nd_shape vs, nd_buf vs with
  | [w], IntBuf xs, [h], IntBuf ys =>
      Ok (NdArray [h; w] (IntBuf (concat (replicate h xs))),
          NdArray [h; w] (IntBuf (flat_map (replicate w) ys)))
  | _, _, _, _ => Raise (Exn "TypeError" "meshgrid of arrays outside the model")
  end.

(** [a.copy()] : a new object with the same elements. *)
Definition nd_copy (a : ndarray) : result ndarray := Ok a.

(** [a op c] for a Python float [c]. *)
Definition nd_arith_py (op : arith) (c : float) (a : ndarray) : result ndarray :=
  let dt := arith_dtype (nd_buf a) None in
  Ok (NdArray (nd_shape a)
        (FloatBuf dt (map (fun x => farith dt op x (fcast Float64 dt c))
                          (buf_floats dt (nd_buf a))))).

(** [a op s] for a NumPy scalar [s] of float type [sdt]. *)
Definition nd_arith_scalar (op : arith) (sdt : fdtype) (s : float) (a : ndarray)
  : result ndarray :=
  let dt := arith_dtype (nd_buf a) (Some sdt) in
  Ok (NdArray (nd_shape a)
        (FloatBuf dt (map (fun x => farith dt op x (fcast sdt dt s))
                          (buf_floats dt (nd_buf a))))).

(** [a op b], element by element, for float arrays of one shape (the only
    case the pipeline has; broadcasting of unlike shapes is not modelled). *)
Definition nd_arith (op : arith) (a b : ndarray) : result ndarray :=
  match buf_dtype (nd_buf a), buf_dtype (nd_buf b) with
  | Some d1, Some d2 =>
      if shape_eqb (nd_shape a) (nd_shape b) then
        let dt := promote d1 d2 in
        Ok (NdArray (nd_shape a)
              (FloatBuf dt (zip_with (farith dt op)
                              (buf_floats dt (nd_buf a))
                              (buf_floats dt (nd_buf b)))))
      else Raise (Exn "ValueError" "operands could not be broadcast together")
  | _, _ => Raise (Exn "TypeError" "array arithmetic outside the model")
  end.

Fixpoint interleave3 (xs ys zs : list float) : list float :=
  match xs, ys, zs with
  | x :: xs', y :: ys', z :: zs' => x :: y :: z :: interleave3 xs' ys' zs'
  | _, _, _ => []
  end.

(** [np.stack([x, y, z], axis=-1).reshape(-1, 3)] *)
Definition nd_stack3_rows (x y z : ndarray) : result ndarray :=
  match buf_dtype (nd_buf x), buf_dtype (nd_buf y), buf_dtype (nd_buf z) with
  | Some dx, Some dy, Some dz =>
      if shape_eqb (nd_shape x) (nd_shape y) && shape_eqb (nd_shape y) (nd_shape z) then
        let dt := promote (promote dx dy) dz in
        let data := interleave3 (buf_floats dt (nd_buf x)) (buf_floats dt (nd_buf y))
                                (buf_floats dt (nd_buf z)) in
        Ok (NdArray [fold_right Nat.mul 1%nat (nd_shape x); 3%nat] (FloatBuf dt data))
      else Raise (Exn "ValueError" "all input arrays must have the same shape")
  | _, _, _ => Raise (Exn "TypeError" "stack of arrays outside the model")
  end.

(** [a.reshape(-1)] *)
Definition nd_reshape_flat (a : ndarray) : result ndarray :=
  Ok (NdArray [fold_right Nat.mul 1%nat (nd_shape a)] (nd_buf a)).

(** [a > c] for a Python float [c]. *)
Definition nd_gt_py (c : float) (a : ndarray) : result ndarray :=
  let dt := arith_dtype (nd_buf a) None in
  Ok (NdArray (nd_shape a)
        (BoolBuf (map (fun x => SFltb (fcast Float64 dt c) x) (buf_floats dt (nd_buf a))))).

Fixpoint rows3 (xs : list float) : list row3 :=
  match xs with
  | x :: y :: z :: rest => (x, y, z) :: rows3 rest
  | _ => []
  end.

Fixpoint select_rows (rows : list row3) (mask : list bool) : list row3 :=
  match rows, mask with
  | r :: rows', b :: mask' =>
      if b then r :: select_rows rows' mask' else select_rows rows' mask'
  | _, _ => []
  end.

Definition unrows3 (rows : list row3) : list float :=
  flat_map (fun '(x, y, z) => [x; y; z]) rows.

(** [pts[mask]] for an N x 3 array and a boolean array of length N. *)
Definition nd_getitem_mask (pts mask : ndarray) : result ndarray :=
  match nd_shape pts, nd_buf pts, nd_shape mask, nd_buf mask with
  | [n; 3%nat], FloatBuf dt xs, [n'], BoolBuf bs =>
      if Nat.eqb n n' then
        let rows := select_rows (rows3 xs) bs in
        Ok (NdArray [length rows; 3%nat] (FloatBuf dt (unrows3 rows)))
      else Raise (Exn "IndexError" "boolean index did not match indexed array")
  | _, _, _, _ => Raise (Exn "IndexError" "masked indexing outside the model")
  end.

(** One operand, result in a new object. *)
Definition np1 (f : ndarray -> result ndarray) (r : ref) : M ref :=
  let* a := deref r in
  let* b := lift (f a) in
  alloc b.

(** Two operands, result in a new object. *)
Definition np2 (f : ndarray -> ndarray -> result ndarray) (r1 r2 : ref) : M ref :=
  let* a := deref r1 in
  let* b := deref r2 in
  let* c := lift (f a b) in
  alloc c.

(* ===================================================================== *)
(** ** Open3D geometry *)
(* ===================================================================== *)

(** o3d.geometry.PointCloud: points (and normals once estimated), as doubles. *)
Record PointCloud := MkPointCloud {
  pc_points : list row3;
  pc_normals : list row3
}.

(** o3d.geometry.TriangleMesh: ordered vertices, triangles as three vertex
    indices each, and the per-vertex normals. *)
Record TriangleMesh := MkMesh {
  vertices : list row3;
  triangles : list (Z * Z * Z);
  vertex_normals : list row3
}.

(** [len(...)] of a Python sequence *)
Definition len {A} (l : list A) : Z := Z.of_nat (length l).

(** [o3d.utility.Vector3dVector(pts)]: the rows of an N x 3 array as doubles. *)
Definition Vector3dVector (pts : ndarray) : result (list row3) :=
  match nd_shape pts, nd_buf pts with
  | [_; 3%nat], FloatBuf dt xs => Ok (rows3 (map (fcast dt Float64) xs))
  | _, _ => Raise (Exn "RuntimeError" "Vector3dVector: incompatible array")
  end.

(* ===================================================================== *)
(** ** Back-projection to a point cloud *)
(* ===================================================================== *)

(** [depth] is the reference the caller holds; every array the function
    computes is a new object. *)
Definition depth_to_pointcloud (depth : ref) (K : mat3) : M PointCloud :=
  let* d := deref depth in
  let* (H, W) := lift (nd_shape2 d) in
  let fx := K_fx K in
  let fy := K_fy K in
  let cx := K_cx K in
  let cy := K_cy K in
  let* us := alloc (nd_arange W) in
  let* vs := alloc (nd_arange H) in
  let* us_a := deref us in
  let* vs_a := deref vs in
  let* (u_a, v_a) := lift (nd_meshgrid us_a vs_a) in
  let* u := alloc u_a in
  let* v := alloc v_a in
  let* z := np1 nd_copy depth in
  (* Scale relative depth into meters (heuristic). *)
  let* z := np1 (nd_arith_py Mul (py_literal 30 1)) z in
  let* t := np1 (nd_arith_scalar Sub Float32 cx) u in
  let* t := np2 (nd_arith Mul) t z in
  let* x := np1 (nd_arith_scalar Div Float32 fx) t in
  let* t := np1 (nd_arith_scalar Sub Float32 cy) v in
  let* t := np2 (nd_arith Mul) t z in
  let* y := np1 (nd_arith_scalar Div Float32 fy) t in
  let* x_a := deref x in
  let* y_a := deref y in
  let* z_a := deref z in
  let* pts_a := lift (nd_stack3_rows x_a y_a z_a) in
  let* pts := alloc pts_a in
  (* remove invalid/near-zero depth *)
  let* zflat := np1 nd_reshape_flat z in
  let* mask := np1 (nd_gt_py (py_literal 1 3)) zflat in
  let* pts := np2 nd_getitem_mask pts mask in
  let* pts_a := deref pts in
  let* points := lift (Vector3dVector pts_a) in
  ret (MkPointCloud points []).

(* ===================================================================== *)
(** ** UV projection *)
(* ===================================================================== *)

(** [np.clip(x, 0, 1)] on a double: NaN stays NaN. *)
Definition np_clip01 (x : float) : float :=
  if is_nan x then x
  else if F64.ltb x (py_float 0) then py_float 0
  else if F64.ltb (py_float 1) x then py_float 1
  else x.

(** The element of [compute_uv] at one vertex; NumPy computes the columns
    [X], [Y], [Z] of the vertex array element by element. *)
Definition project_uv (K : mat3) (img_w img_h : Z) (vert : row3) : float * float :=
  let '(X, Y, Z) := vert in
  let fx := F64.round (K_fx K) in
  let fy := F64.round (K_fy K) in
  let cx := F64.round (K_cx K) in
  let cy := F64.round (K_cy K) in
  let eps := py_literal 1 6 in
  let u := F64.add (F64.div (F64.mul fx X) (F64.add Z eps)) cx in
  let v := F64.add (F64.div (F64.mul fy Y) (F64.add Z eps)) cy in
  (* Normalize to [0,1] *)
  let u := np_clip01 (F64.div u (py_float img_w)) in
  let v := np_clip01 (F64.div v (py_float img_h)) in
  (* Invert v for typical image origin differences *)
  let v := F64.sub (py_float 1) v in
  (F32.round u, F32.round v).

Definition compute_uv (mesh : TriangleMesh) (K : mat3) (img_w img_h : Z)
  : list (float * float) :=
  map (project_uv K img_w img_h) (vertices mesh).

(* ===================================================================== *)
(** ** The external libraries *)
(* ===================================================================== *)

Inductive device := Cuda | Cpu.

(** What [torch.hub] and the loaded MiDaS network do.  [Model] and
    [Transform] are the objects it hands out. *)
Record Torch (Model Transform : Type) := MkTorch {
  cuda_is_available : bool;
  (** [torch.hub.load("intel-isl/MiDaS", "transforms")]: the object whose
      attributes are the preprocessing transforms. *)
  hub_load_transforms : result (Transform * Transform);
  (** [torch.hub.load("intel-isl/MiDaS", model_name)] *)
  hub_load_model : string -> result Model;
  (** [model.eval().to(device)] *)
  model_eval_to : Model -> device -> result unit;
  (** [transform(img_rgb).to(device)], [model(inp)] and the bicubic
      interpolation back to the image size, moved to a NumPy array. *)
  midas_predict : Model -> Transform -> ndarray -> device -> result ndarray
}.
Arguments MkTorch {Model Transform}.
Arguments cuda_is_available {Model Transform}.
Arguments hub_load_transforms {Model Transform}.
Arguments hub_load_model {Model Transform}.
Arguments model_eval_to {Model Transform}.
Arguments midas_predict {Model Transform}.

(** The attributes of the transforms object. *)
Definition small_transform {T} (ts : T * T) : T := fst ts.
Definition dpt_transform {T} (ts : T * T) : T := snd ts.

Record OpenCV := MkOpenCV {
  (** [cv2.imread]: the decoded BGR image of a file, [None] when the file
      cannot be read as an image. *)
  cv2_imdecode : content -> option ndarray;
  cv2_cvtColor_BGR2RGB : ndarray -> result ndarray;
  (** [cv2.bilateralFilter(src, d, sigmaColor, sigmaSpace)] *)
  cv2_bilateralFilter : ndarray -> Z -> float -> float -> result ndarray
}.

(** An axis-aligned bounding box: min bound and max bound. *)
Definition bbox : Type := row3 * row3.

Record Open3D := MkOpen3D {
  voxel_down_sample : PointCloud -> float -> result PointCloud;
  remove_statistical_outlier : PointCloud -> Z -> float -> result (PointCloud * list Z);
  (** [estimate_normals] with a hybrid KD-tree search: the normals it sets. *)
  estimate_normals : PointCloud -> float -> Z -> result (list row3);
  create_from_point_cloud_poisson : PointCloud -> Z -> result (TriangleMesh * list float);
  pcd_get_axis_aligned_bounding_box : PointCloud -> result bbox;
  crop : TriangleMesh -> bbox -> result TriangleMesh;
  remove_degenerate_triangles : TriangleMesh -> result TriangleMesh;
  remove_duplicated_triangles : TriangleMesh -> result TriangleMesh;
  remove_duplicated_vertices : TriangleMesh -> result TriangleMesh;
  remove_non_manifold_edges : TriangleMesh -> result TriangleMesh;
  filter_smooth_simple : TriangleMesh -> Z -> result TriangleMesh;
  simplify_quadric_decimation : TriangleMesh -> Z -> result TriangleMesh;
  (** [compute_vertex_normals]: the normals it sets; vertices and triangles
      stay as they are. *)
  compute_vertex_normals : TriangleMesh -> result (list row3);
  mesh_get_axis_aligned_bounding_box : TriangleMesh -> result bbox
}.

(** PIL and trimesh: image decoding and the two mesh encoders. *)
Record Exporters := MkExporters {
  (** [Image.fromarray(rgb).save(path)]: the file it writes. *)
  pil_save : ndarray -> result content;
  (** [Image.open(path).convert("RGB")] as an array. *)
  pil_open_rgb : content -> result ndarray;
  (** [trimesh.exchange.obj.export_obj] of the mesh with UVs and texture. *)
  export_obj : list row3 -> list (Z * Z * Z) -> list (float * float) -> ndarray -> result string;
  (** [trimesh.exchange.gltf.export_glb] *)
  export_glb : list row3 -> list (Z * Z * Z) -> list (float * float) -> ndarray
               -> result (list Byte.byte)
}.

(** A call into a library, recorded before its outcome is known. *)
Definition ext {A} (c : call) (r : result A) : M A :=
  do log c then lift r.

(** Writing a file: [open(path, "w")] and [f.write]. *)
Definition write_file (path : string) (c : content) : M unit :=
  fun w => (Ok tt, World (w_heap w) (<[path := c]> (w_files w)) (w_calls w)).

Definition read_file (path : string) : M content :=
  fun w => match w_files w !! path with
           | Some c => (Ok c, w)
           | None => (Raise (Exn "FileNotFoundError" path), w)
           end.

(** [dir / name] on paths *)
Definition path_join (dir name : string) : string := (dir ++ "/" ++ name)%string.

(** [str(e)] for the value of [last_error] *)
Definition py_str (e : option exn) : string :=
  match e with Some e => exn_msg e | None => "None" end.

(* ===================================================================== *)
(** ** Depth: MiDaS loading and inference *)
(* ===================================================================== *)

Section Depth.
Context {Model Transform : Type}.
Variable torch : Torch Model Transform.
Variable opencv : OpenCV.

Definition midas_variants : list string :=
    [ "DPT_Large"     (* robust, accurate *)
    ; "DPT_Hybrid"    (* smaller *)
    ; "MiDaS_small"   (* fastest *) ]%string.

  (** The body of the [try] for one variant. *)
Definition load_variant (transforms : Transform * Transform) (dev : device)
      (model_name : string) : M (Model * Transform) :=
    let* model := ext (HubLoad "intel-isl/MiDaS" model_name)
                      (hub_load_model torch model_name) in
    do ext ModelEvalTo (model_eval_to torch model dev) then
    (* All DPT variants use dpt_transform; MiDaS_small uses small_transform *)
    let transform :=
      if String.eqb model_name "MiDaS_small"
      then small_transform transforms
      else dpt_transform transforms in
    ret (model, transform).

  (** The [for] loop over the remaining variants, with [last_error]. *)
Fixpoint load_midas_loop (transforms : Transform * Transform) (dev : device)
      (names : list string) (last_error : option exn) : M (Model * Transform) :=
    match names with
    | [] =>
        raise (Exn "RuntimeError"
                 ("Failed to load MiDaS model variants: " ++ py_str last_error))
    | model_name :: rest =>
        try_except (load_variant transforms dev model_name)
                   (fun e => load_midas_loop transforms dev rest (Some e))
    end.

Definition load_midas (dev : device) : M (Model * Transform) :=
    let* transforms := ext (HubLoad "intel-isl/MiDaS" "transforms")
                           (hub_load_transforms torch) in
    load_midas_loop transforms dev midas_variants None.

  (** [a.min()] and [a.max()]: NaN propagates; an empty array is an error. *)
Definition fmin (x y : float) : float :=
    if is_nan x then x else if is_nan y then y else if SFltb y x then y else x.
Definition fmax (x y : float) : float :=
    if is_nan x then x else if is_nan y then y else if SFltb x y then y else x.

Definition nd_reduce (f : float -> float -> float) (a : ndarray)
    : result (fdtype * float) :=
    match nd_buf a with
    | FloatBuf dt (x :: xs) => Ok (dt, fold_left f xs x)
    | FloatBuf _ [] =>
        Raise (Exn "ValueError" "zero-size array to reduction operation")
    | _ => Raise (Exn "TypeError" "reduction outside the model")
    end.
Definition nd_min := nd_reduce fmin.
Definition nd_max := nd_reduce fmax.

  (** [a.astype(np.float32)] *)
Definition nd_astype_f32 (a : ndarray) : ndarray :=
    NdArray (nd_shape a) (FloatBuf Float32 (buf_floats Float32 (nd_buf a))).

  (** [(depth - depth.min()) / (depth.max() - depth.min() + 1e-8)].  The
      reductions are NumPy scalars of the array's type; the Python float
      [1e-8] added to one takes that type. *)
Definition normalize_depth (depth : ndarray) : result ndarray :=
    match nd_min depth, nd_max depth with
    | Ok (dt, lo), Ok (_, hi) =>
        let denom := farith dt Add (farith dt Sub hi lo) (fcast Float64 dt (py_literal 1 8)) in
        match nd_arith_scalar Sub dt lo depth with
        | Ok num => nd_arith_scalar Div dt denom num
        | Raise e => Raise e
        end
    | Raise e, _ => Raise e
    | _, Raise e => Raise e
    end.

  (** Returns the reference to the new depth array. *)
Definition estimate_depth (model : Model) (transform : Transform)
      (image_bgr : ndarray) (dev : device) : M ref :=
    let* img_rgb := lift (cv2_cvtColor_BGR2RGB opencv image_bgr) in
    let* depth := lift (midas_predict torch model transform img_rgb dev) in
    (* Normalize depth to [0,1] *)
    let* depth := lift (normalize_depth depth) in
    (* Post-process: bilateral filter to smooth while preserving edges *)
    let* depth := lift (cv2_bilateralFilter opencv (nd_astype_f32 depth) 9
                          (py_literal 1 1) (py_float 7)) in
    alloc (nd_astype_f32 depth).
End Depth.

(* ===================================================================== *)
(** ** Point cloud cleanup and meshing *)
(* ===================================================================== *)

Section Geometry.
Variable o3d : Open3D.

Definition clean_pointcloud (pcd : PointCloud) : M PointCloud :=
    (* voxel downsample *)
    let* pcd := lift (voxel_down_sample o3d pcd (py_literal 1 2)) in
    (* outlier removal *)
    let* (pcd, _) := lift (remove_statistical_outlier o3d pcd 20 (py_literal 20 1)) in
    let* normals := lift (estimate_normals o3d pcd (py_literal 5 2) 30) in
    ret (MkPointCloud (pc_points pcd) normals).

  (** The triangle budget of the simplification. *)
Definition triangle_budget : Z := 150000.

Definition reconstruct_mesh (pcd : PointCloud) : M TriangleMesh :=
    let* (mesh, densities) :=
      ext (CreateFromPointCloudPoisson 8) (create_from_point_cloud_poisson o3d pcd 8) in
    (* crop mesh to bounding box of points *)
    let* bbox := ext GetAxisAlignedBoundingBox (pcd_get_axis_aligned_bounding_box o3d pcd) in
    let* mesh := ext Crop (crop o3d mesh bbox) in
    let* mesh := ext RemoveDegenerateTriangles (remove_degenerate_triangles o3d mesh) in
    let* mesh := ext RemoveDuplicatedTriangles (remove_duplicated_triangles o3d mesh) in
    let* mesh := ext RemoveDuplicatedVertices (remove_duplicated_vertices o3d mesh) in
    let* mesh := ext RemoveNonManifoldEdges (remove_non_manifold_edges o3d mesh) in
    let* mesh := ext (FilterSmoothSimple 1) (filter_smooth_simple o3d mesh 1) in
    (* simplify target triangle count *)
    let target := Z.min (len (triangles mesh)) triangle_budget in
    let* mesh :=
      if 0 <? target
      then ext (SimplifyQuadricDecimation target)
               (simplify_quadric_decimation o3d mesh target)
      else ret mesh in
    let* normals := ext ComputeVertexNormals (compute_vertex_normals o3d mesh) in
    ret (MkMesh (vertices mesh) (triangles mesh) normals).
End Geometry.

(* ===================================================================== *)
(** ** Export, stats and the whole run *)
(* ===================================================================== *)

Section Run.
Context {Model Transform : Type}.
Variable torch : Torch Model Transform.
Variable opencv : OpenCV.
Variable o3d : Open3D.
Variable exporters : Exporters.

(** The directory creation ([mkdir]) is left out: the files are a map from
    paths to contents. *)
Definition export_obj_glb (mesh : TriangleMesh) (uv : list (float * float))
      (texture_path out_dir : string) : M (string * string * string) :=
    let obj_path := path_join out_dir "model.obj" in
    let mtl_path := path_join out_dir "model.mtl" in
    let glb_path := path_join out_dir "model.glb" in
    (* Load texture image *)
    let* tex_file := read_file texture_path in
    let* tex_arr := lift (pil_open_rgb exporters tex_file) in
    (* Export OBJ (+MTL) *)
    let* obj_str := lift (export_obj exporters (vertices mesh) (triangles mesh) uv tex_arr) in
    do write_file obj_path (Text obj_str) then
    (* Write texture alongside *)
    let tex_out := path_join out_dir "texture.png" in
    let* tex_png := lift (pil_save exporters tex_arr) in
    do write_file tex_out tex_png then
    (* Export GLB (binary glTF) *)
    let* glb := lift (export_glb exporters (vertices mesh) (triangles mesh) uv tex_arr) in
    do write_file glb_path (Binary glb) then
    ret (obj_path, glb_path, tex_out).

Definition write_stats (mesh : TriangleMesh) (out_dir : string) : M unit :=
    let* (lo, _) := lift (mesh_get_axis_aligned_bounding_box o3d mesh) in
    let* (_, hi) := lift (mesh_get_axis_aligned_bounding_box o3d mesh) in
    let list3 := fun '(x, y, z) => [x; y; z] in
    write_file (path_join out_dir "stats.json")
      (Json (len (vertices mesh)) (len (triangles mesh)) (list3 lo) (list3 hi)).

  (** [H, W = image_bgr.shape[:2]] *)
Definition image_size (image : ndarray) : result (Z * Z) :=
    match nd_shape image with
    | h :: w :: _ => Ok (Z.of_nat h, Z.of_nat w)
    | _ => Raise (Exn "ValueError" "not enough values to unpack")
    end.

Definition run_single_image (input_path output_dir : string) : M unit :=
    fun w =>
      match w_files w !! input_path ≫= cv2_imdecode opencv with
      | None =>
          (Raise (Exn "FileNotFoundError" ("Failed to read image: " ++ input_path)), w)
      | Some image_bgr =>
          (let* (H, W) := lift (image_size image_bgr) in
           let dev := if cuda_is_available torch then Cuda else Cpu in
           let* (model, transform) := load_midas torch dev in
           let* depth := estimate_depth torch opencv model transform image_bgr dev in
           (* the range printed after "Depth computed" *)
           let* depth_a := deref depth in
           let* _ := lift (nd_min depth_a) in
           let* _ := lift (nd_max depth_a) in
           let K := infer_intrinsics W H None in
           let* pcd := depth_to_pointcloud depth K in
           let* pcd := clean_pointcloud o3d pcd in
           let* mesh := reconstruct_mesh o3d pcd in
           (* UVs and texture *)
           let uv := compute_uv mesh K W H in
           (* Save texture from original image *)
           let out_dir := output_dir in
           let texture_path := path_join out_dir "texture.png" in
           let* rgb := lift (cv2_cvtColor_BGR2RGB opencv image_bgr) in
           let* png := lift (pil_save exporters rgb) in
           do write_file texture_path png then
           let* _ := export_obj_glb mesh uv texture_path out_dir in
           write_stats mesh out_dir) w
      end.
End Run.

(* ===================================================================== *)
(** ** Vocabulary of the properties, and stand-ins for the libraries *)
(* ===================================================================== *)

(** The world after an allocation, after a call, after a file is written. *)
Definition heap_push (w : world) (a : ndarray) : world :=
  World (w_heap w ++ [a]) (w_files w) (w_calls w).

(** [w'] has every array object of [w], unchanged, and possibly new ones;
    the files and the call record are those of [w]. *)
Definition extends (w w' : world) : Prop :=
  (exists new, w_heap w' = w_heap w ++ new) /\
  w_files w' = w_files w /\ w_calls w' = w_calls w.

Definition allocates_only {A} (m : M A) : Prop :=
  forall w, extends w (snd (m w)).

(** The scaled depth [z] of the source and the mask [z.reshape(-1) > 1e-3]. *)
Definition scaled_depth (b : buffer) : list float :=
  let dt := arith_dtype b None in
  map (fun x => farith dt Mul x (fcast Float64 dt (py_literal 30 1))) (buf_floats dt b).

Definition valid_mask (b : buffer) : list bool :=
  let dt := arith_dtype b None in
  map (fun x => SFltb (fcast Float64 dt (py_literal 1 3)) x)
      (map (fcast dt dt) (scaled_depth b)).

(** The number of pixels whose scaled depth is above the threshold. *)
Definition kept_pixels (b : buffer) : nat :=
  length (List.filter (fun m : bool => m) (valid_mask b)).

Definition buf_all_zero (b : buffer) : bool :=
  match b with
  | FloatBuf _ xs => forallb is_zero xs
  | IntBuf zs => forallb (Z.eqb 0) zs
  | BoolBuf bs => forallb negb bs
  end.

(** A 2 x 2 depth map that is 0 at every pixel, alone in the store. *)
Definition zero_depth_2x2 : ndarray :=
  NdArray [2%nat; 2%nat] (FloatBuf Float32 (replicate 4 (S754_zero false))).
Definition world_zero_depth : world := World [zero_depth_2x2] ∅ [].

Definition log_call (w : world) (c : call) : world :=
  World (w_heap w) (w_files w) (w_calls w ++ [c]).

(** The calls that build and repair the mesh, before the simplification. *)
Definition repair_calls : list call :=
  [ CreateFromPointCloudPoisson 8; GetAxisAlignedBoundingBox; Crop;
    RemoveDegenerateTriangles; RemoveDuplicatedTriangles; RemoveDuplicatedVertices;
    RemoveNonManifoldEdges; FilterSmoothSimple 1 ].

(** The points (0, 0, 1) and (0, 0, 0). *)
Definition up_normal : row3 := (S754_zero false, S754_zero false, F64.of_Z 1).
Definition origin : row3 := (S754_zero false, S754_zero false, S754_zero false).

(** The triangles (0, i, i+1) of a fan over [n] vertices. *)
Definition fan_triangles (n : nat) : list (Z * Z * Z) :=
  map (fun i => (0, Z.of_nat i, Z.of_nat i + 1)) (seq 1 (n - 2)).

(** A stand-in for Open3D with the types of the interface, to run the
    pipeline on concrete inputs: cleaning and repair change nothing, the
    mesher makes a triangle fan over the points, the decimation keeps the
    first [target] triangles. *)
Definition toy_open3d : Open3D := {|
  voxel_down_sample := fun pcd _ => Ok pcd;
  remove_statistical_outlier := fun pcd _ _ => Ok (pcd, []);
  estimate_normals := fun pcd _ _ => Ok (map (fun _ => up_normal) (pc_points pcd));
  create_from_point_cloud_poisson := fun pcd _ =>
    Ok (MkMesh (pc_points pcd) (fan_triangles (length (pc_points pcd))) [], []);
  pcd_get_axis_aligned_bounding_box := fun _ => Ok (origin, origin);
  crop := fun m _ => Ok m;
  remove_degenerate_triangles := fun m => Ok m;
  remove_duplicated_triangles := fun m => Ok m;
  remove_duplicated_vertices := fun m => Ok m;
  remove_non_manifold_edges := fun m => Ok m;
  filter_smooth_simple := fun m _ => Ok m;
  simplify_quadric_decimation := fun m t =>
    if 0 <? t
    then Ok (MkMesh (vertices m) (firstn (Z.to_nat t) (triangles m)) (vertex_normals m))
    else Raise (Exn "RuntimeError" "target_number_of_triangles must be positive");
  compute_vertex_normals := fun m => Ok (map (fun _ => up_normal) (vertices m));
  mesh_get_axis_aligned_bounding_box := fun _ => Ok (origin, origin)
|}.

(** Three points, which the stand-in mesher joins into one triangle. *)
Definition three_points : PointCloud :=
  MkPointCloud [origin; up_normal; (F64.of_Z 1, S754_zero false, S754_zero false)] [].

Definition empty_world : world := World [] ∅ [].

(** The outcome of the [try] body for one variant: the model if it loads and
    initialises, paired with the transform its name selects. *)
Definition attempt {Model Transform} (torch : Torch Model Transform)
    (transforms : Transform * Transform) (dev : device) (model_name : string)
  : result (Model * Transform) :=
  match hub_load_model torch model_name with
  | Ok model =>
      match model_eval_to torch model dev with
      | Ok _ => Ok (model,
                    if String.eqb model_name "MiDaS_small"
                    then small_transform transforms else dpt_transform transforms)
      | Raise e => Raise e
      end
  | Raise e => Raise e
  end.

(** A stand-in for torch.hub in which no model can be loaded; each attempt
    fails with an error that names the variant. *)
Definition offline_torch : Torch string string := {|
  cuda_is_available := false;
  hub_load_transforms := Ok ("small_transform", "dpt_transform")%string;
  hub_load_model := fun name => Raise (Exn "HTTPError" ("cannot fetch " ++ name));
  model_eval_to := fun _ _ => Ok tt;
  midas_predict := fun _ _ a _ => Ok a
|}.

(** A stand-in in which only the smallest variant loads. *)
Definition small_only_torch : Torch string string := {|
  cuda_is_available := false;
  hub_load_transforms := Ok ("small_transform", "dpt_transform")%string;
  hub_load_model := fun name =>
    if String.eqb name "MiDaS_small" then Ok name
    else Raise (Exn "HTTPError" ("cannot fetch " ++ name));
  model_eval_to := fun _ _ => Ok tt;
  midas_predict := fun _ _ a _ => Ok a
|}.

(** [sub in s] on Python strings *)
Definition py_in (sub s : string) : bool :=
  match index 0 sub s with Some _ => true | None => false end.

(** The vertex (0, 0, -1e-6): finite, on the optical axis, just behind the
    camera centre. *)
Definition vertex_at_minus_eps : row3 :=
  (py_float 0, py_float 0, SFopp (py_literal 1 6)).

(** The map of the given shape and type that is +0 at each of [n] pixels. *)
Definition zero_map (s : list nat) (dt : fdtype) (n : nat) : ndarray :=
  NdArray s (FloatBuf dt (replicate n (S754_zero false))).

(** The bilateral filter maps a map that is zero everywhere to a map of the
    same shape that is zero everywhere. *)
Definition filter_keeps_zero (opencv : OpenCV) : Prop :=
  forall a d sigma_color sigma_space,
    buf_all_zero (nd_buf a) = true ->
    exists b, cv2_bilateralFilter opencv a d sigma_color sigma_space = Ok b /\
              nd_shape b = nd_shape a /\ buf_all_zero (nd_buf b) = true.

(** A stand-in for OpenCV: every file decodes to one 2 x 2 grey image, the
    colour conversion and the filter return their input. *)
Definition toy_opencv : OpenCV := {|
  cv2_imdecode := fun _ => Some (NdArray [2%nat; 2%nat; 3%nat] (IntBuf (replicate 12 128)));
  cv2_cvtColor_BGR2RGB := fun a => Ok a;
  cv2_bilateralFilter := fun a _ _ _ => Ok a
|}.

(** A network that sees every scene as flat: it predicts 5.0 at each of
    the 2 x 2 pixels. *)
Definition flat_depth_2x2 : ndarray :=
  NdArray [2%nat; 2%nat] (FloatBuf Float32 (replicate 4 (F32.of_Z 5))).

Definition flat_torch : Torch string string := {|
  cuda_is_available := false;
  hub_load_transforms := Ok ("small_transform", "dpt_transform")%string;
  hub_load_model := fun name => Ok name;
  model_eval_to := fun _ _ => Ok tt;
  midas_predict := fun _ _ _ _ => Ok flat_depth_2x2
|}.

(** A 1 x 2 raw depth map with the finite float32 values -2^127 and 2^127. *)
Definition wide_depth_1x2 : ndarray :=
  NdArray [1%nat; 2%nat]
    (FloatBuf Float32 [S754_finite true 8388608 104; S754_finite false 8388608 104]).

(** The failure class of the spec's taxonomy that the claims ask about. *)
Definition DegenerateGeometry : string := "DegenerateGeometry".

(** [r] is not an exception of class [cls]. *)
Definition result_avoids {A} (cls : string) (r : result A) : Prop :=
  forall e, r = Raise e -> exn_class e <> cls.

(** [m] never raises an exception of class [cls]. *)
Definition avoids {A} (cls : string) (m : M A) : Prop :=
  forall w, result_avoids cls (fst (m w)).

(** No call into the libraries raises an exception of class [cls]. *)
Record torch_avoids (cls : string) {Model Transform} (torch : Torch Model Transform)
  : Prop := {
  ta_transforms : result_avoids cls (hub_load_transforms torch);
  ta_model : forall n, result_avoids cls (hub_load_model torch n);
  ta_eval : forall m d, result_avoids cls (model_eval_to torch m d);
  ta_predict : forall m t a d, result_avoids cls (midas_predict torch m t a d)
}.

Record opencv_avoids (cls : string) (opencv : OpenCV) : Prop := {
  ca_cvt : forall a, result_avoids cls (cv2_cvtColor_BGR2RGB opencv a);
  ca_filter : forall a d sc ss, result_avoids cls (cv2_bilateralFilter opencv a d sc ss)
}.

Record open3d_avoids (cls : string) (o3d : Open3D) : Prop := {
  oa_voxel : forall p v, result_avoids cls (voxel_down_sample o3d p v);
  oa_outlier : forall p n r, result_avoids cls (remove_statistical_outlier o3d p n r);
  oa_normals : forall p r n, result_avoids cls (estimate_normals o3d p r n);
  oa_poisson : forall p d, result_avoids cls (create_from_point_cloud_poisson o3d p d);
  oa_pcd_box : forall p, result_avoids cls (pcd_get_axis_aligned_bounding_box o3d p);
  oa_crop : forall m b, result_avoids cls (crop o3d m b);
  oa_degenerate : forall m, result_avoids cls (remove_degenerate_triangles o3d m);
  oa_dup_triangles : forall m, result_avoids cls (remove_duplicated_triangles o3d m);
  oa_dup_vertices : forall m, result_avoids cls (remove_duplicated_vertices o3d m);
  oa_non_manifold : forall m, result_avoids cls (remove_non_manifold_edges o3d m);
  oa_smooth : forall m n, result_avoids cls (filter_smooth_simple o3d m n);
  oa_simplify : forall m t, result_avoids cls (simplify_quadric_decimation o3d m t);
  oa_vertex_normals : forall m, result_avoids cls (compute_vertex_normals o3d m);
  oa_mesh_box : forall m, result_avoids cls (mesh_get_axis_aligned_bounding_box o3d m)
}.

Record exporters_avoid (cls : string) (exporters : Exporters) : Prop := {
  ea_save : forall a, result_avoids cls (pil_save exporters a);
  ea_open : forall c, result_avoids cls (pil_open_rgb exporters c);
  ea_obj : forall v t uv tex, result_avoids cls (export_obj exporters v t uv tex);
  ea_glb : forall v t uv tex, result_avoids cls (export_glb exporters v t uv tex)
}.

Definition put_file (w : world) (p : string) (c : content) : world :=
  World (w_heap w) (<[p := c]> (w_files w)) (w_calls w).

(** Stand-ins for PIL and trimesh. *)
Definition toy_exporters : Exporters := {|
  pil_save := fun _ => Ok (Binary []);
  pil_open_rgb := fun _ => Ok (NdArray [2%nat; 2%nat; 3%nat] (IntBuf (replicate 12 128)));
  export_obj := fun _ _ _ _ => Ok "mtllib model.mtl"%string;
  export_glb := fun _ _ _ _ => Ok []
|}.

(** The Open3D stand-in again, with a mesher that refuses a cloud without
    points (such a cloud has no normals either). *)
Definition strict_open3d : Open3D := {|
  voxel_down_sample := voxel_down_sample toy_open3d;
  remove_statistical_outlier := remove_statistical_outlier toy_open3d;
  estimate_normals := estimate_normals toy_open3d;
  create_from_point_cloud_poisson := fun pcd d =>
    match pc_points pcd with
    | [] => Raise (Exn "RuntimeError" "[Open3D Error] point cloud has no normals")
    | _ => create_from_point_cloud_poisson toy_open3d pcd d
    end;
  pcd_get_axis_aligned_bounding_box := pcd_get_axis_aligned_bounding_box toy_open3d;
  crop := crop toy_open3d;
  remove_degenerate_triangles := remove_degenerate_triangles toy_open3d;
  remove_duplicated_triangles := remove_duplicated_triangles toy_open3d;
  remove_duplicated_vertices := remove_duplicated_vertices toy_open3d;
  remove_non_manifold_edges := remove_non_manifold_edges toy_open3d;
  filter_smooth_simple := filter_smooth_simple toy_open3d;
  simplify_quadric_decimation := simplify_quadric_decimation toy_open3d;
  compute_vertex_normals := compute_vertex_normals toy_open3d;
  mesh_get_axis_aligned_bounding_box := mesh_get_axis_aligned_bounding_box toy_open3d
|}.

(** A file system with one photo in it. *)
Definition world_with_photo : world :=
  World [] {[ "room.jpg"%string := Binary [] ]} [].

(* ===================================================================== *)
(** ** The upload check of the API server (server.py) *)
(* ===================================================================== *)

(** File names are byte strings; [str.lower] acts on the ASCII letters (the
    other characters cannot turn into a letter of an allowed extension). *)
Definition lower_char (c : ascii) : ascii :=
  let n := nat_of_ascii c in
  if (65 <=? n)%nat && (n <=? 90)%nat then ascii_of_nat (n + 32) else c.

Fixpoint lower (s : string) : string :=
  match s with
  | EmptyString => EmptyString
  | String c s' => String (lower_char c) (lower s')
  end.

Definition ALLOWED_EXTENSIONS : list string := ["png"; "jpg"; "jpeg"; "webp"]%string.

(** ['.' in s] *)
Fixpoint has_dot (s : string) : bool :=
  match s with
  | EmptyString => false
  | String c s' => Ascii.eqb c "."%char || has_dot s'
  end.

(** [s.rsplit('.', 1)[1]]: what follows the last dot of [s]; there is no
    such element when [s] has no dot. *)
Fixpoint after_last_dot (s : string) : option string :=
  match s with
  | EmptyString => None
  | String c s' =>
      match after_last_dot s' with
      | Some ext => Some ext
      | None => if Ascii.eqb c "."%char then Some s' else None
      end
  end.

Definition allowed_file (filename : string) : bool :=
  has_dot filename &&
  match after_last_dot filename with
  | Some ext => existsb (String.eqb (lower ext)) ALLOWED_EXTENSIONS
  | None => false
  end.

(* ===================================================================== *)
(** ** Back-projection, pixel by pixel *)
(* ===================================================================== *)

(** The pixel coordinates (u, v) of an h x w image in row-major order. *)
Definition pixels (h w : nat) : list (Z * Z) :=
  flat_map (fun v => map (fun u => (Z.of_nat u, Z.of_nat v)) (seq 0 w)) (seq 0 h).

(** The camera-space point of pixel (u, v) with scaled depth [z] of float
    type [dt]: [x = (u - cx) * z / fx], [y = (v - cy) * z / fy], in binary64. *)
Definition back_project_pixel (K : mat3) (dt : fdtype) (p : Z * Z) (z : float) : row3 :=
  let '(u, v) := p in
  let z64 := fcast dt Float64 z in
  (F64.div (F64.mul (F64.sub (F64.of_Z u) (F64.round (K_cx K))) z64) (F64.round (K_fx K)),
   F64.div (F64.mul (F64.sub (F64.of_Z v) (F64.round (K_cy K))) z64) (F64.round (K_fy K)),
   z64).

(** The points of the pixels whose scaled depth is above the threshold, in
    pixel order. *)
Fixpoint back_project (K : mat3) (dt : fdtype) (ps : list (Z * Z)) (zs : list float)
  : list row3 :=
  match ps, zs with
  | p :: ps', z :: zs' =>
      if SFltb (fcast Float64 dt (py_literal 1 3)) z
      then back_project_pixel K dt p z :: back_project K dt ps' zs'
      else back_project K dt ps' zs'
  | _, _ => []
  end.

(** The stacked coordinates before masking, as the array program computes
    them from the column indices [us], the row indices [vs] and the scaled
    depth [zs] of type [dt]. *)
Definition stacked_rows (K : mat3) (dt : fdtype) (us vs : list Z) (zs : list float)
  : list row3 :=
  let coord := fun (c f : float) (idx : list Z) =>
    map (fun t => F64.div t (F64.round f))
      (map (fcast Float64 Float64)
         (zip_with F64.mul
            (map (fcast Float64 Float64)
               (map (fun x => F64.sub x (F64.round c)) (map F64.of_Z idx)))
            (map (fcast dt Float64) zs))) in
  rows3 (interleave3 (map (fcast Float64 Float64) (coord (K_cx K) (K_fx K) us))
                     (map (fcast Float64 Float64) (coord (K_cy K) (K_fy K) vs))
                     (map (fcast dt Float64) zs)).

(** A 2 x 2 depth map with two pixels above the threshold (1.0 and 0.5). *)
Definition sample_depth_2x2 : ndarray :=
  NdArray [2%nat; 2%nat]
    (FloatBuf Float32 [S754_zero false; F32.of_Z 1; F32.round (py_literal 5 1); S754_zero false]).

(** The number of elements of a buffer. *)
Definition buf_length (b : buffer) : nat :=
  match b with
  | FloatBuf _ xs => length xs
  | IntBuf zs => length zs
  | BoolBuf bs => length bs
  end.

(* ===================================================================== *)
(** ** Which files a computation may write *)
(* ===================================================================== *)

(** [m] leaves every file outside [paths] as it was, whatever its outcome. *)
Definition writes_within {A} (paths : list string) (m : M A) : Prop :=
  forall w p, ~ In p paths -> w_files (snd (m w)) !! p = w_files w !! p.

(** The four files of a run into [output_dir]. *)
Definition output_files (output_dir : string) : list string :=
  [ path_join output_dir "texture.png"; path_join output_dir "model.obj";
    path_join output_dir "model.glb"; path_join output_dir "stats.json" ].

(** The names that were fetched from the hub, in the order of the calls. *)
Fixpoint hub_names (calls : list call) : list string :=
  match calls with
  | [] => []
  | HubLoad _ name :: rest => name :: hub_names rest
  | _ :: rest => hub_names rest
  end.

(** A network that sees a ramp: 1, 2, 3, 4 over the 2 x 2 pixels. *)
Definition ramp_torch : Torch string string := {|
  cuda_is_available := false;
  hub_load_transforms := Ok ("small_transform", "dpt_transform")%string;
  hub_load_model := fun name => Ok name;
  model_eval_to := fun _ _ => Ok tt;
  midas_predict := fun _ _ _ _ =>
    Ok (NdArray [2%nat; 2%nat] (FloatBuf Float32 (map F32.of_Z [1; 2; 3; 4])))
|}.

(** Exporters whose GLB encoder fails. *)
Definition no_glb_exporters : Exporters := {|
  pil_save := pil_save toy_exporters;
  pil_open_rgb := pil_open_rgb toy_exporters;
  export_obj := export_obj toy_exporters;
  export_glb := fun _ _ _ _ => Raise (Exn "ValueError" "cannot encode")
|}.

(* ===================================================================== *)
(** ** The API server (server.py) *)
(* ===================================================================== *)

(** An uploaded file of a request: its client-side name and its bytes. *)
Record upload := Upload { up_filename : string; up_content : content }.

(** [subprocess.CompletedProcess] *)
Record completed := Completed { returncode : Z; stdout : string; stderr : string }.

(** What a handler returns: a JSON error, the JSON summary of a generation,
    or a file sent as an attachment; each with its HTTP status. *)
Inductive body :=
| ErrorBody (error : string) (details : option string)
| SuccessBody (files : list string) (stats : option content)
| FileBody (path mimetype download_name : string).

Record response := Response { status : Z; resp_body : body }.

(** Flask, werkzeug, tempfile, subprocess and json, as far as the handlers
    use them.  The subprocess acts on the world (it writes the output files).
    Creating the temporary directory and its "out" folder, [jsonify] and
    [send_file] are taken to succeed, and removing the temporary directory
    when the handler is left is not modelled. *)
Record Server := MkServer {
  (** the directory [tempfile.TemporaryDirectory()] creates *)
  tmpdir : string;
  secure_filename : string -> string;
  (** [file.save(path)] *)
  save_upload : upload -> string -> M unit;
  (** [subprocess.run(args, capture_output=True, text=True, timeout=120)];
      it raises TimeoutExpired when the time is over. *)
  subprocess_run : list string -> M completed;
  sys_executable : string;
  predict_script : string;
  json_loads : content -> result content;
  (** the text of [f"{ALLOWED_EXTENSIONS}"], a set in some order *)
  allowed_repr : string
}.

(** [path.exists()] *)
Definition path_exists (path : string) : M bool :=
  fun w => (Ok (bool_decide (is_Some (w_files w !! path))), w).

Section ServerHandlers.
Variable srv : Server.

(** The command line of the prediction, as both handlers build it. *)
Definition predict_args (input_path output_dir : string) : list string :=
  [ sys_executable srv; predict_script srv; "--input"; input_path;
    "--output"; output_dir ]%string.

(** The part of [generate_3d] inside the [try]. *)
Definition generate_3d_try (input_path output_dir : string) : M response :=
  let* result := subprocess_run srv (predict_args input_path output_dir) in
  if negb (returncode result =? 0) then
    ret (Response 500 (ErrorBody "3D generation failed" (Some (stderr result))))
  else
    (* Read generated files *)
    let obj_path := path_join output_dir "model.obj" in
    let glb_path := path_join output_dir "model.glb" in
    let texture_path := path_join output_dir "texture.png" in
    let stats_path := path_join output_dir "stats.json" in
    (* Check what files were generated; the dict keeps the order of insertion *)
    let* has_obj := path_exists obj_path in
    let* generated := (if has_obj : bool
                       then let* _ := read_file obj_path in ret ["obj"%string]
                       else ret []) in
    let* has_glb := path_exists glb_path in
    let* generated := (if has_glb : bool
                       then let* _ := read_file glb_path in ret (generated ++ ["glb"%string])
                       else ret generated) in
    let* has_texture := path_exists texture_path in
    let* generated := (if has_texture : bool
                       then let* _ := read_file texture_path in
                            ret (generated ++ ["texture"%string])
                       else ret generated) in
    let* has_stats := path_exists stats_path in
    let* (generated, stats) :=
      (if has_stats : bool
       then let* text := read_file stats_path in
            let* parsed := lift (json_loads srv text) in
            ret (generated ++ ["stats"%string], Some parsed)
       else ret (generated, None)) in
    ret (Response 200 (SuccessBody generated stats)).

Definition generate_3d (files : gmap string upload) : M response :=
  match files !! "image"%string with
  | None => ret (Response 400 (ErrorBody "No image file provided" None))
  | Some file =>
      if String.eqb (up_filename file) "" then
        ret (Response 400 (ErrorBody "Empty filename" None))
      else if negb (allowed_file (up_filename file)) then
        ret (Response 400
               (ErrorBody ("Invalid file type. Allowed: " ++ allowed_repr srv) None))
      else
        (* Save uploaded file *)
        let input_path := path_join (tmpdir srv) (secure_filename srv (up_filename file)) in
        let output_dir := path_join (tmpdir srv) "out" in
        do save_upload srv file input_path then
        try_except (generate_3d_try input_path output_dir)
          (fun e =>
             if String.eqb (exn_class e) "TimeoutExpired"
             then ret (Response 500 (ErrorBody "Processing timeout (>2 minutes)" None))
             else ret (Response 500 (ErrorBody (exn_msg e) None)))
  end.

(** The part of [generate_3d_sync] inside the [try]. *)
Definition generate_3d_sync_try (input_path output_dir : string) : M response :=
  let* result := subprocess_run srv (predict_args input_path output_dir) in
  if negb (returncode result =? 0) then
    ret (Response 500 (ErrorBody "Generation failed" (Some (stderr result))))
  else
    (* Return GLB file *)
    let glb_path := path_join output_dir "model.glb" in
    let* has_glb := path_exists glb_path in
    if has_glb : bool
    then ret (Response 200 (FileBody glb_path "model/gltf-binary" "model.glb"))
    else ret (Response 500 (ErrorBody "GLB file not generated" None)).

Definition generate_3d_sync (files : gmap string upload) : M response :=
  match files !! "image"%string with
  | None => ret (Response 400 (ErrorBody "No image file provided" None))
  | Some file =>
      if String.eqb (up_filename file) "" || negb (allowed_file (up_filename file)) then
        ret (Response 400 (ErrorBody "Invalid file" None))
      else
        let input_path := path_join (tmpdir srv) (secure_filename srv (up_filename file)) in
        let output_dir := path_join (tmpdir srv) "out" in
        do save_upload srv file input_path then
        try_except (generate_3d_sync_try input_path output_dir)
          (fun e => ret (Response 500 (ErrorBody (exn_msg e) None)))
  end.
End ServerHandlers.

(** An upload is refused: there is no "image" part, or its file name does
    not pass [allowed_file]. *)
Definition refused_upload (files : gmap string upload) : Prop :=
  match files !! "image"%string with
  | None => True
  | Some file => allowed_file (up_filename file) = false
  end.

(** The keys of [generated_files] with the file each one stands for, in
    the order the handler fills the dict. *)
Definition output_keys : list (string * string) :=
  [ ("obj", "model.obj"); ("glb", "model.glb");
    ("texture", "texture.png"); ("stats", "stats.json") ]%string.

Definition file_exists (w : world) (path : string) : bool :=
  bool_decide (is_Some (w_files w !! path)).

(** The keys whose file exists in the output directory. *)
Definition generated_keys (output_dir : string) (w : world) : list string :=
  map fst (List.filter (fun kn => file_exists w (path_join output_dir (snd kn))) output_keys).

(** A server on one machine: names are kept, uploads are written where
    asked, and the subprocess is a run of the pipeline with the stand-in
    libraries, which exits with 1 when the run raises. *)
Definition toy_subprocess (output_of : string -> string -> M unit) (args : list string)
  : M completed :=
  match args with
  | [_; _; _; input_path; _; output_dir] =>
      fun w => match output_of input_path output_dir w with
               | (Ok _, w') => (Ok (Completed 0 "" ""), w')
               | (Raise e, w') => (Ok (Completed 1 "" (exn_msg e)), w')
               end
  | _ => ret (Completed 2 "" "usage")
  end.

Definition toy_server (output_of : string -> string -> M unit) : Server := {|
  tmpdir := "/tmp/upload";
  secure_filename := fun name => name;
  save_upload := fun file path => write_file path (up_content file);
  subprocess_run := toy_subprocess output_of;
  sys_executable := "python3";
  predict_script := "predict.py";
  json_loads := fun c => Ok c;
  allowed_repr := "{'png', 'jpg', 'jpeg', 'webp'}"
|}.

(** The pipeline with the stand-in libraries. *)
Definition toy_pipeline : string -> string -> M unit :=
  run_single_image ramp_torch toy_opencv toy_open3d toy_exporters.

(** A prediction that exits with 0 and writes nothing. *)
Definition idle_pipeline : string -> string -> M unit := fun _ _ => ret tt.

(** A server whose disk is full, and one whose subprocess runs out of time. *)
Definition full_disk_server : Server := {|
  tmpdir := "/tmp/upload";
  secure_filename := fun name => name;
  save_upload := fun _ _ => raise (Exn "OSError" "No space left on device");
  subprocess_run := toy_subprocess idle_pipeline;
  sys_executable := "python3";
  predict_script := "predict.py";
  json_loads := fun c => Ok c;
  allowed_repr := "{'png', 'jpg', 'jpeg', 'webp'}"
|}.

Definition slow_server : Server := {|
  tmpdir := "/tmp/upload";
  secure_filename := fun name => name;
  save_upload := fun file path => write_file path (up_content file);
  subprocess_run := fun _ => raise (Exn "TimeoutExpired" "Command timed out after 120 seconds");
  sys_executable := "python3";
  predict_script := "predict.py";
  json_loads := fun c => Ok c;
  allowed_repr := "{'png', 'jpg', 'jpeg', 'webp'}"
|}.

(** A request with one image part. *)
Definition photo_request : gmap string upload :=
  {[ "image"%string := Upload "room.jpg" (Binary []) ]}.

(* ===================================================================== *)
(** ** The check of the produced mesh (tests/test_mesh_stats.py) *)
(* ===================================================================== *)

(** json and trimesh, as far as the check uses them: the integer entries
    of the loaded stats, and the numbers of rows of [mesh.vertices] and
    [mesh.faces] of the loaded mesh. *)
Record Checker := MkChecker {
  json_load : content -> result (gmap string Z);
  load_mesh : content -> result (Z * Z)
}.

(** [stats[key]] *)
Definition getitem (stats : gmap string Z) (key : string) : result Z :=
  match stats !! key with
  | Some n => Ok n
  | None => Raise (Exn "KeyError" key)
  end.

(** [assert a == b] *)
Definition assert_eq (a b : Z) : M unit :=
  if a =? b then ret tt else raise (Exn "AssertionError" "").

(** [main()] of the check, on [sys.argv].  [Path] keeps a name that has no
    trailing separator. *)
Definition test_mesh_stats_main (chk : Checker) (argv : list string) : M unit :=
  match argv with
  | _ :: out_dir :: _ =>
      let stats_path := path_join out_dir "stats.json" in
      let obj_path := path_join out_dir "model.obj" in
      let* has_stats := path_exists stats_path in
      let* has_obj := path_exists obj_path in
      if negb has_stats || negb has_obj then raise (Exn "SystemExit" "2")
      else
        let* text := read_file stats_path in
        let* stats := lift (json_load chk text) in
        let* obj := read_file obj_path in
        let* (n_vertices, n_faces) := lift (load_mesh chk obj) in
        (* Basic checks *)
        let* sv := lift (getitem stats "vertices") in
        do assert_eq n_vertices sv then
        let* sf := lift (getitem stats "faces") in
        assert_eq n_faces sf
  | _ => raise (Exn "SystemExit" "2")
  end.

(** A checker that reads the stats as they were written, and loads every
    OBJ as a mesh of the given numbers of vertices and faces. *)
Definition toy_checker (n_vertices n_faces : Z) : Checker := {|
  json_load := fun c =>
    match c with
    | Json v f _ _ => Ok {[ "vertices"%string := v; "faces"%string := f ]}
    | _ => Raise (Exn "JSONDecodeError" "Expecting value")
    end;
  load_mesh := fun _ => Ok (n_vertices, n_faces)
|}.

(** Where a handler saves the upload, and where the prediction writes. *)
Definition upload_path (srv : Server) (file : upload) : string :=
  path_join (tmpdir srv) (secure_filename srv (up_filename file)).

Definition upload_output (srv : Server) : string := path_join (tmpdir srv) "out".

(* ===================================================================== *)
(** * Properties *)
(* ===================================================================== *)

(** ** Running a computation step by step *)

Lemma bind_ok {A B} (m : M A) (k : A -> M B) w a w1 :
  m w = (Ok a, w1) -> bind m k w = k a w1.
Proof. intros Hm. unfold bind. now rewrite Hm. Qed.

Lemma bind_raise {A B} (m : M A) (k : A -> M B) w e w1 :
  m w = (Raise e, w1) -> bind m k w = (Raise e, w1).
Proof. intros Hm. unfold bind. now rewrite Hm. Qed.

Lemma alloc_run a w : alloc a w = (Ok (length (w_heap w)), heap_push w a).
Proof. reflexivity. Qed.

Lemma deref_run r a w : w_heap w !! r = Some a -> deref r w = (Ok a, w).
Proof. intros Hr. unfold deref. now rewrite Hr. Qed.

Lemma lift_run {A} (r : result A) w : lift r w = (r, w).
Proof. reflexivity. Qed.

Lemma np1_run f r a b w :
  w_heap w !! r = Some a -> f a = Ok b ->
  np1 f r w = (Ok (length (w_heap w)), heap_push w b).
Proof.
  intros Hr Hf. unfold np1.
  rewrite (bind_ok _ _ _ _ _ (deref_run _ _ _ Hr)).
  unfold bind at 1. rewrite lift_run, Hf. reflexivity.
Qed.

Lemma np2_run f r1 r2 a1 a2 b w :
  w_heap w !! r1 = Some a1 -> w_heap w !! r2 = Some a2 -> f a1 a2 = Ok b ->
  np2 f r1 r2 w = (Ok (length (w_heap w)), heap_push w b).
Proof.
  intros H1 H2 Hf. unfold np2.
  rewrite (bind_ok _ _ _ _ _ (deref_run _ _ _ H1)).
  rewrite (bind_ok _ _ _ _ _ (deref_run _ _ _ H2)).
  unfold bind at 1. rewrite lift_run, Hf. reflexivity.
Qed.

Lemma heap_push_new w a : w_heap (heap_push w a) !! length (w_heap w) = Some a.
Proof. simpl. apply list_lookup_middle. reflexivity. Qed.

Lemma heap_push_old w a r b :
  w_heap w !! r = Some b -> w_heap (heap_push w a) !! r = Some b.
Proof. intros Hr. simpl. now apply lookup_app_l_Some. Qed.

(** ** Computations that only allocate *)

Lemma extends_refl w : extends w w.
Proof. split; [exists []; now rewrite app_nil_r | easy]. Qed.

Lemma extends_trans w1 w2 w3 : extends w1 w2 -> extends w2 w3 -> extends w1 w3.
Proof.
  intros [[l1 H1] [F1 C1]] [[l2 H2] [F2 C2]]. split.
  - exists (l1 ++ l2). now rewrite H2, H1, app_assoc.
  - split; congruence.
Qed.

Lemma extends_lookup w w' r a :
  extends w w' -> w_heap w !! r = Some a -> w_heap w' !! r = Some a.
Proof. intros [[l Hl] _] Hr. rewrite Hl. now apply lookup_app_l_Some. Qed.

Lemma ao_ret {A} (a : A) : allocates_only (ret a).
Proof. intros w. apply extends_refl. Qed.

Lemma ao_raise {A} e : allocates_only (@raise A e).
Proof. intros w. apply extends_refl. Qed.

Lemma ao_lift {A} (r : result A) : allocates_only (lift r).
Proof. intros w. apply extends_refl. Qed.

Lemma ao_deref r : allocates_only (deref r).
Proof. intros w. unfold deref. destruct (w_heap w !! r); apply extends_refl. Qed.

Lemma ao_alloc a : allocates_only (alloc a).
Proof. intros w. split; [now exists [a] | easy]. Qed.

Lemma ao_bind {A B} (m : M A) (k : A -> M B) :
  allocates_only m -> (forall a, allocates_only (k a)) -> allocates_only (bind m k).
Proof.
  intros Hm Hk w. unfold bind. specialize (Hm w).
  destruct (m w) as [[a|e] w1]; simpl in *; [|exact Hm].
  eapply extends_trans; [exact Hm | apply Hk].
Qed.

Lemma ao_np1 f r : allocates_only (np1 f r).
Proof.
  unfold np1. apply ao_bind; [apply ao_deref | intros a].
  apply ao_bind; [apply ao_lift | intros b]. apply ao_alloc.
Qed.

Lemma ao_np2 f r1 r2 : allocates_only (np2 f r1 r2).
Proof.
  unfold np2. apply ao_bind; [apply ao_deref | intros a].
  apply ao_bind; [apply ao_deref | intros b].
  apply ao_bind; [apply ao_lift | intros c]. apply ao_alloc.
Qed.

Create HintDb alloc_only.
#[global] Hint Resolve ao_ret ao_raise ao_lift ao_deref ao_alloc ao_np1 ao_np2 : alloc_only.

Ltac alloc_only_steps :=
  repeat first
    [ apply ao_bind; [solve [auto with alloc_only] | intros ?]
    | match goal with |- allocates_only (let '(_, _) := ?p in _) => destruct p end
    | solve [auto with alloc_only] ].

Lemma depth_to_pointcloud_allocates_only depth K :
  allocates_only (depth_to_pointcloud depth K).
Proof. unfold depth_to_pointcloud. alloc_only_steps. Qed.

(** ** Back-projection, run symbolically *)

Lemma shape_eqb_refl s : shape_eqb s s = true.
Proof. induction s as [|a s IH]; simpl; [easy|]. now rewrite Nat.eqb_refl. Qed.

Lemma nd_arith_same_shape op s d1 xs d2 ys :
  nd_arith op (NdArray s (FloatBuf d1 xs)) (NdArray s (FloatBuf d2 ys)) =
  Ok (NdArray s (FloatBuf (promote d1 d2)
        (zip_with (farith (promote d1 d2) op)
           (map (fcast d1 (promote d1 d2)) xs) (map (fcast d2 (promote d1 d2)) ys)))).
Proof.
  unfold nd_arith. cbn [nd_buf nd_shape buf_dtype buf_floats].
  now rewrite shape_eqb_refl.
Qed.

Lemma nd_stack3_rows_same_shape s dx xs dy ys dz zs :
  nd_stack3_rows (NdArray s (FloatBuf dx xs)) (NdArray s (FloatBuf dy ys))
                 (NdArray s (FloatBuf dz zs)) =
  let dt := promote (promote dx dy) dz in
  Ok (NdArray [fold_right Nat.mul 1%nat s; 3%nat]
        (FloatBuf dt (interleave3 (map (fcast dx dt) xs) (map (fcast dy dt) ys)
                                  (map (fcast dz dt) zs)))).
Proof.
  unfold nd_stack3_rows. cbn [nd_buf nd_shape buf_dtype buf_floats].
  now rewrite shape_eqb_refl.
Qed.

Lemma nd_getitem_mask_rows n dt xs bs :
  nd_getitem_mask (NdArray [n; 3%nat] (FloatBuf dt xs)) (NdArray [n] (BoolBuf bs)) =
  Ok (NdArray [length (select_rows (rows3 xs) bs); 3%nat]
        (FloatBuf dt (unrows3 (select_rows (rows3 xs) bs)))).
Proof. unfold nd_getitem_mask. cbn [nd_buf nd_shape]. now rewrite Nat.eqb_refl. Qed.

Ltac heap_lookup :=
  repeat first [ apply heap_push_new | apply heap_push_old ]; try eassumption.

(** Run the first statement of a computation whose operands are known. *)
Ltac run_step :=
  erewrite bind_ok;
  [| first
       [ apply alloc_run
       | apply deref_run; heap_lookup
       | eapply np1_run; [heap_lookup | reflexivity]
       | eapply np2_run;
         [ heap_lookup | heap_lookup
         | first [apply nd_arith_same_shape | apply nd_getitem_mask_rows] ]
       | rewrite lift_run; try rewrite nd_stack3_rows_same_shape; reflexivity ] ];
  cbv beta iota.

Ltac fold_world :=
  repeat match goal with
  | |- context [heap_push ?w ?a] =>
      is_var w; let w' := fresh "w" in set (w' := heap_push w a) in *
  end.

(** On a two-dimensional depth map the function returns the rows of the
    stacked [x, y, z] that the mask keeps. *)
Lemma depth_to_pointcloud_run w depth K h wd b :
  w_heap w !! depth = Some (NdArray [h; wd] b) ->
  exists rows w',
    depth_to_pointcloud depth K w =
      (Ok (MkPointCloud (rows3 (map (fcast Float64 Float64)
                           (unrows3 (select_rows rows (valid_mask b))))) []), w').
Proof.
  intros Hd. unfold depth_to_pointcloud.
  do 30 try (run_step; fold_world).
  unfold ret. eexists. eexists. reflexivity.
Qed.

Lemma fcast_same dt x : fcast dt dt x = x.
Proof. now destruct dt. Qed.

Lemma fcast_zero d1 d2 x : is_zero x = true -> is_zero (fcast d1 d2 x) = true.
Proof. destruct x; try discriminate. now destruct d1, d2. Qed.

Lemma buf_floats_all_zero b :
  buf_all_zero b = true ->
  Forall (fun x => is_zero x = true) (buf_floats (arith_dtype b None) b).
Proof.
  destruct b as [d xs | zs | bs]; simpl; intros Hz; apply Forall_forall;
    intros x Hx; apply list_elem_of_In, in_map_iff in Hx; destruct Hx as [y [<- Hy]];
    pose proof (proj1 (forallb_forall _ _) Hz y Hy) as Hy0; simpl in Hy0.
  - now rewrite fcast_same.
  - now destruct y.
  - now destruct y.
Qed.

Lemma scale_zero dt x :
  is_zero x = true ->
  is_zero (farith dt Mul x (fcast Float64 dt (py_literal 30 1))) = true.
Proof. destruct x as [s| | |]; try discriminate. intros _. now destruct dt, s. Qed.

Lemma threshold_rejects_zero dt x :
  is_zero x = true -> SFltb (fcast Float64 dt (py_literal 1 3)) x = false.
Proof. destruct x as [s| | |]; try discriminate. intros _. now destruct dt. Qed.

Lemma valid_mask_all_zero b :
  buf_all_zero b = true -> Forall (fun m => m = false) (valid_mask b).
Proof.
  intros Hz. unfold valid_mask, scaled_depth.
  rewrite !Forall_map.
  eapply Forall_impl; [apply buf_floats_all_zero, Hz|].
  intros x Hx. simpl. rewrite fcast_same.
  apply threshold_rejects_zero, scale_zero, Hx.
Qed.

Lemma select_rows_none rows mask :
  Forall (fun m => m = false) mask -> select_rows rows mask = [].
Proof.
  intros Hm. revert rows. induction Hm as [|m mask -> _ IH]; intros [|r rows]; simpl; auto.
Qed.

(** ** Back-projector *)

(** A depth array that is 0 everywhere gives the empty cloud (shared by the
    results on the back-projector and on the depth post-processor). *)
Lemma all_zero_depth_run (w : world) (depth : ref) (K : mat3) (h wd : nat) (b : buffer) :
  w_heap w !! depth = Some (NdArray [h; wd] b) ->
  buf_all_zero b = true ->
  fst (depth_to_pointcloud depth K w) = Ok (MkPointCloud [] []).
Proof.
  intros Hd Hz.
  destruct (depth_to_pointcloud_run w depth K h wd b Hd) as (rows & w' & Hrun).
  rewrite Hrun. cbn [fst].
  now rewrite (select_rows_none rows _ (valid_mask_all_zero b Hz)).
Qed.

Lemma select_rows_length rows mask :
  (length (select_rows rows mask) <= length (List.filter (fun m : bool => m) mask))%nat.
Proof.
  revert rows. induction mask as [|m mask IH]; intros [|r rows]; simpl; try lia.
  destruct m; simpl; [specialize (IH rows); lia | apply IH].
Qed.

Lemma rows3_unrows3_length (f : float -> float) rows :
  length (rows3 (map f (unrows3 rows))) = length rows.
Proof.
  induction rows as [|[[x y] z] rows IH]; [reflexivity|].
  cbn [unrows3 flat_map app map rows3 length]. f_equal. exact IH.
Qed.

(** C7: a depth map that is exactly 0 at every pixel back-projects to the
    empty point cloud: the mask [z > 1e-3] keeps no pixel, so no row of the
    stacked coordinates survives.  On every depth map the cloud has no more
    points than there are pixels with [z] above the threshold: a pixel at or
    below it contributes none. *)
Theorem depth_to_pointcloud_zero_depth (w : world) (depth : ref) (K : mat3)
    (h wd : nat) (b : buffer) :
  w_heap w !! depth = Some (NdArray [h; wd] b) ->
  (buf_all_zero b = true ->
   fst (depth_to_pointcloud depth K w) = Ok (MkPointCloud [] [])) /\
  (exists pcd, fst (depth_to_pointcloud depth K w) = Ok pcd /\
               (length (pc_points pcd) <= kept_pixels b)%nat).
Proof.
  intros Hd.
  destruct (depth_to_pointcloud_run w depth K h wd b Hd) as (rows & w' & Hrun).
  rewrite Hrun. cbn [fst]. split.
  - intros Hz. now rewrite (select_rows_none rows _ (valid_mask_all_zero b Hz)).
  - eexists. split; [reflexivity|]. cbn [pc_points].
    rewrite rows3_unrows3_length. apply select_rows_length.
Qed.

Lemma depth_to_pointcloud_zero_depth_witness :
  w_heap world_zero_depth !! 0%nat = Some zero_depth_2x2 /\
  buf_all_zero (nd_buf zero_depth_2x2) = true /\
  fst (depth_to_pointcloud 0%nat (infer_intrinsics 2 2 None) world_zero_depth)
    = Ok (MkPointCloud [] []) /\
  (exists pcd,
     fst (depth_to_pointcloud 0%nat (infer_intrinsics 2 2 None) world_zero_depth) = Ok pcd /\
     (length (pc_points pcd) <= kept_pixels (nd_buf zero_depth_2x2))%nat).
Proof.
  split; [reflexivity|]. split; [reflexivity|].
  destruct (depth_to_pointcloud_zero_depth world_zero_depth 0%nat
              (infer_intrinsics 2 2 None) 2 2 (nd_buf zero_depth_2x2) eq_refl)
    as [Hzero Hbound].
  split; [apply Hzero; reflexivity | exact Hbound].
Defined.

(** C9: the back-projector leaves its input depth array unchanged: whatever
    the outcome of the call, the array object the caller passed holds the
    same shape and elements afterwards (the scaling goes to new objects). *)
Theorem depth_to_pointcloud_keeps_depth (w : world) (depth : ref) (K : mat3)
    (a : ndarray) :
  w_heap w !! depth = Some a ->
  w_heap (snd (depth_to_pointcloud depth K w)) !! depth = Some a.
Proof.
  intros Hd. eapply extends_lookup; [|exact Hd].
  apply depth_to_pointcloud_allocates_only.
Qed.

Lemma depth_to_pointcloud_keeps_depth_witness :
  w_heap world_zero_depth !! 0%nat = Some zero_depth_2x2 /\
  w_heap (snd (depth_to_pointcloud 0%nat (infer_intrinsics 2 2 None) world_zero_depth))
    !! 0%nat = Some zero_depth_2x2.
Proof.
  split; [reflexivity|].
  apply (depth_to_pointcloud_keeps_depth world_zero_depth 0%nat
           (infer_intrinsics 2 2 None) zero_depth_2x2).
  reflexivity.
Defined.

(** ** Surface reconstructor *)

Lemma bind_inv_ok {A B} (m : M A) (k : A -> M B) w b w' :
  bind m k w = (Ok b, w') ->
  exists a w1, m w = (Ok a, w1) /\ k a w1 = (Ok b, w').
Proof.
  unfold bind. destruct (m w) as [[a|e] w1]; [eauto | discriminate].
Qed.

Lemma ext_inv_ok {A} c (r : result A) w a w' :
  ext c r w = (Ok a, w') -> r = Ok a /\ w' = log_call w c.
Proof.
  unfold ext, bind, log, lift. simpl. intros H. inversion H. auto.
Qed.

Lemma lift_inv_ok {A} (r : result A) w a w' :
  lift r w = (Ok a, w') -> r = Ok a /\ w' = w.
Proof. unfold lift. intros H. inversion H. auto. Qed.

(** Split off the first statement of a computation that succeeded. *)
Ltac inv_ext H :=
  let a := fresh "m" in let w1 := fresh "w" in
  let Hc := fresh "Hcall" in let Hw := fresh "Hw" in
  apply bind_inv_ok in H; destruct H as (a & w1 & Hc & H);
  apply ext_inv_ok in Hc; destruct Hc as [Hc Hw]; subst w1.

Ltac inv_lift H :=
  let a := fresh "v" in let w1 := fresh "w" in
  let Hc := fresh "Hval" in let Hw := fresh "Hw" in
  apply bind_inv_ok in H; destruct H as (a & w1 & Hc & H);
  apply lift_inv_ok in Hc; destruct Hc as [Hc Hw]; subst w1.

(** A successful reconstruction, taken apart: [repaired] is the mesh after
    the smoothing, [final] the one whose normals are computed. *)
Lemma reconstruct_mesh_inv o3d pcd w mesh w' :
  reconstruct_mesh o3d pcd w = (Ok mesh, w') ->
  exists m0 repaired final normals,
    filter_smooth_simple o3d m0 1 = Ok repaired /\
    (if 0 <? Z.min (len (triangles repaired)) triangle_budget
     then simplify_quadric_decimation o3d repaired
            (Z.min (len (triangles repaired)) triangle_budget) = Ok final
     else final = repaired) /\
    compute_vertex_normals o3d final = Ok normals /\
    mesh = MkMesh (vertices final) (triangles final) normals /\
    w_calls w' = w_calls w ++ repair_calls ++
      (if 0 <? Z.min (len (triangles repaired)) triangle_budget
       then [SimplifyQuadricDecimation (Z.min (len (triangles repaired)) triangle_budget)]
       else []) ++ [ComputeVertexNormals] /\
    w_heap w' = w_heap w /\ w_files w' = w_files w.
Proof.
  unfold reconstruct_mesh. intros H.
  inv_ext H. destruct m as [mesh0 dens].
  inv_ext H. inv_ext H. inv_ext H. inv_ext H. inv_ext H. inv_ext H. inv_ext H.
  apply bind_inv_ok in H. destruct H as (final & w1 & Hsimp & H).
  inv_ext H. unfold ret in H. inversion H; subst; clear H.
  exists m4, m5, final, m6.
  split; [assumption|].
  destruct (0 <? Z.min (len (triangles m5)) triangle_budget) eqn:Ht.
  - apply ext_inv_ok in Hsimp. destruct Hsimp as [Hs ->].
    repeat split; try assumption. simpl. unfold repair_calls.
    rewrite <- !app_assoc. reflexivity.
  - unfold ret in Hsimp. inversion Hsimp; subst.
    repeat split; try assumption. simpl. unfold repair_calls.
    rewrite <- !app_assoc. reflexivity.
Qed.

Lemma len_nonneg {A} (l : list A) : 0 <= len l.
Proof. unfold len. lia. Qed.

Lemma toy_decimation_meets_target m t m' :
  simplify_quadric_decimation toy_open3d m t = Ok m' -> len (triangles m') <= t.
Proof.
  simpl. destruct (0 <? t) eqn:Ht; [|discriminate].
  intros H. inversion H; subst; clear H. simpl. unfold len.
  rewrite length_firstn. apply Z.ltb_lt in Ht. lia.
Qed.

(** C2, as stated, fails: a mesh of one triangle, far below the budget, is
    still passed to the quadric decimation (with its own count as target). *)
Lemma small_mesh_is_decimated :
  reconstruct_mesh toy_open3d three_points empty_world =
    (Ok (MkMesh (pc_points three_points) [(0, 1, 2)] (replicate 3 up_normal)),
     World [] ∅ (repair_calls ++ [SimplifyQuadricDecimation 1; ComputeVertexNormals])) /\
  len [(0, 1, 2)] <= triangle_budget.
Proof. split; [vm_compute; reflexivity | discriminate]. Qed.

(** C2, amended: the simplification is skipped exactly when the repaired
    mesh has no triangle.  A mesh with [n > 0] triangles is passed to
    [simplify_quadric_decimation] with target [min n 150000], also when
    [n] is at or below the budget. *)
Theorem reconstruct_mesh_simplification (o3d : Open3D) (pcd : PointCloud)
    (w w' : world) (mesh : TriangleMesh) :
  reconstruct_mesh o3d pcd w = (Ok mesh, w') ->
  exists m0 repaired,
    filter_smooth_simple o3d m0 1 = Ok repaired /\
    let n := len (triangles repaired) in
    w_calls w' =
      w_calls w ++ repair_calls ++
      (if n =? 0 then [] else [SimplifyQuadricDecimation (Z.min n triangle_budget)]) ++
      [ComputeVertexNormals] /\
    (n = 0 -> triangles mesh = triangles repaired /\ vertices mesh = vertices repaired) /\
    (0 < n -> exists final,
        simplify_quadric_decimation o3d repaired (Z.min n triangle_budget) = Ok final /\
        triangles mesh = triangles final /\ vertices mesh = vertices final).
Proof.
  intros H. apply reconstruct_mesh_inv in H.
  destruct H as (m0 & repaired & final & normals & Hsm & Hfin & Hn & -> & Hcalls & _ & _).
  exists m0, repaired. split; [exact Hsm|]. cbv zeta.
  pose proof (len_nonneg (triangles repaired)) as Hpos.
  assert (Hb : 0 < triangle_budget) by reflexivity.
  destruct (0 <? Z.min (len (triangles repaired)) triangle_budget) eqn:Ht.
  - apply Z.ltb_lt in Ht.
    assert (Hne : (len (triangles repaired) =? 0) = false) by (apply Z.eqb_neq; lia).
    rewrite Hne. split; [exact Hcalls|]. split; [lia|].
    intros _. exists final. auto.
  - apply Z.ltb_ge in Ht.
    assert (Hz : len (triangles repaired) = 0) by lia.
    rewrite Hz in *. split; [exact Hcalls|]. subst final. split; [auto | lia].
Qed.

Lemma reconstruct_mesh_simplification_witness :
  exists m0 repaired,
    filter_smooth_simple toy_open3d m0 1 = Ok repaired /\
    let n := len (triangles repaired) in
    w_calls (snd (reconstruct_mesh toy_open3d three_points empty_world)) =
      w_calls empty_world ++ repair_calls ++
      (if n =? 0 then [] else [SimplifyQuadricDecimation (Z.min n triangle_budget)]) ++
      [ComputeVertexNormals] /\
    (n = 0 -> triangles (MkMesh (pc_points three_points) [(0, 1, 2)] (replicate 3 up_normal))
              = triangles repaired /\
              vertices (MkMesh (pc_points three_points) [(0, 1, 2)] (replicate 3 up_normal))
              = vertices repaired) /\
    (0 < n -> exists final,
        simplify_quadric_decimation toy_open3d repaired (Z.min n triangle_budget) = Ok final /\
        triangles (MkMesh (pc_points three_points) [(0, 1, 2)] (replicate 3 up_normal))
          = triangles final /\
        vertices (MkMesh (pc_points three_points) [(0, 1, 2)] (replicate 3 up_normal))
          = vertices final).
Proof.
  apply (reconstruct_mesh_simplification toy_open3d three_points empty_world
           (snd (reconstruct_mesh toy_open3d three_points empty_world))
           (MkMesh (pc_points three_points) [(0, 1, 2)] (replicate 3 up_normal))).
  vm_compute. reflexivity.
Defined.



(** ** MiDaS loader *)

Lemma load_variant_result {Model Transform} (torch : Torch Model Transform)
    transforms dev model_name w :
  fst (load_variant torch transforms dev model_name w) = attempt torch transforms dev model_name.
Proof.
  unfold load_variant, attempt, ext, bind, log, lift, ret. simpl.
  destruct (hub_load_model torch model_name) as [model|e]; [|reflexivity].
  simpl. destruct (model_eval_to torch model dev); reflexivity.
Qed.

Lemma try_except_fst {A} (body : M A) (handler : exn -> M A) w :
  fst (try_except body handler w) =
  match body w with
  | (Ok a, _) => Ok a
  | (Raise e, w') => fst (handler e w')
  end.
Proof. unfold try_except. destruct (body w) as [[a|e] w']; reflexivity. Qed.

Lemma load_midas_loop_cons {Model Transform} (torch : Torch Model Transform)
    transforms dev name rest last w :
  fst (load_midas_loop torch transforms dev (name :: rest) last w) =
  match attempt torch transforms dev name with
  | Ok r => Ok r
  | Raise e =>
      fst (load_midas_loop torch transforms dev rest (Some e)
             (snd (load_variant torch transforms dev name w)))
  end.
Proof.
  cbn [load_midas_loop]. rewrite try_except_fst.
  rewrite <- (load_variant_result torch transforms dev name w).
  destruct (load_variant torch transforms dev name w) as [[r|e] w']; reflexivity.
Qed.

(** With only the smallest variant available the loader goes through the
    variants in priority order and returns MiDaS_small with small_transform. *)
Lemma load_midas_falls_back_to_small :
  load_midas small_only_torch Cpu empty_world =
    (Ok ("MiDaS_small", "small_transform")%string,
     World [] ∅ [ HubLoad "intel-isl/MiDaS" "transforms";
                  HubLoad "intel-isl/MiDaS" "DPT_Large";
                  HubLoad "intel-isl/MiDaS" "DPT_Hybrid";
                  HubLoad "intel-isl/MiDaS" "MiDaS_small";
                  ModelEvalTo ]).
Proof. vm_compute. reflexivity. Qed.



(** ** Steps of IEEE arithmetic that are exact *)

Section Exact.
Variables prec emax : Z.

Lemma digits2_pos_iter m k :
  Zpos (digits2_pos (Pos.iter xO m k)) = Zpos (digits2_pos m) + Zpos k.
Proof.
  induction k as [|k IH] using Pos.peano_ind.
  - simpl. lia.
  - rewrite Pos.iter_succ. cbn [digits2_pos]. lia.
Qed.

Lemma iter_pos_nat {A} (f : A -> A) n x :
  SpecFloat.iter_pos f n x = Nat.iter (Pos.to_nat n) f x.
Proof.
  revert x. induction n as [n IH|n IH|]; intros x; cbn [SpecFloat.iter_pos].
  - rewrite !IH. rewrite Pos2Nat.inj_xI.
    replace (S (2 * Pos.to_nat n))%nat with (Pos.to_nat n + (Pos.to_nat n + 1))%nat by lia.
    rewrite !Nat.iter_add. simpl. reflexivity.
  - rewrite !IH. rewrite Pos2Nat.inj_xO.
    replace (2 * Pos.to_nat n)%nat with (Pos.to_nat n + Pos.to_nat n)%nat by lia.
    rewrite Nat.iter_add. reflexivity.
  - reflexivity.
Qed.

Lemma shr_exact m k :
  SpecFloat.iter_pos shr_1 k (Build_shr_record (Zpos (Pos.iter xO m k)) false false)
  = Build_shr_record (Zpos m) false false.
Proof.
  rewrite iter_pos_nat. rewrite Pos2Nat.inj_iter.
  generalize (Pos.to_nat k). intros n. induction n as [|n IH].
  - reflexivity.
  - rewrite Nat.iter_succ_r. cbn [Nat.iter]. cbn [shr_1 orb]. exact IH.
Qed.

(** A mantissa that is already canonical is kept as it is. *)
Lemma binary_round_aux_canonical s m e :
  fexp prec emax (Zpos (digits2_pos m) + e) = e -> e <= emax - prec ->
  binary_round_aux prec emax s (Zpos m) e loc_Exact = S754_finite s m e.
Proof.
  intros Hc He. unfold binary_round_aux, shr_fexp.
  cbn [Zdigits2 shr_record_of_loc]. rewrite Hc, Z.sub_diag. cbn [shr].
  cbn [shr_m loc_of_shr_record round_nearest_even shr_record_of_loc Zdigits2].
  rewrite Hc, Z.sub_diag. cbn [shr shr_m].
  apply Z.leb_le in He. now rewrite He.
Qed.

(** Too few digits: the mantissa is shifted left, exactly. *)
Lemma binary_round_shl s m e k :
  fexp prec emax (Zpos (digits2_pos m) + e) = e - Zpos k -> e - Zpos k <= emax - prec ->
  binary_round prec emax s m e = S754_finite s (Pos.iter xO m k) (e - Zpos k).
Proof.
  intros Hc He. unfold binary_round, shl_align. rewrite Hc.
  replace (e - Zpos k - e) with (Zneg k) by lia.
  apply binary_round_aux_canonical; [|exact He].
  rewrite digits2_pos_iter.
  replace (Zpos (digits2_pos m) + Zpos k + (e - Zpos k)) with (Zpos (digits2_pos m) + e) by lia.
  exact Hc.
Qed.

(** Too many digits, the low ones all zero: they are shifted out, exactly. *)
Lemma binary_round_aux_shr s m e k :
  fexp prec emax (Zpos (digits2_pos m) + Zpos k + e) = e + Zpos k ->
  e + Zpos k <= emax - prec ->
  binary_round_aux prec emax s (Zpos (Pos.iter xO m k)) e loc_Exact
  = S754_finite s m (e + Zpos k).
Proof.
  intros Hc He. unfold binary_round_aux, shr_fexp.
  cbn [Zdigits2 shr_record_of_loc]. rewrite digits2_pos_iter, Hc.
  replace (e + Zpos k - e) with (Zpos k) by lia. cbn [shr].
  rewrite shr_exact.
  cbn [shr_m loc_of_shr_record round_nearest_even shr_record_of_loc Zdigits2].
  replace (Zpos (digits2_pos m) + (e + Zpos k)) with (Zpos (digits2_pos m) + Zpos k + e) by lia.
  rewrite Hc, Z.sub_diag. cbn [shr shr_m].
  apply Z.leb_le in He. now rewrite He.
Qed.

Lemma binary_round_shr s m e k :
  fexp prec emax (Zpos (digits2_pos m) + Zpos k + e) = e + Zpos k ->
  e + Zpos k <= emax - prec ->
  binary_round prec emax s (Pos.iter xO m k) e = S754_finite s m (e + Zpos k).
Proof.
  intros Hc He. unfold binary_round, shl_align.
  rewrite digits2_pos_iter, Hc.
  replace (e + Zpos k - e) with (Zpos k) by lia.
  now apply binary_round_aux_shr.
Qed.
End Exact.

Lemma iter_xO_value m k : Zpos (Pos.iter xO m k) = Zpos m * 2 ^ Zpos k.
Proof.
  induction k as [|k IH] using Pos.peano_ind.
  - simpl. lia.
  - rewrite Pos.iter_succ, Pos2Z.inj_succ, Z.pow_succ_r by lia.
    rewrite Pos2Z.inj_xO, IH. lia.
Qed.

(** An integer of at most 53 bits converts to binary64 exactly. *)
Lemma of_Z_exact p k :
  Zpos (digits2_pos p) + Zpos k = 53 ->
  F64.of_Z (Zpos p) = S754_finite false (Pos.iter xO p k) (- Zpos k).
Proof.
  intros Hd. unfold F64.of_Z, binary_normalize.
  rewrite (binary_round_shl F64.prec F64.emax false p 0 k).
  - reflexivity.
  - unfold fexp, emin, F64.prec, F64.emax. lia.
  - unfold F64.prec, F64.emax. lia.
Qed.

(** Halving a binary64 value with a full mantissa lowers its exponent. *)
Lemma div_two_exact m e :
  Zpos (digits2_pos m) = 53 -> -1072 <= e <= 972 ->
  F64.div (S754_finite false m e) (py_literal 20 1) = S754_finite false m (e - 1).
Proof.
  intros Hd He.
  change (py_literal 20 1) with (S754_finite false 4503599627370496 (-51)).
  unfold F64.div, SFdiv, SFdiv_core_binary.
  cbn [Zdigits2 xorb]. rewrite Hd.
  change (Zpos (digits2_pos 4503599627370496)) with 53.
  assert (Hf : fexp F64.prec F64.emax (53 + e - (53 + -51)) = e - 2)
    by (unfold fexp, emin, F64.prec, F64.emax; lia).
  rewrite Hf.
  replace (Z.min (e - 2) (e - -51)) with (e - 2) by lia.
  replace (e - -51 - (e - 2)) with 53 by lia.
  assert (Hq : Z.div_eucl (Z.shiftl (Zpos m) 53) 4503599627370496 = (Zpos m~0, 0)).
  { rewrite (surjective_pairing (Z.div_eucl _ _)).
    change (fst (Z.div_eucl ?a ?b)) with (a / b).
    change (snd (Z.div_eucl ?a ?b)) with (a mod b).
    rewrite Z.shiftl_mul_pow2 by lia.
    replace (Zpos m * 2 ^ 53) with (Zpos m~0 * 4503599627370496) by lia.
    rewrite Z.div_mul, Z.mod_mul by lia. reflexivity. }
  change (IntDef.Z.div_eucl (Z.shiftl (Zpos m) 53) 4503599627370496)
    with (Z.div_eucl (Z.shiftl (Zpos m) 53) 4503599627370496).
  rewrite Hq. cbv iota beta.
  change (new_location 4503599627370496 0) with loc_Exact.
  change (m~0)%positive with (Pos.iter xO m 1).
  rewrite (binary_round_aux_shr F64.prec F64.emax false m (e - 2) 1).
  - f_equal. lia.
  - rewrite Hd. unfold fexp, emin, F64.prec, F64.emax. lia.
  - unfold F64.prec, F64.emax. lia.
Qed.

(** Rounding to float32 drops 29 low zero bits of a 53-bit mantissa exactly. *)
Lemma round32_exact m e :
  Zpos (digits2_pos m) = 24 -> -178 <= e <= 75 ->
  F32.round (S754_finite false (Pos.iter xO m 29) e) = S754_finite false m (e + 29).
Proof.
  intros Hd He. unfold F32.round.
  apply binary_round_shr.
  - rewrite Hd. unfold fexp, emin, F32.prec, F32.emax. lia.
  - unfold F32.prec, F32.emax. lia.
Qed.

Lemma digits2_pos_lower p : 2 ^ (Zpos (digits2_pos p) - 1) <= Zpos p.
Proof.
  induction p as [p IH|p IH|]; cbn [digits2_pos]; [| |simpl; lia];
    rewrite Pos2Z.inj_succ;
    replace (Z.succ (Zpos (digits2_pos p)) - 1) with (Z.succ (Zpos (digits2_pos p) - 1)) by lia;
    rewrite Z.pow_succ_r by lia; lia.
Qed.

(** The principal point coordinate computed for a size [n] below 2^24: a
    float32 with the value n / 2. *)
Lemma half_size_exact n :
  0 < n < 2 ^ 24 ->
  has_value (F32.round (F64.div (py_float n) (py_literal 20 1))) n 2.
Proof.
  intros Hn. destruct n as [|p|p]; try lia.
  assert (Hdig : Zpos (digits2_pos p) <= 24).
  { pose proof (digits2_pos_lower p) as Hlo.
    destruct (Z.le_gt_cases (Zpos (digits2_pos p)) 24) as [|Hgt]; [assumption|].
    assert (2 ^ 24 <= 2 ^ (Zpos (digits2_pos p) - 1)) by (apply Z.pow_le_mono_r; lia).
    lia. }
  destruct (53 - Zpos (digits2_pos p)) as [|k1|k1] eqn:Hk1; try lia.
  unfold py_float. rewrite (of_Z_exact p k1) by lia.
  rewrite div_two_exact by (try rewrite digits2_pos_iter; lia).
  destruct (Zpos k1 - 29) as [|k2|k2] eqn:Hk2; try lia.
  - assert (k1 = 29%positive) by lia. subst k1.
    rewrite round32_exact by lia.
    unfold has_value, float_val. simpl. lia.
  - assert (k1 = (29 + k2)%positive) by lia. subst k1.
    rewrite Pos.iter_add.
    rewrite round32_exact by (try rewrite digits2_pos_iter; lia).
    unfold has_value, float_val.
    replace (- Zpos (29 + k2) - 1 + 29) with (- (Zpos k2 + 1)) by lia.
    destruct (0 <=? - (Zpos k2 + 1)) eqn:Hs; [apply Z.leb_le in Hs; lia|].
    rewrite iter_xO_value, Z.opp_involutive, Z.pow_add_r by lia. lia.
Qed.

(** A value of the format is its own rounding. *)
Lemma binary_round_valid prec emax s m e :
  valid_binary prec emax (S754_finite s m e) = true ->
  binary_round prec emax s m e = S754_finite s m e.
Proof.
  cbn [valid_binary]. unfold bounded, canonical_mantissa.
  intros H. apply andb_prop in H. destruct H as [Hc He].
  apply Z.eqb_eq in Hc. apply Z.leb_le in He.
  unfold binary_round, shl_align. rewrite Hc, Z.sub_diag.
  now apply binary_round_aux_canonical.
Qed.

Lemma round32_valid x : F32.valid x = true -> F32.round x = x.
Proof.
  destruct x as [s|s| |s m e]; try reflexivity.
  intros H. now apply binary_round_valid.
Qed.

(** ** Intrinsics estimator *)


(** ** UV projector *)

Lemma compute_uv_length mesh K img_w img_h :
  length (compute_uv mesh K img_w img_h) = length (vertices mesh).
Proof. unfold compute_uv. apply length_map. Qed.

(** The entry at each index is the projection of the vertex at that index. *)
Lemma compute_uv_lookup mesh K img_w img_h (i : nat) :
  compute_uv mesh K img_w img_h !! i = project_uv K img_w img_h <$> (vertices mesh !! i).
Proof. unfold compute_uv. apply list_lookup_fmap. Qed.

(** C4 at a failing input: for the finite vertex (0, 0, -1e-6) and a 4 x 4
    image, [Z + eps] is exactly 0, the projection divides 0 by 0, and both
    coordinates come out NaN, which the clip to [0, 1] lets through. *)
Theorem compute_uv_nan_on_finite_vertex :
  let '(X, Y, Z) := vertex_at_minus_eps in
  is_finite X && is_finite Y && is_finite Z = true /\
  compute_uv (MkMesh [vertex_at_minus_eps] [] []) (infer_intrinsics 4 4 None) 4 4
    = [(S754_nan, S754_nan)].
Proof. vm_compute. split; reflexivity. Qed.

(** ** Depth post-processor *)

Lemma SFcompare_refl x : is_nan x = false -> SFcompare x x = Some Eq.
Proof.
  destruct x as [s|s| |s m e]; try discriminate; intros _; simpl.
  - reflexivity.
  - now destruct s.
  - rewrite Z.compare_refl.
    change (Pos.compare_cont Eq m m) with (Pos.compare m m).
    rewrite Pos.compare_refl. now destruct s.
Qed.

Lemma fmin_same x : fmin x x = x.
Proof.
  unfold fmin. destruct (is_nan x) eqn:Hn; [reflexivity|].
  unfold SFltb. now rewrite SFcompare_refl.
Qed.

Lemma fmax_same x : fmax x x = x.
Proof.
  unfold fmax. destruct (is_nan x) eqn:Hn; [reflexivity|].
  unfold SFltb. now rewrite SFcompare_refl.
Qed.

Lemma fold_left_same (f : float -> float -> float) c n :
  f c c = c -> fold_left f (replicate n c) c = c.
Proof. intros Hf. induction n as [|n IH]; simpl; [reflexivity|]. now rewrite Hf. Qed.

(** A finite value minus itself is +0, in either format. *)
Lemma sub_same dt c : is_finite c = true -> farith dt Sub c c = S754_zero false.
Proof.
  destruct c as [s|s| |s m e]; try discriminate; intros _.
  - now destruct dt, s.
  - destruct dt; cbn [farith]; unfold F32.sub, F64.sub, SFsub;
      rewrite Z.sub_diag; reflexivity.
Qed.

(** On a constant map the numerator is +0 at every pixel and the denominator
    is the epsilon, so the quotient is +0 at every pixel. *)
Lemma normalize_depth_constant s dt c n :
  is_finite c = true ->
  normalize_depth (NdArray s (FloatBuf dt (replicate (S n) c))) = Ok (zero_map s dt (S n)).
Proof.
  intros Hc. unfold normalize_depth, nd_min, nd_max, nd_reduce.
  cbn [nd_buf replicate]. rewrite !fold_left_same by (apply fmin_same || apply fmax_same).
  unfold nd_arith_scalar. cbn [nd_buf nd_shape arith_dtype buf_floats].
  assert (Hp : promote dt dt = dt) by now destruct dt. rewrite !Hp.
  unfold zero_map. do 3 f_equal.
  rewrite !map_map. rewrite sub_same by exact Hc.
  change (c :: replicate n c) with (replicate (S n) c).
  generalize (S n). intros k. induction k as [|k IH]; [reflexivity|].
  cbn [replicate map]. rewrite IH. f_equal.
  rewrite !fcast_same. rewrite sub_same by exact Hc.
  now destruct dt.
Qed.

Lemma buf_floats_keep_zero dt b :
  buf_all_zero b = true -> forallb is_zero (buf_floats dt b) = true.
Proof.
  intros Hz. apply forallb_forall. intros x Hx.
  destruct b as [d xs | zs | bs]; simpl in *;
    apply in_map_iff in Hx; destruct Hx as [y [<- Hy]];
    pose proof (proj1 (forallb_forall _ _) Hz y Hy) as Hy0; simpl in Hy0.
  - now apply fcast_zero.
  - destruct y; try discriminate. now destruct dt.
  - destruct y; try discriminate. now destruct dt.
Qed.

Lemma toy_filter_keeps_zero : filter_keeps_zero toy_opencv.
Proof. intros a d sc ss Hz. exists a. auto. Qed.

(** C10: on a raw depth map with one finite value at every pixel the
    normalisation gives the map that is 0 everywhere; the bilateral filter
    keeps such a map 0 everywhere, so the depth the post-processor returns is
    0 at every pixel, and the back-projector turns it into the empty cloud. *)
Theorem constant_depth_gives_empty_cloud {Model Transform : Type}
    (torch : Torch Model Transform) (opencv : OpenCV) (model : Model)
    (transform : Transform) (image_bgr img_rgb : ndarray) (dev : device) (w : world)
    (h wd n : nat) (dt : fdtype) (c : float) (K : mat3) :
  cv2_cvtColor_BGR2RGB opencv image_bgr = Ok img_rgb ->
  midas_predict torch model transform img_rgb dev
    = Ok (NdArray [h; wd] (FloatBuf dt (replicate (S n) c))) ->
  is_finite c = true ->
  filter_keeps_zero opencv ->
  normalize_depth (NdArray [h; wd] (FloatBuf dt (replicate (S n) c)))
    = Ok (zero_map [h; wd] dt (S n)) /\
  exists depth b w1,
    estimate_depth torch opencv model transform image_bgr dev w = (Ok depth, w1) /\
    w_heap w1 !! depth = Some (NdArray [h; wd] b) /\
    buf_all_zero b = true /\
    fst (depth_to_pointcloud depth K w1) = Ok (MkPointCloud [] []).
Proof.
  intros Hrgb Hpred Hc Hfilter.
  pose proof (normalize_depth_constant [h; wd] dt c n Hc) as Hnorm.
  split; [exact Hnorm|].
  assert (Hz0 : buf_all_zero (nd_buf (nd_astype_f32 (zero_map [h; wd] dt (S n)))) = true).
  { unfold nd_astype_f32. cbn [nd_buf buf_all_zero].
    apply buf_floats_keep_zero. unfold zero_map. cbn [nd_buf buf_all_zero].
    apply forallb_forall. intros x Hx. apply list_elem_of_In, elem_of_replicate in Hx.
    destruct Hx as [-> _]. reflexivity. }
  destruct (Hfilter _ 9 (py_literal 1 1) (py_float 7) Hz0) as (f & Hf & Hshape & Hfz).
  pose (out := nd_astype_f32 f).
  exists (length (w_heap w)), (nd_buf out), (heap_push w out).
  assert (Hrun : estimate_depth torch opencv model transform image_bgr dev w
                 = (Ok (length (w_heap w)), heap_push w out)).
  { unfold estimate_depth, bind, lift. rewrite Hrgb, Hpred, Hnorm, Hf. reflexivity. }
  assert (Hout : NdArray [h; wd] (nd_buf out) = out).
  { unfold out, nd_astype_f32. cbn [nd_buf]. now rewrite Hshape. }
  assert (Hoz : buf_all_zero (nd_buf out) = true).
  { unfold out, nd_astype_f32. cbn [nd_buf buf_all_zero].
    now apply buf_floats_keep_zero. }
  assert (Hlook : w_heap (heap_push w out) !! length (w_heap w)
                  = Some (NdArray [h; wd] (nd_buf out))).
  { rewrite Hout. apply heap_push_new. }
  split; [exact Hrun|]. split; [exact Hlook|]. split; [exact Hoz|].
  exact (all_zero_depth_run _ _ K h wd _ Hlook Hoz).
Qed.

Lemma constant_depth_gives_empty_cloud_witness :
  normalize_depth flat_depth_2x2 = Ok (zero_map [2%nat; 2%nat] Float32 4) /\
  exists depth b w1,
    estimate_depth flat_torch toy_opencv "DPT_Large"%string "dpt_transform"%string
      (NdArray [2%nat; 2%nat; 3%nat] (IntBuf (replicate 12 128))) Cpu empty_world
      = (Ok depth, w1) /\
    w_heap w1 !! depth = Some (NdArray [2%nat; 2%nat] b) /\
    buf_all_zero b = true /\
    fst (depth_to_pointcloud depth (infer_intrinsics 2 2 None) w1) = Ok (MkPointCloud [] []).
Proof.
  apply (constant_depth_gives_empty_cloud flat_torch toy_opencv "DPT_Large"%string
           "dpt_transform"%string (NdArray [2%nat; 2%nat; 3%nat] (IntBuf (replicate 12 128)))
           (NdArray [2%nat; 2%nat; 3%nat] (IntBuf (replicate 12 128))) Cpu empty_world
           2 2 3 Float32 (F32.of_Z 5) (infer_intrinsics 2 2 None)).
  - reflexivity.
  - reflexivity.
  - reflexivity.
  - exact toy_filter_keeps_zero.
Defined.

(** C6 at a failing input: both values of the map are finite float32 values,
    but their difference 2^128 overflows float32, the denominator is
    infinite, and the pixel of the maximum is inf / inf = NaN after the
    normalisation; this is the map passed on to the bilateral filter. *)
Theorem normalize_depth_overflow :
  forallb (fun x => is_finite x && F32.valid x) [S754_finite true 8388608 104;
                                                  S754_finite false 8388608 104] = true /\
  normalize_depth wide_depth_1x2 =
    Ok (NdArray [1%nat; 2%nat] (FloatBuf Float32 [S754_zero false; S754_nan])).
Proof. split; vm_compute; reflexivity. Qed.

(** ** Pipeline orchestrator *)

Lemma avoids_ret {A} cls (a : A) : avoids cls (ret a).
Proof. intros w e H. discriminate. Qed.

Lemma avoids_raise {A} cls e : exn_class e <> cls -> avoids cls (@raise A e).
Proof. intros Hne w e' H. inversion H. now subst. Qed.

Lemma avoids_lift {A} cls (r : result A) : result_avoids cls r -> avoids cls (lift r).
Proof. intros Hr w. exact Hr. Qed.

Lemma avoids_bind {A B} cls (m : M A) (k : A -> M B) :
  avoids cls m -> (forall a, avoids cls (k a)) -> avoids cls (bind m k).
Proof.
  intros Hm Hk w. unfold bind. specialize (Hm w).
  destruct (m w) as [[a|e] w1]; simpl in *; [apply Hk|].
  intros e' H. inversion H; subst. now apply Hm.
Qed.

Lemma avoids_try_except {A} cls (body : M A) handler :
  (forall e, avoids cls (handler e)) -> avoids cls (try_except body handler).
Proof.
  intros Hh w. unfold try_except.
  destruct (body w) as [[a|e] w1]; simpl; [intros e H; discriminate | apply Hh].
Qed.

Lemma avoids_alloc cls a : avoids cls (alloc a).
Proof. intros w e H. discriminate. Qed.

Lemma avoids_log cls c : avoids cls (log c).
Proof. intros w e H. discriminate. Qed.

Lemma avoids_write_file cls p c : avoids cls (write_file p c).
Proof. intros w e H. discriminate. Qed.

Lemma avoids_deref r : avoids DegenerateGeometry (deref r).
Proof.
  intros w e. unfold deref. destruct (w_heap w !! r); simpl; intros H; inversion H.
  discriminate.
Qed.

Lemma avoids_read_file p : avoids DegenerateGeometry (read_file p).
Proof.
  intros w e. unfold read_file. destruct (w_files w !! p); simpl; intros H; inversion H.
  discriminate.
Qed.

Lemma avoids_ext {A} cls c (r : result A) : result_avoids cls r -> avoids cls (ext c r).
Proof.
  intros Hr. unfold ext. apply avoids_bind; [apply avoids_log | intros _].
  now apply avoids_lift.
Qed.

(** The NumPy operations raise ValueError, TypeError, IndexError or
    RuntimeError, never the class in question. *)
Ltac numpy_avoids :=
  intros e H;
  repeat match type of H with
  | context [match ?x with _ => _ end] => destruct x; try discriminate
  | context [if ?x then _ else _] => destruct x; try discriminate
  end;
  inversion H; discriminate.

Lemma nd_shape2_avoids a : result_avoids DegenerateGeometry (nd_shape2 a).
Proof. unfold nd_shape2. numpy_avoids. Qed.
Lemma nd_meshgrid_avoids a b : result_avoids DegenerateGeometry (nd_meshgrid a b).
Proof. unfold nd_meshgrid. numpy_avoids. Qed.
Lemma nd_copy_avoids a : result_avoids DegenerateGeometry (nd_copy a).
Proof. unfold nd_copy. numpy_avoids. Qed.
Lemma nd_arith_py_avoids op c a : result_avoids DegenerateGeometry (nd_arith_py op c a).
Proof. unfold nd_arith_py. numpy_avoids. Qed.
Lemma nd_arith_scalar_avoids op d s a :
  result_avoids DegenerateGeometry (nd_arith_scalar op d s a).
Proof. unfold nd_arith_scalar. numpy_avoids. Qed.
Lemma nd_arith_avoids op a b : result_avoids DegenerateGeometry (nd_arith op a b).
Proof. unfold nd_arith. numpy_avoids. Qed.
Lemma nd_stack3_rows_avoids x y z : result_avoids DegenerateGeometry (nd_stack3_rows x y z).
Proof. unfold nd_stack3_rows. numpy_avoids. Qed.
Lemma nd_reshape_flat_avoids a : result_avoids DegenerateGeometry (nd_reshape_flat a).
Proof. unfold nd_reshape_flat. numpy_avoids. Qed.
Lemma nd_gt_py_avoids c a : result_avoids DegenerateGeometry (nd_gt_py c a).
Proof. unfold nd_gt_py. numpy_avoids. Qed.
Lemma nd_getitem_mask_avoids a b : result_avoids DegenerateGeometry (nd_getitem_mask a b).
Proof. unfold nd_getitem_mask. numpy_avoids. Qed.
Lemma Vector3dVector_avoids a : result_avoids DegenerateGeometry (Vector3dVector a).
Proof. unfold Vector3dVector. numpy_avoids. Qed.
Lemma nd_reduce_avoids f a : result_avoids DegenerateGeometry (nd_reduce f a).
Proof. unfold nd_reduce. numpy_avoids. Qed.
Lemma normalize_depth_avoids a : result_avoids DegenerateGeometry (normalize_depth a).
Proof.
  unfold normalize_depth. intros e.
  pose proof (nd_reduce_avoids fmin a) as Hmin. pose proof (nd_reduce_avoids fmax a) as Hmax.
  unfold nd_min, nd_max.
  destruct (nd_reduce fmin a) as [[dt lo]|e1].
  - destruct (nd_reduce fmax a) as [[dt' hi]|e2].
    + unfold nd_arith_scalar. intros H; inversion H.
    + intros H; inversion H; subst. now apply Hmax.
  - intros H. assert (e = e1) by (destruct (nd_reduce fmax a) as [[? ?]|?]; now inversion H).
    subst. now apply Hmin.
Qed.
Lemma image_size_avoids a : result_avoids DegenerateGeometry (image_size a).
Proof. unfold image_size. numpy_avoids. Qed.

Create HintDb avoids.
#[global] Hint Resolve avoids_ret avoids_lift avoids_alloc avoids_log avoids_write_file
  avoids_deref avoids_read_file avoids_ext
  nd_shape2_avoids nd_meshgrid_avoids nd_copy_avoids nd_arith_py_avoids
  nd_arith_scalar_avoids nd_arith_avoids nd_stack3_rows_avoids nd_reshape_flat_avoids
  nd_gt_py_avoids nd_getitem_mask_avoids Vector3dVector_avoids nd_reduce_avoids
  normalize_depth_avoids image_size_avoids : avoids.

Lemma avoids_np1 f r :
  (forall a, result_avoids DegenerateGeometry (f a)) -> avoids DegenerateGeometry (np1 f r).
Proof.
  intros Hf. unfold np1. apply avoids_bind; [apply avoids_deref | intros a].
  apply avoids_bind; [apply avoids_lift, Hf | intros b]. apply avoids_alloc.
Qed.

Lemma avoids_np2 f r1 r2 :
  (forall a b, result_avoids DegenerateGeometry (f a b)) ->
  avoids DegenerateGeometry (np2 f r1 r2).
Proof.
  intros Hf. unfold np2. apply avoids_bind; [apply avoids_deref | intros a].
  apply avoids_bind; [apply avoids_deref | intros b].
  apply avoids_bind; [apply avoids_lift, Hf | intros c]. apply avoids_alloc.
Qed.

Ltac avoids_steps :=
  repeat first
    [ solve [eauto with avoids]
    | apply avoids_np1; intros ?
    | apply avoids_np2; intros ? ?
    | match goal with |- avoids _ (let '(_, _) := ?p in _) => destruct p end
    | match goal with |- avoids _ (if ?b then _ else _) => destruct b end
    | apply avoids_bind; [| intros ?] ].

Lemma depth_to_pointcloud_avoids depth K :
  avoids DegenerateGeometry (depth_to_pointcloud depth K).
Proof. unfold depth_to_pointcloud. avoids_steps. Qed.

Lemma clean_pointcloud_avoids o3d pcd :
  open3d_avoids DegenerateGeometry o3d ->
  avoids DegenerateGeometry (clean_pointcloud o3d pcd).
Proof.
  intros [].
  unfold clean_pointcloud. avoids_steps.
Qed.

Lemma reconstruct_mesh_avoids o3d pcd :
  open3d_avoids DegenerateGeometry o3d ->
  avoids DegenerateGeometry (reconstruct_mesh o3d pcd).
Proof.
  intros [].
  unfold reconstruct_mesh. avoids_steps.
Qed.

Lemma load_midas_avoids {Model Transform} (torch : Torch Model Transform) dev :
  torch_avoids DegenerateGeometry torch ->
  avoids DegenerateGeometry (load_midas torch dev).
Proof.
  intros [].
  unfold load_midas. apply avoids_bind; [eauto with avoids | intros ts].
  unfold midas_variants.
  repeat (cbn [load_midas_loop]; apply avoids_try_except; intros ?).
  cbn [load_midas_loop]. apply avoids_raise. discriminate.
Qed.

Lemma estimate_depth_avoids {Model Transform} (torch : Torch Model Transform)
    opencv model transform image dev :
  torch_avoids DegenerateGeometry torch -> opencv_avoids DegenerateGeometry opencv ->
  avoids DegenerateGeometry (estimate_depth torch opencv model transform image dev).
Proof.
  intros [] [].
  unfold estimate_depth. avoids_steps.
Qed.

Lemma export_obj_glb_avoids exporters mesh uv tp od :
  exporters_avoid DegenerateGeometry exporters ->
  avoids DegenerateGeometry (export_obj_glb exporters mesh uv tp od).
Proof. intros []. unfold export_obj_glb. avoids_steps. Qed.

Lemma write_stats_avoids o3d mesh od :
  open3d_avoids DegenerateGeometry o3d ->
  avoids DegenerateGeometry (write_stats o3d mesh od).
Proof. intros []. unfold write_stats. avoids_steps. Qed.

Lemma run_single_image_avoids {Model Transform} (torch : Torch Model Transform)
    opencv o3d exporters input_path output_dir :
  torch_avoids DegenerateGeometry torch -> opencv_avoids DegenerateGeometry opencv ->
  open3d_avoids DegenerateGeometry o3d -> exporters_avoid DegenerateGeometry exporters ->
  avoids DegenerateGeometry (run_single_image torch opencv o3d exporters input_path output_dir).
Proof.
  intros Ht Hc Ho He w. unfold run_single_image.
  destruct (w_files w !! input_path ≫= cv2_imdecode opencv) as [image|].
  2:{ intros e H. inversion H. discriminate. }
  pose proof (fun dev => load_midas_avoids torch dev Ht) as H1.
  pose proof (fun m t i d => estimate_depth_avoids torch opencv m t i d Ht Hc) as H2.
  pose proof depth_to_pointcloud_avoids as H3.
  pose proof (fun p => clean_pointcloud_avoids o3d p Ho) as H4.
  pose proof (fun p => reconstruct_mesh_avoids o3d p Ho) as H5.
  pose proof (fun m uv tp od => export_obj_glb_avoids exporters m uv tp od He) as H6.
  pose proof (fun m od => write_stats_avoids o3d m od Ho) as H7.
  destruct Hc, He.
  revert w.
  match goal with |- forall w, result_avoids _ (fst (?m w)) => change (avoids DegenerateGeometry m) end.
  avoids_steps.
Qed.

Lemma write_file_inv p c w u w' :
  write_file p c w = (Ok u, w') -> w' = put_file w p c.
Proof. unfold write_file. intros H. now inversion H. Qed.

Lemma read_file_inv p w c w' :
  read_file p w = (Ok c, w') -> w_files w !! p = Some c /\ w' = w.
Proof.
  unfold read_file. destruct (w_files w !! p); intros H; inversion H. auto.
Qed.

Lemma path_join_inj dir a b : path_join dir a = path_join dir b -> a = b.
Proof.
  unfold path_join. induction dir as [|ch dir IH]; simpl; intros H.
  - now inversion H.
  - inversion H. auto.
Qed.

Ltac inv_write H :=
  let a := fresh "u" in let w1 := fresh "w" in let Hc := fresh "Hwr" in
  apply bind_inv_ok in H; destruct H as (a & w1 & Hc & H);
  apply write_file_inv in Hc; subst w1.

(** A successful export has written model.obj, texture.png and model.glb,
    in this order, on top of the files that were there. *)
Lemma export_obj_glb_inv exporters mesh uv texture_path out_dir w r w' :
  export_obj_glb exporters mesh uv texture_path out_dir w = (Ok r, w') ->
  exists obj png glb,
    w' = put_file (put_file (put_file w (path_join out_dir "model.obj") (Text obj))
                     (path_join out_dir "texture.png") png)
           (path_join out_dir "model.glb") (Binary glb).
Proof.
  unfold export_obj_glb. intros H.
  apply bind_inv_ok in H. destruct H as (tex & w1 & Hrd & H).
  apply read_file_inv in Hrd. destruct Hrd as [_ ->].
  inv_lift H. inv_lift H. inv_write H. inv_lift H. inv_write H. inv_lift H. inv_write H.
  unfold ret in H. inversion H. eauto.
Qed.

Lemma write_stats_inv o3d mesh out_dir w u w' :
  write_stats o3d mesh out_dir w = (Ok u, w') ->
  exists lo hi,
    w' = put_file w (path_join out_dir "stats.json")
           (Json (len (vertices mesh)) (len (triangles mesh)) lo hi).
Proof.
  unfold write_stats. intros H.
  inv_lift H. destruct v as [lo ?]. inv_lift H. destruct v as [? hi].
  apply write_file_inv in H. destruct lo as [[? ?] ?], hi as [[? ?] ?]. eauto.
Qed.

Lemma run_single_image_zero_depth_exports {Model Transform : Type}
    (torch : Torch Model Transform) (opencv : OpenCV) (o3d : Open3D)
    (exporters : Exporters) (input_path output_dir : string) (w w1 w2 w' : world)
    (c : content) (image : ndarray) (model : Model) (transform : Transform)
    (depth : ref) (h wd : nat) (b : buffer) :
  w_files w !! input_path = Some c ->
  cv2_imdecode opencv c = Some image ->
  load_midas torch (if cuda_is_available torch then Cuda else Cpu) w
    = (Ok (model, transform), w1) ->
  estimate_depth torch opencv model transform image
    (if cuda_is_available torch then Cuda else Cpu) w1 = (Ok depth, w2) ->
  w_heap w2 !! depth = Some (NdArray [h; wd] b) ->
  buf_all_zero b = true ->
  run_single_image torch opencv o3d exporters input_path output_dir w = (Ok tt, w') ->
  exists cleaned mesh wa wb wc lo hi obj,
    clean_pointcloud o3d (MkPointCloud [] []) wa = (Ok cleaned, wb) /\
    reconstruct_mesh o3d cleaned wb = (Ok mesh, wc) /\
    w_files w' !! path_join output_dir "stats.json"
      = Some (Json (len (vertices mesh)) (len (triangles mesh)) lo hi) /\
    w_files w' !! path_join output_dir "model.obj" = Some (Text obj).
Proof.
  intros Hfile Hdec Hload Hest Hheap Hzero Hrun.
  unfold run_single_image in Hrun. rewrite Hfile in Hrun. simpl in Hrun.
  rewrite Hdec in Hrun.
  inv_lift Hrun. destruct v as [H W].
  rewrite (bind_ok _ _ _ _ _ Hload) in Hrun.
  rewrite (bind_ok _ _ _ _ _ Hest) in Hrun.
  rewrite (bind_ok _ _ _ _ _ (deref_run _ _ _ Hheap)) in Hrun.
  inv_lift Hrun. inv_lift Hrun.
  pose proof (all_zero_depth_run w2 depth (infer_intrinsics W H None) h wd b Hheap Hzero)
    as Hcloud.
  destruct (depth_to_pointcloud depth (infer_intrinsics W H None) w2) as [r3 w3] eqn:Hbp.
  simpl in Hcloud. subst r3.
  rewrite (bind_ok _ _ _ _ _ Hbp) in Hrun.
  apply bind_inv_ok in Hrun. destruct Hrun as (cleaned & wb & Hclean & Hrun).
  apply bind_inv_ok in Hrun. destruct Hrun as (mesh & wc & Hmesh & Hrun).
  inv_lift Hrun. inv_lift Hrun. inv_write Hrun.
  apply bind_inv_ok in Hrun. destruct Hrun as (paths & wd' & Hexp & Hrun).
  apply export_obj_glb_inv in Hexp. destruct Hexp as (obj & png & glb & ->).
  apply write_stats_inv in Hrun. destruct Hrun as (lo & hi & ->).
  exists cleaned, mesh, w3, wb, wc, lo, hi, obj.
  split; [exact Hclean|]. split; [exact Hmesh|].
  unfold put_file; cbn [w_files]. split.
  - apply lookup_insert_eq.
  - rewrite !lookup_insert_ne by (intros E; apply path_join_inj in E; discriminate).
    apply lookup_insert_eq.
Qed.



Lemma flat_torch_avoids : torch_avoids DegenerateGeometry flat_torch.
Proof. constructor; intros; intros e H; discriminate. Qed.

Lemma toy_opencv_avoids : opencv_avoids DegenerateGeometry toy_opencv.
Proof. constructor; intros; intros e H; discriminate. Qed.

Lemma toy_open3d_avoids : open3d_avoids DegenerateGeometry toy_open3d.
Proof.
  constructor; intros; intros e H; try discriminate.
  simpl in H. destruct (0 <? t); inversion H. discriminate.
Qed.

Lemma toy_exporters_avoid : exporters_avoid DegenerateGeometry toy_exporters.
Proof. constructor; intros; intros e H; discriminate. Qed.


(** * Further properties of the code *)

(** ** The upload check *)

(** Unfold one step of an append whose left operand starts with a constructor. *)
Ltac red_app H := cbv beta iota delta [String.append] in H; fold String.append in H.

Lemma after_last_dot_none s : after_last_dot s = None <-> has_dot s = false.
Proof.
  induction s as [|c s IH]; cbn [after_last_dot has_dot]; [easy|].
  destruct (after_last_dot s) as [ext|].
  - split; [discriminate|]. intros H. apply orb_false_elim in H.
    destruct H as [_ H]. apply IH in H. discriminate.
  - assert (Hs : has_dot s = false) by now apply IH.
    rewrite Hs, orb_false_r. destruct (Ascii.eqb c "."); easy.
Qed.

Lemma after_last_dot_some s ext :
  after_last_dot s = Some ext <->
  exists stem, s = (stem ++ "." ++ ext)%string /\ has_dot ext = false.
Proof.
  revert ext. induction s as [|c s IH]; intros ext; cbn [after_last_dot].
  - split; [discriminate|]. intros [[|c stem] [H _]]; discriminate.
  - destruct (after_last_dot s) as [e|] eqn:Hs.
    + split.
      * intros H. inversion H; subst e. destruct (proj1 (IH ext) eq_refl) as [stem [-> Hd]].
        exists (String c stem). auto.
      * intros [stem [H Hd]]. destruct stem as [|c' stem]; red_app H; inversion H; subst.
        -- apply after_last_dot_none in Hd. congruence.
        -- apply (proj2 (IH ext)). exists stem. auto.
    + apply after_last_dot_none in Hs. split.
      * destruct (Ascii.eqb c ".") eqn:Hc; [|discriminate].
        intros H. inversion H; subst ext. apply Ascii.eqb_eq in Hc. subst c.
        exists EmptyString. auto.
      * intros [stem [H Hd]]. destruct stem as [|c' stem]; red_app H; inversion H; subst.
        -- now rewrite Ascii.eqb_refl.
        -- exfalso. clear -Hs. induction stem as [|a stem IHs]; red_app Hs; cbn [has_dot] in Hs.
           ++ discriminate.
           ++ apply orb_false_elim in Hs. destruct Hs as [_ Hs]. auto.
Qed.

(** Extra: a file name is accepted exactly when it ends in a dot followed by
    a dot-free extension that is png, jpg, jpeg or webp up to the case of
    its letters; what stands before that last dot does not matter (it may
    be empty, or hold other extensions). *)
Theorem allowed_file_iff (filename : string) :
  allowed_file filename = true <->
  exists stem ext,
    filename = (stem ++ "." ++ ext)%string /\
    has_dot ext = false /\
    In (lower ext) ALLOWED_EXTENSIONS.
Proof.
  unfold allowed_file. split.
  - intros H. apply andb_prop in H. destruct H as [_ H].
    destruct (after_last_dot filename) as [ext|] eqn:He; [|discriminate].
    apply after_last_dot_some in He. destruct He as [stem [-> Hd]].
    exists stem, ext. repeat split; [exact Hd|].
    apply existsb_exists in H. destruct H as [a [Ha Hq]].
    apply String.eqb_eq in Hq. now subst a.
  - intros (stem & ext & -> & Hd & Hin).
    assert (He : after_last_dot (stem ++ "." ++ ext) = Some ext)
      by (apply after_last_dot_some; eauto).
    rewrite He.
    assert (Hdot : has_dot (stem ++ "." ++ ext) = true).
    { destruct (has_dot (stem ++ "." ++ ext)) eqn:Hx; [reflexivity|].
      apply after_last_dot_none in Hx. congruence. }
    rewrite Hdot. cbn [andb]. apply existsb_exists.
    exists (lower ext). split; [exact Hin | apply String.eqb_refl].
Qed.

(** ** Back-projection, pixel by pixel *)

Lemma depth_to_pointcloud_run_rows w depth K h wd b :
  w_heap w !! depth = Some (NdArray [h; wd] b) ->
  exists w',
    depth_to_pointcloud depth K w =
      (Ok (MkPointCloud
             (rows3 (map (fcast Float64 Float64)
                (unrows3 (select_rows
                   (stacked_rows K (arith_dtype b None)
                      (concat (replicate h (map Z.of_nat (seq 0 wd))))
                      (flat_map (replicate wd) (map Z.of_nat (seq 0 h)))
                      (scaled_depth b))
                   (valid_mask b))))) []), w').
Proof.
  intros Hd. unfold depth_to_pointcloud.
  do 30 try (run_step; fold_world).
  unfold ret. eexists. reflexivity.
Qed.

Lemma map_fcast_same dt (l : list float) : map (fcast dt dt) l = l.
Proof. induction l as [|x l IH]; [reflexivity|]. cbn [map]. now rewrite fcast_same, IH. Qed.

Lemma rows3_unrows3 rows : rows3 (unrows3 rows) = rows.
Proof.
  induction rows as [|[[x y] z] rows IH]; [reflexivity|].
  cbn [unrows3 flat_map app rows3]. f_equal. exact IH.
Qed.

Lemma map_const_seq {A} (c : A) k n : map (fun _ : nat => c) (seq k n) = replicate n c.
Proof. revert k. induction n as [|n IH]; intros k; [reflexivity|]. cbn. now rewrite IH. Qed.

Lemma pixels_columns h wd :
  map fst (pixels h wd) = concat (replicate h (map Z.of_nat (seq 0 wd))).
Proof.
  unfold pixels.
  assert (H : forall s,
    map fst (flat_map (fun v => map (fun u => (Z.of_nat u, Z.of_nat v)) (seq 0 wd)) (seq s h))
    = concat (replicate h (map Z.of_nat (seq 0 wd)))).
  { induction h as [|h IH]; intros s; [reflexivity|].
    cbn [seq flat_map replicate concat]. rewrite map_app, IH. f_equal.
    rewrite map_map. reflexivity. }
  apply H.
Qed.

Lemma pixels_rows h wd :
  map snd (pixels h wd) = flat_map (replicate wd) (map Z.of_nat (seq 0 h)).
Proof.
  unfold pixels.
  assert (H : forall s,
    map snd (flat_map (fun v => map (fun u => (Z.of_nat u, Z.of_nat v)) (seq 0 wd)) (seq s h))
    = flat_map (replicate wd) (map Z.of_nat (seq s h))).
  { induction h as [|h IH]; intros s; [reflexivity|].
    cbn [seq flat_map map]. rewrite map_app, IH. f_equal.
    rewrite map_map. cbn [snd]. apply map_const_seq. }
  apply H.
Qed.

(** Masking the stacked rows is the pixel-by-pixel back-projection. *)
Lemma select_stacked_rows K dt ps zs :
  select_rows (stacked_rows K dt (map fst ps) (map snd ps) zs)
    (map (fun x => SFltb (fcast Float64 dt (py_literal 1 3)) x) (map (fcast dt dt) zs))
  = back_project K dt ps zs.
Proof.
  unfold stacked_rows. rewrite !map_fcast_same.
  revert zs. induction ps as [|[u v] ps IH]; intros [|z zs]; try reflexivity.
  cbn [map zip_with interleave3 rows3 select_rows back_project fst snd].
  rewrite IH. reflexivity.
Qed.

(** Extra: on an H x W depth map the back-projector returns, in row-major
    pixel order, exactly the points
    ((u - cx) * z / fx, (v - cy) * z / fy, z) of the pixels (u, v) whose
    scaled depth z = depth * 3.0 is above 1e-3, and no normals. *)
Theorem depth_to_pointcloud_pixelwise (w : world) (depth : ref) (K : mat3)
    (h wd : nat) (b : buffer) :
  w_heap w !! depth = Some (NdArray [h; wd] b) ->
  fst (depth_to_pointcloud depth K w) =
    Ok (MkPointCloud
          (back_project K (arith_dtype b None) (pixels h wd) (scaled_depth b)) []).
Proof.
  intros Hd.
  destruct (depth_to_pointcloud_run_rows w depth K h wd b Hd) as (w' & Hrun).
  rewrite Hrun. cbn [fst]. do 2 f_equal.
  rewrite map_fcast_same, rows3_unrows3.
  rewrite <- pixels_columns, <- pixels_rows.
  unfold valid_mask. apply select_stacked_rows.
Qed.

Lemma depth_to_pointcloud_pixelwise_witness :
  w_heap (World [sample_depth_2x2] ∅ []) !! 0%nat = Some sample_depth_2x2 /\
  fst (depth_to_pointcloud 0%nat (infer_intrinsics 2 2 None) (World [sample_depth_2x2] ∅ [])) =
    Ok (MkPointCloud
          (back_project (infer_intrinsics 2 2 None) Float32 (pixels 2 2)
             (scaled_depth (nd_buf sample_depth_2x2))) []) /\
  length (back_project (infer_intrinsics 2 2 None) Float32 (pixels 2 2)
            (scaled_depth (nd_buf sample_depth_2x2))) = 2%nat.
Proof.
  split; [reflexivity|]. split; [|vm_compute; reflexivity].
  apply (depth_to_pointcloud_pixelwise (World [sample_depth_2x2] ∅ []) 0%nat
           (infer_intrinsics 2 2 None) 2 2 (nd_buf sample_depth_2x2)).
  reflexivity.
Defined.

Lemma back_project_length K dt ps zs :
  length ps = length zs ->
  length (back_project K dt ps zs) =
  length (List.filter (fun m : bool => m)
            (map (fun x => SFltb (fcast Float64 dt (py_literal 1 3)) x) zs)).
Proof.
  revert zs. induction ps as [|p ps IH]; intros [|z zs] Hl; try discriminate; [reflexivity|].
  cbn [back_project map List.filter].
  destruct (SFltb (fcast Float64 dt (py_literal 1 3)) z); cbn [length];
    rewrite IH by (simpl in Hl; lia); reflexivity.
Qed.

Lemma pixels_length h wd : length (pixels h wd) = (h * wd)%nat.
Proof.
  unfold pixels.
  assert (H : forall s,
    length (flat_map (fun v => map (fun u => (Z.of_nat u, Z.of_nat v)) (seq 0 wd)) (seq s h))
    = (h * wd)%nat).
  { induction h as [|h IH]; intros s; [reflexivity|].
    cbn [seq flat_map]. rewrite length_app, IH, length_map, length_seq. lia. }
  apply H.
Qed.

Lemma scaled_depth_length b : length (scaled_depth b) = buf_length b.
Proof.
  unfold scaled_depth. rewrite length_map.
  destruct b; cbn [buf_floats buf_length]; apply length_map.
Qed.

(** Extra: on an H x W depth map that holds H * W elements the cloud has one
    point for each pixel with scaled depth above the threshold: no valid
    pixel is dropped and none gives two points. *)
Theorem depth_to_pointcloud_point_count (w : world) (depth : ref) (K : mat3)
    (h wd : nat) (b : buffer) :
  w_heap w !! depth = Some (NdArray [h; wd] b) ->
  buf_length b = (h * wd)%nat ->
  exists pcd,
    fst (depth_to_pointcloud depth K w) = Ok pcd /\
    length (pc_points pcd) = kept_pixels b.
Proof.
  intros Hd Hlen.
  destruct (depth_to_pointcloud_run_rows w depth K h wd b Hd) as (w' & Hrun).
  rewrite Hrun. cbn [fst]. eexists. split; [reflexivity|]. cbn [pc_points].
  rewrite map_fcast_same, rows3_unrows3.
  rewrite <- pixels_columns, <- pixels_rows.
  unfold kept_pixels, valid_mask. rewrite select_stacked_rows.
  rewrite back_project_length by (rewrite pixels_length, scaled_depth_length; lia).
  now rewrite map_fcast_same.
Qed.

Lemma depth_to_pointcloud_point_count_witness :
  exists pcd,
    fst (depth_to_pointcloud 0%nat (infer_intrinsics 2 2 None) (World [sample_depth_2x2] ∅ []))
      = Ok pcd /\
    length (pc_points pcd) = kept_pixels (nd_buf sample_depth_2x2).
Proof.
  apply (depth_to_pointcloud_point_count (World [sample_depth_2x2] ∅ []) 0%nat
           (infer_intrinsics 2 2 None) 2 2 (nd_buf sample_depth_2x2));
    reflexivity.
Defined.

(** Extra: a depth array that is not two-dimensional is refused with a
    ValueError at the unpacking of its shape, before any array is computed:
    the store, the files and the call record are as before. *)
Theorem depth_to_pointcloud_not_2d (w : world) (depth : ref) (K : mat3) (a : ndarray) :
  w_heap w !! depth = Some a ->
  length (nd_shape a) <> 2%nat ->
  exists msg, depth_to_pointcloud depth K w = (Raise (Exn "ValueError" msg), w).
Proof.
  intros Hd Hs. unfold depth_to_pointcloud.
  rewrite (bind_ok _ _ _ _ _ (deref_run _ _ _ Hd)).
  unfold bind, lift, nd_shape2.
  destruct (nd_shape a) as [|x [|y [|z s]]]; cbn [length] in Hs; try lia; eauto.
Qed.

Lemma depth_to_pointcloud_not_2d_witness :
  exists msg,
    depth_to_pointcloud 0%nat (infer_intrinsics 2 2 None)
      (World [NdArray [4%nat] (FloatBuf Float32 (replicate 4 (S754_zero false)))] ∅ [])
    = (Raise (Exn "ValueError" msg),
       World [NdArray [4%nat] (FloatBuf Float32 (replicate 4 (S754_zero false)))] ∅ []).
Proof.
  apply (depth_to_pointcloud_not_2d
           (World [NdArray [4%nat] (FloatBuf Float32 (replicate 4 (S754_zero false)))] ∅ [])
           0%nat (infer_intrinsics 2 2 None)
           (NdArray [4%nat] (FloatBuf Float32 (replicate 4 (S754_zero false))))).
  - reflexivity.
  - cbn. lia.
Defined.

(** ** The files of a run *)

Lemma ww_weaken {A} paths paths' (m : M A) :
  (forall p, In p paths -> In p paths') -> writes_within paths m -> writes_within paths' m.
Proof. intros Hsub Hm w p Hp. apply Hm. auto. Qed.

Lemma ww_ret {A} paths (a : A) : writes_within paths (ret a).
Proof. intros w p _. reflexivity. Qed.

Lemma ww_raise {A} paths e : writes_within paths (@raise A e).
Proof. intros w p _. reflexivity. Qed.

Lemma ww_lift {A} paths (r : result A) : writes_within paths (lift r).
Proof. intros w p _. reflexivity. Qed.

Lemma ww_log paths c : writes_within paths (log c).
Proof. intros w p _. reflexivity. Qed.

Lemma ww_read_file paths q : writes_within paths (read_file q).
Proof. intros w p _. unfold read_file. now destruct (w_files w !! q). Qed.

Lemma ww_write_file paths q c : In q paths -> writes_within paths (write_file q c).
Proof.
  intros Hq w p Hp. unfold write_file. cbn [snd w_files].
  apply lookup_insert_ne. intros ->. contradiction.
Qed.

Lemma ww_bind {A B} paths (m : M A) (k : A -> M B) :
  writes_within paths m -> (forall a, writes_within paths (k a)) ->
  writes_within paths (bind m k).
Proof.
  intros Hm Hk w p Hp. unfold bind. specialize (Hm w p Hp).
  destruct (m w) as [[a|e] w1]; cbn [snd] in *; [|exact Hm].
  rewrite (Hk a w1 p Hp). exact Hm.
Qed.

Lemma ww_try_except {A} paths (body : M A) handler :
  writes_within paths body -> (forall e, writes_within paths (handler e)) ->
  writes_within paths (try_except body handler).
Proof.
  intros Hb Hh w p Hp. unfold try_except. specialize (Hb w p Hp).
  destruct (body w) as [[a|e] w1]; cbn [snd] in *; [exact Hb|].
  rewrite (Hh e w1 p Hp). exact Hb.
Qed.

Lemma ww_ext {A} paths c (r : result A) : writes_within paths (ext c r).
Proof. unfold ext. apply ww_bind; [apply ww_log | intros _; apply ww_lift]. Qed.

Lemma ww_allocates_only {A} paths (m : M A) : allocates_only m -> writes_within paths m.
Proof. intros Hm w p _. destruct (Hm w) as (_ & Hf & _). now rewrite Hf. Qed.

Create HintDb files.
#[global] Hint Resolve ww_ret ww_raise ww_lift ww_log ww_read_file ww_ext : files.

Ltac files_steps :=
  repeat first
    [ solve [eauto with files]
    | apply ww_write_file; cbn; tauto
    | match goal with |- writes_within _ (let '(_, _) := ?p in _) => destruct p end
    | match goal with |- writes_within _ (if ?b then _ else _) => destruct b end
    | apply ww_bind; [| intros ?] ].

Lemma load_midas_keeps_files {Model Transform} (torch : Torch Model Transform) dev paths :
  writes_within paths (load_midas torch dev).
Proof.
  unfold load_midas. apply ww_bind; [apply ww_ext | intros ts].
  unfold midas_variants.
  repeat (cbn [load_midas_loop]; apply ww_try_except;
          [unfold load_variant; files_steps | intros ?]).
  cbn [load_midas_loop]. apply ww_raise.
Qed.

Lemma estimate_depth_keeps_files {Model Transform} (torch : Torch Model Transform)
    opencv model transform image dev paths :
  writes_within paths (estimate_depth torch opencv model transform image dev).
Proof.
  unfold estimate_depth. files_steps. apply ww_allocates_only, ao_alloc.
Qed.

Lemma clean_pointcloud_keeps_files o3d pcd paths :
  writes_within paths (clean_pointcloud o3d pcd).
Proof. unfold clean_pointcloud. files_steps. Qed.

Lemma reconstruct_mesh_keeps_files o3d pcd paths :
  writes_within paths (reconstruct_mesh o3d pcd).
Proof. unfold reconstruct_mesh. files_steps. Qed.

Lemma export_obj_glb_files exporters mesh uv texture_path out_dir :
  writes_within (output_files out_dir) (export_obj_glb exporters mesh uv texture_path out_dir).
Proof. unfold export_obj_glb, output_files. files_steps. Qed.

Lemma write_stats_files o3d mesh out_dir :
  writes_within (output_files out_dir) (write_stats o3d mesh out_dir).
Proof. unfold write_stats, output_files. files_steps. Qed.



(** Extra: when the input path holds no file, or a file that OpenCV cannot
    decode, the run raises FileNotFoundError with the path in its message
    before anything else happens: no library is called, no array is
    allocated and no file is written. *)
Theorem run_single_image_unreadable_input {Model Transform : Type}
    (torch : Torch Model Transform) (opencv : OpenCV) (o3d : Open3D)
    (exporters : Exporters) (input_path output_dir : string) (w : world) :
  (w_files w !! input_path = None \/
   exists c, w_files w !! input_path = Some c /\ cv2_imdecode opencv c = None) ->
  run_single_image torch opencv o3d exporters input_path output_dir w =
    (Raise (Exn "FileNotFoundError" ("Failed to read image: " ++ input_path)), w).
Proof.
  intros H. unfold run_single_image.
  destruct H as [Hnone | (c & Hc & Hdec)].
  - now rewrite Hnone.
  - rewrite Hc. cbn. now rewrite Hdec.
Qed.

Lemma run_single_image_unreadable_input_witness :
  run_single_image flat_torch toy_opencv toy_open3d toy_exporters "missing.jpg" "out"
    world_with_photo =
    (Raise (Exn "FileNotFoundError" "Failed to read image: missing.jpg"), world_with_photo).
Proof.
  apply (run_single_image_unreadable_input flat_torch toy_opencv toy_open3d toy_exporters
           "missing.jpg" "out" world_with_photo).
  left. reflexivity.
Defined.

(** A successful export, taken apart. *)
Lemma export_obj_glb_inv_full exporters mesh uv texture_path out_dir w r w' :
  export_obj_glb exporters mesh uv texture_path out_dir w = (Ok r, w') ->
  exists tex_file tex obj png glb,
    w_files w !! texture_path = Some tex_file /\
    pil_open_rgb exporters tex_file = Ok tex /\
    export_obj exporters (vertices mesh) (triangles mesh) uv tex = Ok obj /\
    pil_save exporters tex = Ok png /\
    export_glb exporters (vertices mesh) (triangles mesh) uv tex = Ok glb /\
    r = (path_join out_dir "model.obj", path_join out_dir "model.glb",
         path_join out_dir "texture.png") /\
    w' = put_file (put_file (put_file w (path_join out_dir "model.obj") (Text obj))
                     (path_join out_dir "texture.png") png)
           (path_join out_dir "model.glb") (Binary glb).
Proof.
  unfold export_obj_glb. intros H.
  apply bind_inv_ok in H. destruct H as (tex_file & w1 & Hrd & H).
  apply read_file_inv in Hrd. destruct Hrd as [Hfile ->].
  inv_lift H. inv_lift H. inv_write H. inv_lift H. inv_write H. inv_lift H. inv_write H.
  unfold ret in H. inversion H; subst.
  exists tex_file, v, v0, v1, v2. auto 10.
Qed.

(** A successful run, taken apart: the mesh is the one the reconstructor
    returned, [w0] is the world when the texture is about to be saved. *)
Lemma run_single_image_inv {Model Transform : Type}
    (torch : Torch Model Transform) (opencv : OpenCV) (o3d : Open3D)
    (exporters : Exporters) (input_path output_dir : string) (w w' : world) :
  run_single_image torch opencv o3d exporters input_path output_dir w = (Ok tt, w') ->
  exists image H W pcd mesh wa w0 tex obj png png' glb lo hi,
    image_size image = Ok (H, W) /\
    reconstruct_mesh o3d pcd wa = (Ok mesh, w0) /\
    export_obj exporters (vertices mesh) (triangles mesh)
      (compute_uv mesh (infer_intrinsics W H None) W H) tex = Ok obj /\
    export_glb exporters (vertices mesh) (triangles mesh)
      (compute_uv mesh (infer_intrinsics W H None) W H) tex = Ok glb /\
    w' = put_file (put_file (put_file (put_file (put_file w0
           (path_join output_dir "texture.png") png)
           (path_join output_dir "model.obj") (Text obj))
           (path_join output_dir "texture.png") png')
           (path_join output_dir "model.glb") (Binary glb))
           (path_join output_dir "stats.json")
           (Json (len (vertices mesh)) (len (triangles mesh)) lo hi).
Proof.
  intros Hrun. unfold run_single_image in Hrun.
  destruct (w_files w !! input_path ≫= cv2_imdecode opencv) as [image|]; [|discriminate].
  inv_lift Hrun. destruct v as [H W].
  apply bind_inv_ok in Hrun. destruct Hrun as ([model transform] & w1 & _ & Hrun).
  apply bind_inv_ok in Hrun. destruct Hrun as (depth & w2 & _ & Hrun).
  apply bind_inv_ok in Hrun. destruct Hrun as (depth_a & w3 & _ & Hrun).
  inv_lift Hrun. inv_lift Hrun.
  apply bind_inv_ok in Hrun. destruct Hrun as (pcd0 & w4 & _ & Hrun).
  apply bind_inv_ok in Hrun. destruct Hrun as (pcd & wa & _ & Hrun).
  apply bind_inv_ok in Hrun. destruct Hrun as (mesh & w0 & Hmesh & Hrun).
  inv_lift Hrun. inv_lift Hrun. inv_write Hrun.
  apply bind_inv_ok in Hrun. destruct Hrun as (paths & w5 & Hexp & Hrun).
  apply export_obj_glb_inv_full in Hexp.
  destruct Hexp as (tex_file & tex & obj & png' & glb & _ & _ & Hobj & _ & Hglb & _ & ->).
  apply write_stats_inv in Hrun. destruct Hrun as (lo & hi & ->).
  exists image, H, W, pcd, mesh, wa, w0, tex, obj, v2, png', glb, lo, hi.
  auto 10.
Qed.

(** Extra: after a successful run, model.obj and model.glb are the
    encodings of the mesh the reconstructor returned, each with a UV list
    that has one entry per vertex of that mesh, and stats.json holds the
    vertex and triangle counts of the same mesh. *)
Theorem run_single_image_outputs_agree {Model Transform : Type}
    (torch : Torch Model Transform) (opencv : OpenCV) (o3d : Open3D)
    (exporters : Exporters) (input_path output_dir : string) (w w' : world) :
  run_single_image torch opencv o3d exporters input_path output_dir w = (Ok tt, w') ->
  exists pcd wa wb mesh uv tex obj glb lo hi,
    reconstruct_mesh o3d pcd wa = (Ok mesh, wb) /\
    length uv = length (vertices mesh) /\
    export_obj exporters (vertices mesh) (triangles mesh) uv tex = Ok obj /\
    export_glb exporters (vertices mesh) (triangles mesh) uv tex = Ok glb /\
    w_files w' !! path_join output_dir "model.obj" = Some (Text obj) /\
    w_files w' !! path_join output_dir "model.glb" = Some (Binary glb) /\
    w_files w' !! path_join output_dir "stats.json"
      = Some (Json (len (vertices mesh)) (len (triangles mesh)) lo hi).
Proof.
  intros Hrun. apply run_single_image_inv in Hrun.
  destruct Hrun as (image & H & W & pcd & mesh & wa & w0 & tex & obj & png & png' & glb
                    & lo & hi & _ & Hmesh & Hobj & Hglb & ->).
  exists pcd, wa, w0, mesh, (compute_uv mesh (infer_intrinsics W H None) W H),
         tex, obj, glb, lo, hi.
  split; [exact Hmesh|]. split; [apply compute_uv_length|].
  split; [exact Hobj|]. split; [exact Hglb|].
  unfold put_file; cbn [w_files].
  assert (Hne : forall a b : string, a <> b -> path_join output_dir a <> path_join output_dir b)
    by (intros a b Hab E; apply path_join_inj in E; contradiction).
  repeat split.
  - rewrite !lookup_insert_ne by (apply Hne; discriminate). apply lookup_insert_eq.
  - rewrite lookup_insert_ne by (apply Hne; discriminate). apply lookup_insert_eq.
  - apply lookup_insert_eq.
Qed.

Lemma run_single_image_outputs_agree_witness :
  exists pcd wa wb mesh uv tex obj glb lo hi,
    reconstruct_mesh toy_open3d pcd wa = (Ok mesh, wb) /\
    length uv = length (vertices mesh) /\
    export_obj toy_exporters (vertices mesh) (triangles mesh) uv tex = Ok obj /\
    export_glb toy_exporters (vertices mesh) (triangles mesh) uv tex = Ok glb /\
    w_files (snd (run_single_image ramp_torch toy_opencv toy_open3d toy_exporters
                    "room.jpg" "out" world_with_photo)) !! path_join "out" "model.obj"
      = Some (Text obj) /\
    w_files (snd (run_single_image ramp_torch toy_opencv toy_open3d toy_exporters
                    "room.jpg" "out" world_with_photo)) !! path_join "out" "model.glb"
      = Some (Binary glb) /\
    w_files (snd (run_single_image ramp_torch toy_opencv toy_open3d toy_exporters
                    "room.jpg" "out" world_with_photo)) !! path_join "out" "stats.json"
      = Some (Json (len (vertices mesh)) (len (triangles mesh)) lo hi).
Proof.
  apply (run_single_image_outputs_agree ramp_torch toy_opencv toy_open3d toy_exporters
           "room.jpg" "out" world_with_photo).
  vm_compute. reflexivity.
Defined.

(** The bound on the returned mesh, from the bound of the decimation. *)
Lemma reconstruct_mesh_budget o3d pcd w w' mesh :
  (forall m t m', simplify_quadric_decimation o3d m t = Ok m' -> len (triangles m') <= t) ->
  reconstruct_mesh o3d pcd w = (Ok mesh, w') ->
  len (triangles mesh) <= triangle_budget.
Proof.
  intros Hdec H. apply reconstruct_mesh_inv in H.
  destruct H as (m0 & repaired & final & normals & _ & Hfin & _ & -> & _).
  cbn [triangles].
  pose proof (len_nonneg (triangles repaired)) as Hpos.
  assert (Hb : 0 < triangle_budget) by reflexivity.
  destruct (0 <? Z.min (len (triangles repaired)) triangle_budget) eqn:Ht.
  - apply Hdec in Hfin. lia.
  - apply Z.ltb_ge in Ht. subst final. lia.
Qed.

(** Extra: given that the decimation returns at most its target, the face
    count a successful run writes into stats.json is at most 150,000. *)
Theorem run_single_image_stats_within_budget {Model Transform : Type}
    (torch : Torch Model Transform) (opencv : OpenCV) (o3d : Open3D)
    (exporters : Exporters) (input_path output_dir : string) (w w' : world) :
  (forall m t m', simplify_quadric_decimation o3d m t = Ok m' -> len (triangles m') <= t) ->
  run_single_image torch opencv o3d exporters input_path output_dir w = (Ok tt, w') ->
  exists n_vertices n_faces lo hi,
    w_files w' !! path_join output_dir "stats.json"
      = Some (Json n_vertices n_faces lo hi) /\
    0 <= n_faces <= triangle_budget.
Proof.
  intros Hdec Hrun. apply run_single_image_inv in Hrun.
  destruct Hrun as (image & H & W & pcd & mesh & wa & w0 & tex & obj & png & png' & glb
                    & lo & hi & _ & Hmesh & _ & _ & ->).
  exists (len (vertices mesh)), (len (triangles mesh)), lo, hi.
  split; [unfold put_file; cbn [w_files]; apply lookup_insert_eq|].
  split; [apply len_nonneg | exact (reconstruct_mesh_budget o3d pcd wa w0 mesh Hdec Hmesh)].
Qed.

Lemma run_single_image_stats_within_budget_witness :
  exists n_vertices n_faces lo hi,
    w_files (snd (run_single_image ramp_torch toy_opencv toy_open3d toy_exporters
                    "room.jpg" "out" world_with_photo)) !! path_join "out" "stats.json"
      = Some (Json n_vertices n_faces lo hi) /\
    0 <= n_faces <= triangle_budget.
Proof.
  apply (run_single_image_stats_within_budget ramp_torch toy_opencv toy_open3d toy_exporters
           "room.jpg" "out" world_with_photo).
  - exact toy_decimation_meets_target.
  - vm_compute. reflexivity.
Defined.

(** ** Export *)

(** Extra: when the texture file is missing, export_obj_glb raises
    FileNotFoundError at the opening of the texture and writes nothing. *)
Theorem export_obj_glb_missing_texture (exporters : Exporters) (mesh : TriangleMesh)
    (uv : list (float * float)) (texture_path out_dir : string) (w : world) :
  w_files w !! texture_path = None ->
  exists msg,
    export_obj_glb exporters mesh uv texture_path out_dir w
      = (Raise (Exn "FileNotFoundError" msg), w).
Proof.
  intros Hnone. unfold export_obj_glb, bind, read_file. rewrite Hnone. eauto.
Qed.

Lemma export_obj_glb_missing_texture_witness :
  exists msg,
    export_obj_glb toy_exporters (MkMesh [] [] []) [] "out/texture.png" "out" empty_world
      = (Raise (Exn "FileNotFoundError" msg), empty_world).
Proof.
  apply (export_obj_glb_missing_texture toy_exporters (MkMesh [] [] []) []
           "out/texture.png" "out" empty_world).
  reflexivity.
Defined.

(** Extra: the export is not atomic: when the OBJ encoding succeeds and the
    GLB encoding fails, export_obj_glb raises the encoder's exception with
    model.obj and texture.png already written and model.glb untouched. *)
Theorem export_obj_glb_partial_on_glb_failure (exporters : Exporters) (mesh : TriangleMesh)
    (uv : list (float * float)) (texture_path out_dir : string) (w : world)
    (tex_file png : content) (tex : ndarray) (obj : string) (e : exn) :
  w_files w !! texture_path = Some tex_file ->
  pil_open_rgb exporters tex_file = Ok tex ->
  export_obj exporters (vertices mesh) (triangles mesh) uv tex = Ok obj ->
  pil_save exporters tex = Ok png ->
  export_glb exporters (vertices mesh) (triangles mesh) uv tex = Raise e ->
  let r := export_obj_glb exporters mesh uv texture_path out_dir w in
  fst r = Raise e /\
  w_files (snd r) !! path_join out_dir "model.obj" = Some (Text obj) /\
  w_files (snd r) !! path_join out_dir "texture.png" = Some png /\
  w_files (snd r) !! path_join out_dir "model.glb" = w_files w !! path_join out_dir "model.glb".
Proof.
  intros Hfile Hopen Hobj Hsave Hglb. cbv zeta.
  unfold export_obj_glb, bind, read_file, lift, write_file, ret.
  rewrite Hfile, Hopen, Hobj, Hsave, Hglb. cbn [fst snd w_files].
  assert (Hne : forall a b : string, a <> b -> path_join out_dir a <> path_join out_dir b)
    by (intros a b Hab E; apply path_join_inj in E; contradiction).
  repeat split.
  - rewrite lookup_insert_ne by (apply Hne; discriminate). apply lookup_insert_eq.
  - apply lookup_insert_eq.
  - rewrite !lookup_insert_ne by (apply Hne; discriminate). reflexivity.
Qed.

Lemma export_obj_glb_partial_on_glb_failure_witness :
  let r := export_obj_glb no_glb_exporters (MkMesh [] [] []) [] "out/texture.png" "out"
             (World [] {[ "out/texture.png"%string := Binary [] ]} []) in
  fst r = Raise (Exn "ValueError" "cannot encode") /\
  w_files (snd r) !! path_join "out" "model.obj" = Some (Text "mtllib model.mtl") /\
  w_files (snd r) !! path_join "out" "texture.png" = Some (Binary []) /\
  w_files (snd r) !! path_join "out" "model.glb"
    = w_files (World [] {[ "out/texture.png"%string := Binary [] ]} [])
        !! path_join "out" "model.glb".
Proof.
  apply (export_obj_glb_partial_on_glb_failure no_glb_exporters (MkMesh [] [] []) []
           "out/texture.png" "out" (World [] {[ "out/texture.png"%string := Binary [] ]} [])
           (Binary []) (Binary [])
           (NdArray [2%nat; 2%nat; 3%nat] (IntBuf (replicate 12 128)))
           "mtllib model.mtl" (Exn "ValueError" "cannot encode"));
    reflexivity.
Defined.

(** The ramp is reconstructed into one triangle over three vertices. *)
Lemma ramp_run_stats :
  w_files (snd (run_single_image ramp_torch toy_opencv toy_open3d toy_exporters
                  "room.jpg" "out" world_with_photo)) !! "out/stats.json"%string
  = Some (Json 3 1 (replicate 3 (S754_zero false)) (replicate 3 (S754_zero false))).
Proof. vm_compute. reflexivity. Qed.

(** ** The calls of the MiDaS loader *)

Lemma hub_names_app c1 c2 : hub_names (c1 ++ c2) = hub_names c1 ++ hub_names c2.
Proof.
  induction c1 as [|c c1 IH]; [reflexivity|].
  destruct c; cbn [app hub_names]; rewrite IH; reflexivity.
Qed.

(** The loop over the remaining variants fetches a prefix of them, stops at
    the first that initialises, and fetches them all when it fails. *)
Lemma load_midas_loop_calls {Model Transform} (torch : Torch Model Transform)
    ts dev names last w :
  exists k,
    (k <= length names)%nat /\
    hub_names (w_calls (snd (load_midas_loop torch ts dev names last w)))
      = hub_names (w_calls w) ++ take k names /\
    (forall model tr, fst (load_midas_loop torch ts dev names last w) = Ok (model, tr) ->
       exists name, (1 <= k)%nat /\ names !! (k - 1)%nat = Some name /\
                    hub_load_model torch name = Ok model) /\
    (forall e, fst (load_midas_loop torch ts dev names last w) = Raise e ->
       k = length names).
Proof.
  revert last w. induction names as [|n rest IH]; intros last w.
  - exists 0%nat. cbn. rewrite app_nil_r. repeat split; try lia; discriminate.
  - cbn [load_midas_loop]. unfold try_except, load_variant, ext, bind, log, lift, ret.
    cbn [fst snd].
    destruct (hub_load_model torch n) as [m|e] eqn:Hload.
    + destruct (model_eval_to torch m dev) as [u|e] eqn:Heval.
      * exists 1%nat. cbn [fst snd w_calls length take].
        rewrite !hub_names_app. cbn [hub_names]. rewrite app_nil_r.
        repeat split; try lia; try discriminate.
        intros model tr Hok. inversion Hok; subst. exists n. cbn. auto.
      * match goal with |- context [load_midas_loop torch ts dev rest ?l ?w1] =>
          destruct (IH l w1) as (k & Hk & Hcalls & Hok & Hraise) end.
        exists (S k). cbn [length take]. split; [lia|]. split.
        { rewrite Hcalls. cbn [w_calls]. rewrite !hub_names_app. cbn [hub_names].
          rewrite app_nil_r, <- app_assoc. reflexivity. }
        split.
        { intros model tr H. destruct (Hok model tr H) as (name & Hk1 & Hn & Hm).
          exists name. split; [lia|]. split; [|exact Hm].
          replace (S k - 1)%nat with (S (k - 1)) by lia. exact Hn. }
        { intros e' H. now rewrite (Hraise e' H). }
    + match goal with |- context [load_midas_loop torch ts dev rest ?l ?w1] =>
        destruct (IH l w1) as (k & Hk & Hcalls & Hok & Hraise) end.
      exists (S k). cbn [length take]. split; [lia|]. split.
      { rewrite Hcalls. cbn [w_calls]. rewrite !hub_names_app. cbn [hub_names].
        rewrite <- app_assoc. reflexivity. }
      split.
      { intros model tr H. destruct (Hok model tr H) as (name & Hk1 & Hn & Hm).
        exists name. split; [lia|]. split; [|exact Hm].
        replace (S k - 1)%nat with (S (k - 1)) by lia. exact Hn. }
      { intros e' H. now rewrite (Hraise e' H). }
Qed.



(** ** The handlers of the API server *)

Lemma path_exists_run path w :
  path_exists path w = (Ok (file_exists w path), w).
Proof. reflexivity. Qed.

(** Once the prediction has exited with 0, the summary of [generate_3d]
    is read off the files it left. *)
Lemma generate_3d_try_exit0 (srv : Server) input_path output_dir w1 w2 result :
  subprocess_run srv (predict_args srv input_path output_dir) w1 = (Ok result, w2) ->
  returncode result = 0 ->
  generate_3d_try srv input_path output_dir w1
  = match w_files w2 !! path_join output_dir "stats.json" with
    | None => (Ok (Response 200 (SuccessBody (generated_keys output_dir w2) None)), w2)
    | Some text =>
        match json_loads srv text with
        | Ok parsed =>
            (Ok (Response 200 (SuccessBody (generated_keys output_dir w2) (Some parsed))), w2)
        | Raise e => (Raise e, w2)
        end
    end.
Proof.
  intros Hrun Hcode. unfold generate_3d_try.
  rewrite (bind_ok _ _ _ _ _ Hrun). rewrite Hcode. cbn [Z.eqb negb].
  unfold generated_keys, output_keys, file_exists, path_exists, read_file, bind, ret, lift.
  cbn beta iota delta [List.filter map fst snd].
  destruct (w_files w2 !! path_join output_dir "model.obj") as [c1|] eqn:E1;
  destruct (w_files w2 !! path_join output_dir "model.glb") as [c2|] eqn:E2;
  destruct (w_files w2 !! path_join output_dir "texture.png") as [c3|] eqn:E3;
  destruct (w_files w2 !! path_join output_dir "stats.json") as [c4|] eqn:E4;
  repeat (progress (cbn; rewrite ?E1, ?E2, ?E3, ?E4));
  try reflexivity;
  match goal with |- context [json_loads srv ?c] => destruct (json_loads srv c) end;
  reflexivity.
Qed.

Lemma generate_3d_try_failed (srv : Server) input_path output_dir w1 w2 result :
  subprocess_run srv (predict_args srv input_path output_dir) w1 = (Ok result, w2) ->
  returncode result <> 0 ->
  generate_3d_try srv input_path output_dir w1
  = (Ok (Response 500 (ErrorBody "3D generation failed" (Some (stderr result)))), w2).
Proof.
  intros Hrun Hcode. unfold generate_3d_try.
  rewrite (bind_ok _ _ _ _ _ Hrun).
  destruct (Z.eqb_spec (returncode result) 0) as [E|_]; [contradiction|reflexivity].
Qed.

Lemma generate_3d_sync_try_run (srv : Server) input_path output_dir w1 w2 result :
  subprocess_run srv (predict_args srv input_path output_dir) w1 = (Ok result, w2) ->
  generate_3d_sync_try srv input_path output_dir w1
  = (Ok (if negb (returncode result =? 0)
         then Response 500 (ErrorBody "Generation failed" (Some (stderr result)))
         else if file_exists w2 (path_join output_dir "model.glb")
              then Response 200 (FileBody (path_join output_dir "model.glb")
                                   "model/gltf-binary" "model.glb")
              else Response 500 (ErrorBody "GLB file not generated" None)), w2).
Proof.
  intros Hrun. unfold generate_3d_sync_try.
  rewrite (bind_ok _ _ _ _ _ Hrun).
  destruct (negb (returncode result =? 0)); [reflexivity|].
  unfold bind. rewrite path_exists_run.
  destruct (file_exists w2 (path_join output_dir "model.glb")); reflexivity.
Qed.

(** The status of an answer of the [try] of [generate_3d] is 200 or 500,
    and of its handlers 500. *)
Lemma generate_3d_try_status (srv : Server) input_path output_dir w1 r w2 :
  generate_3d_try srv input_path output_dir w1 = (Ok r, w2) ->
  status r = 200 \/ status r = 500.
Proof.
  unfold generate_3d_try. intros H.
  apply bind_inv_ok in H. destruct H as (result & w & Hrun & H).
  destruct (Z.eq_dec (returncode result) 0) as [Hcode|Hcode].
  - pose proof (generate_3d_try_exit0 srv _ _ _ _ _ Hrun Hcode) as E.
    unfold generate_3d_try in E. rewrite (bind_ok _ _ _ _ _ Hrun) in E.
    rewrite E in H.
    destruct (w_files w !! path_join output_dir "stats.json") as [text|].
    + destruct (json_loads srv text); inversion H; subst; now left.
    + inversion H; subst; now left.
  - destruct (Z.eqb_spec (returncode result) 0) as [E|_]; [contradiction|].
    cbn in H. inversion H; subst. now right.
Qed.

(** An upload that is not refused has an image part with a name that is
    not empty and passes the check. *)
Lemma accepted_upload files :
  ~ refused_upload files ->
  exists file, files !! "image"%string = Some file /\
               String.eqb (up_filename file) "" = false /\
               allowed_file (up_filename file) = true.
Proof.
  unfold refused_upload. intros H.
  destruct (files !! "image"%string) as [file|]; [|now destruct H].
  exists file. split; [reflexivity|].
  destruct (allowed_file (up_filename file)) eqn:Ha; [|now destruct H].
  split; [|reflexivity].
  destruct (String.eqb_spec (up_filename file) "") as [E|_]; [|reflexivity].
  rewrite E in Ha. discriminate.
Qed.

(** A refused upload is answered with 400 by both handlers, and nothing is
    done. *)
Lemma handlers_refuse_same_uploads_aux (srv : Server) (files : gmap string upload) (w : world) :
  (refused_upload files ->
     exists b, generate_3d srv files w = (Ok (Response 400 b), w)) /\
  (refused_upload files ->
     exists b, generate_3d_sync srv files w = (Ok (Response 400 b), w)).
Proof.
  unfold refused_upload, generate_3d, generate_3d_sync.
  split; intros H; (destruct (files !! "image"%string) as [file|]; [|eauto]);
    rewrite H; cbn [negb]; rewrite ?orb_true_r;
    destruct (String.eqb (up_filename file) ""); eauto.
Qed.

(** Extra: the two endpoints refuse the same uploads.  When the request
    has no image part, or the name of the part does not pass allowed_file
    (the empty name among them), both answer 400 and leave every file as it
    was: nothing is saved and no prediction is started.  For every other
    upload neither of them answers 400. *)
Theorem handlers_refuse_same_uploads (srv : Server) (files : gmap string upload) (w : world) :
  (refused_upload files ->
     exists b b', generate_3d srv files w = (Ok (Response 400 b), w) /\
                  generate_3d_sync srv files w = (Ok (Response 400 b'), w)) /\
  (~ refused_upload files ->
     forall r, fst (generate_3d srv files w) = Ok r \/
               fst (generate_3d_sync srv files w) = Ok r ->
               status r = 200 \/ status r = 500).
Proof.
  split.
  - intros H.
    destruct (proj1 (handlers_refuse_same_uploads_aux srv files w) H) as (b & E).
    destruct (proj2 (handlers_refuse_same_uploads_aux srv files w) H) as (b' & E').
    eauto.
  - intros H r Hr. destruct (accepted_upload files H) as (file & Hf & Hne & Ha).
    unfold generate_3d, generate_3d_sync in Hr. rewrite Hf, Hne, Ha in Hr.
    cbn [negb orb] in Hr. unfold bind, try_except in Hr.
    destruct (save_upload srv file _ w) as [[[]|e] w1]; cbn [fst] in Hr;
      [|destruct Hr; discriminate].
    destruct Hr as [Hr|Hr].
    + destruct (generate_3d_try srv _ _ w1) as [[r1|e] w2] eqn:Ht.
      * cbn in Hr. inversion Hr; subst. eapply generate_3d_try_status; eauto.
      * destruct (String.eqb (exn_class e) "TimeoutExpired"); cbn in Hr;
          inversion Hr; subst; now right.
    + destruct (subprocess_run srv (predict_args srv
                  (path_join (tmpdir srv) (secure_filename srv (up_filename file)))
                  (path_join (tmpdir srv) "out")) w1) as [[result|e] w2] eqn:Hrun.
      * rewrite (generate_3d_sync_try_run srv _ _ _ _ _ Hrun) in Hr. cbn in Hr.
        inversion Hr; subst.
        destruct (negb (returncode result =? 0)); [now right|].
        destruct (file_exists w2 _); [now left|now right].
      * unfold generate_3d_sync_try in Hr. rewrite (bind_raise _ _ _ _ _ Hrun) in Hr.
        cbn in Hr. inversion Hr; subst. now right.
Qed.



(** What [generate_3d] does with an accepted upload, by the outcome of the
    save. *)
Lemma generate_3d_accepted (srv : Server) files file w :
  files !! "image"%string = Some file ->
  allowed_file (up_filename file) = true ->
  generate_3d srv files w
  = match save_upload srv file (upload_path srv file) w with
    | (Ok _, w1) =>
        match generate_3d_try srv (upload_path srv file) (upload_output srv) w1 with
        | (Ok r, w2) => (Ok r, w2)
        | (Raise e, w2) =>
            (Ok (Response 500
                   (ErrorBody (if String.eqb (exn_class e) "TimeoutExpired"
                               then "Processing timeout (>2 minutes)"%string
                               else exn_msg e) None)), w2)
        end
    | (Raise e, w1) => (Raise e, w1)
    end.
Proof.
  intros Hf Ha. unfold generate_3d. rewrite Hf, Ha.
  destruct (String.eqb_spec (up_filename file) "") as [E|_].
  { rewrite E in Ha. discriminate. }
  cbn [negb]. unfold bind, try_except, upload_path, upload_output.
  destruct (save_upload srv file _ w) as [[[]|e] w1]; [|reflexivity].
  destruct (generate_3d_try srv _ _ w1) as [[r|e] w2]; [reflexivity|].
  destruct (String.eqb (exn_class e) "TimeoutExpired"); reflexivity.
Qed.

Lemma generate_3d_sync_accepted (srv : Server) files file w :
  files !! "image"%string = Some file ->
  allowed_file (up_filename file) = true ->
  generate_3d_sync srv files w
  = match save_upload srv file (upload_path srv file) w with
    | (Ok _, w1) =>
        match generate_3d_sync_try srv (upload_path srv file) (upload_output srv) w1 with
        | (Ok r, w2) => (Ok r, w2)
        | (Raise e, w2) => (Ok (Response 500 (ErrorBody (exn_msg e) None)), w2)
        end
    | (Raise e, w1) => (Raise e, w1)
    end.
Proof.
  intros Hf Ha. unfold generate_3d_sync. rewrite Hf, Ha.
  destruct (String.eqb_spec (up_filename file) "") as [E|_].
  { rewrite E in Ha. discriminate. }
  cbn [negb orb]. unfold bind, try_except, upload_path, upload_output.
  destruct (save_upload srv file _ w) as [[[]|e] w1]; [|reflexivity].
  destruct (generate_3d_sync_try srv _ _ w1) as [[r|e] w2]; reflexivity.
Qed.

Lemma refused_or_accepted files :
  refused_upload files \/
  exists file, files !! "image"%string = Some file /\ allowed_file (up_filename file) = true.
Proof.
  unfold refused_upload. destruct (files !! "image"%string) as [file|]; [|now left].
  destruct (allowed_file (up_filename file)) eqn:Ha; [right | now left].
  exists file. split; [reflexivity | exact Ha].
Qed.

(** Extra: an answer 200 of /generate says that the prediction has exited
    with 0, and no more: the files it lists are those of model.obj,
    model.glb, texture.png and stats.json that exist after the prediction, in
    this order, which may be none of them, and it carries stats exactly when
    stats.json exists. *)
Theorem generate_3d_success (srv : Server) (files : gmap string upload) (w : world)
    (r : response) :
  fst (generate_3d srv files w) = Ok r ->
  status r = 200 ->
  exists file result w1 stats,
    files !! "image"%string = Some file /\
    save_upload srv file (upload_path srv file) w = (Ok tt, w1) /\
    subprocess_run srv (predict_args srv (upload_path srv file) (upload_output srv)) w1
      = (Ok result, snd (generate_3d srv files w)) /\
    returncode result = 0 /\
    resp_body r
      = SuccessBody (generated_keys (upload_output srv) (snd (generate_3d srv files w))) stats /\
    (stats = None <->
     file_exists (snd (generate_3d srv files w))
       (path_join (upload_output srv) "stats.json") = false).
Proof.
  intros Hr Hs.
  destruct (refused_or_accepted files) as [Hbad|(file & Hf & Ha)].
  { destruct (proj1 (handlers_refuse_same_uploads_aux srv files w) Hbad) as (b & E).
    rewrite E in Hr. cbn in Hr. inversion Hr; subst. discriminate. }
  rewrite (generate_3d_accepted srv files file w Hf Ha) in Hr |- *.
  destruct (save_upload srv file (upload_path srv file) w) as [[[]|e] w1] eqn:Hsave;
    [|discriminate].
  unfold generate_3d_try in Hr |- * at 1.
  destruct (subprocess_run srv (predict_args srv (upload_path srv file) (upload_output srv)) w1)
    as [[result|e] w2] eqn:Hrun.
  2:{ rewrite (bind_raise _ _ _ _ _ Hrun) in Hr. cbn in Hr. inversion Hr; subst.
      discriminate. }
  fold (generate_3d_try srv (upload_path srv file) (upload_output srv)) in Hr |- *.
  destruct (Z.eq_dec (returncode result) 0) as [Hcode|Hcode].
  2:{ rewrite (generate_3d_try_failed srv _ _ _ _ _ Hrun Hcode) in Hr. cbn in Hr.
      inversion Hr; subst. discriminate. }
  rewrite (generate_3d_try_exit0 srv _ _ _ _ _ Hrun Hcode) in Hr |- *.
  unfold file_exists.
  destruct (w_files w2 !! path_join (upload_output srv) "stats.json") as [text|] eqn:Hst.
  - destruct (json_loads srv text) as [parsed|e]; cbn in Hr; inversion Hr; subst;
      [|discriminate].
    exists file, result, w1, (Some parsed). cbn [snd resp_body]. rewrite Hst.
    repeat split; try assumption; try reflexivity; intros; discriminate.
  - cbn in Hr. inversion Hr; subst.
    exists file, result, w1, None. cbn [snd resp_body]. rewrite Hst.
    repeat split; try assumption; reflexivity.
Qed.

Lemma generate_3d_success_witness :
  exists file result w1 stats,
    photo_request !! "image"%string = Some file /\
    save_upload (toy_server idle_pipeline) file (upload_path (toy_server idle_pipeline) file)
      empty_world = (Ok tt, w1) /\
    subprocess_run (toy_server idle_pipeline)
      (predict_args (toy_server idle_pipeline) (upload_path (toy_server idle_pipeline) file)
         (upload_output (toy_server idle_pipeline))) w1
      = (Ok result, snd (generate_3d (toy_server idle_pipeline) photo_request empty_world)) /\
    returncode result = 0 /\
    resp_body (Response 200 (SuccessBody [] None))
      = SuccessBody (generated_keys (upload_output (toy_server idle_pipeline))
                       (snd (generate_3d (toy_server idle_pipeline) photo_request empty_world)))
          stats /\
    (stats = None <->
     file_exists (snd (generate_3d (toy_server idle_pipeline) photo_request empty_world))
       (path_join (upload_output (toy_server idle_pipeline)) "stats.json") = false).
Proof.
  apply (generate_3d_success (toy_server idle_pipeline) photo_request empty_world
           (Response 200 (SuccessBody [] None))).
  - vm_compute. reflexivity.
  - reflexivity.
Defined.

(** Extra: /generate-sync answers 200 only by sending model.glb of the
    output directory, and only when the prediction has exited with 0 and
    that file exists afterwards. *)
Theorem generate_3d_sync_success (srv : Server) (files : gmap string upload) (w : world)
    (r : response) :
  fst (generate_3d_sync srv files w) = Ok r ->
  status r = 200 ->
  exists file result w1,
    files !! "image"%string = Some file /\
    save_upload srv file (upload_path srv file) w = (Ok tt, w1) /\
    subprocess_run srv (predict_args srv (upload_path srv file) (upload_output srv)) w1
      = (Ok result, snd (generate_3d_sync srv files w)) /\
    returncode result = 0 /\
    resp_body r = FileBody (path_join (upload_output srv) "model.glb")
                    "model/gltf-binary" "model.glb" /\
    file_exists (snd (generate_3d_sync srv files w))
      (path_join (upload_output srv) "model.glb") = true.
Proof.
  intros Hr Hs.
  destruct (refused_or_accepted files) as [Hbad|(file & Hf & Ha)].
  { destruct (proj2 (handlers_refuse_same_uploads_aux srv files w) Hbad) as (b & E).
    rewrite E in Hr. cbn in Hr. inversion Hr; subst. discriminate. }
  rewrite (generate_3d_sync_accepted srv files file w Hf Ha) in Hr |- *.
  destruct (save_upload srv file (upload_path srv file) w) as [[[]|e] w1] eqn:Hsave;
    [|discriminate].
  destruct (subprocess_run srv (predict_args srv (upload_path srv file) (upload_output srv)) w1)
    as [[result|e] w2] eqn:Hrun.
  2:{ unfold generate_3d_sync_try in Hr. rewrite (bind_raise _ _ _ _ _ Hrun) in Hr.
      cbn in Hr. inversion Hr; subst. discriminate. }
  rewrite (generate_3d_sync_try_run srv _ _ _ _ _ Hrun) in Hr |- *.
  cbn [fst snd] in Hr |- *. inversion Hr; subst. clear Hr.
  exists file, result, w1.
  destruct (Z.eqb_spec (returncode result) 0) as [Hcode|Hcode]; cbn [negb] in Hs |- *;
    [|discriminate].
  destruct (file_exists w2 (path_join (upload_output srv) "model.glb")) eqn:Hglb;
    [|discriminate].
  auto 10.
Qed.

Lemma generate_3d_sync_success_witness :
  exists file result w1,
    photo_request !! "image"%string = Some file /\
    save_upload (toy_server toy_pipeline) file (upload_path (toy_server toy_pipeline) file)
      empty_world = (Ok tt, w1) /\
    subprocess_run (toy_server toy_pipeline)
      (predict_args (toy_server toy_pipeline) (upload_path (toy_server toy_pipeline) file)
         (upload_output (toy_server toy_pipeline))) w1
      = (Ok result, snd (generate_3d_sync (toy_server toy_pipeline) photo_request empty_world)) /\
    returncode result = 0 /\
    resp_body (Response 200 (FileBody "/tmp/upload/out/model.glb" "model/gltf-binary"
                               "model.glb"))
      = FileBody (path_join (upload_output (toy_server toy_pipeline)) "model.glb")
          "model/gltf-binary" "model.glb" /\
    file_exists (snd (generate_3d_sync (toy_server toy_pipeline) photo_request empty_world))
      (path_join (upload_output (toy_server toy_pipeline)) "model.glb") = true.
Proof.
  apply (generate_3d_sync_success (toy_server toy_pipeline) photo_request empty_world
           (Response 200 (FileBody "/tmp/upload/out/model.glb" "model/gltf-binary"
                            "model.glb"))).
  - vm_compute. reflexivity.
  - reflexivity.
Defined.

(** Extra: when the prediction exits with 0 without leaving model.glb, the
    two endpoints disagree on the same upload: /generate-sync answers 500
    "GLB file not generated", while /generate does not count it as a failure
    and answers 200 with a list of files that has no "glb", unless the
    parser rejects stats.json. *)
Theorem handlers_disagree_without_glb (srv : Server) (files : gmap string upload)
    (file : upload) (w w1 w2 : world) (result : completed) :
  files !! "image"%string = Some file ->
  allowed_file (up_filename file) = true ->
  save_upload srv file (upload_path srv file) w = (Ok tt, w1) ->
  subprocess_run srv (predict_args srv (upload_path srv file) (upload_output srv)) w1
    = (Ok result, w2) ->
  returncode result = 0 ->
  w_files w2 !! path_join (upload_output srv) "model.glb" = None ->
  (forall text, w_files w2 !! path_join (upload_output srv) "stats.json" = Some text ->
                exists parsed, json_loads srv text = Ok parsed) ->
  generate_3d_sync srv files w
    = (Ok (Response 500 (ErrorBody "GLB file not generated" None)), w2) /\
  exists keys stats,
    generate_3d srv files w = (Ok (Response 200 (SuccessBody keys stats)), w2) /\
    ~ In "glb"%string keys.
Proof.
  intros Hf Ha Hsave Hrun Hcode Hglb Hjson. split.
  - rewrite (generate_3d_sync_accepted srv files file w Hf Ha), Hsave.
    rewrite (generate_3d_sync_try_run srv _ _ _ _ _ Hrun), Hcode.
    unfold file_exists. rewrite Hglb. reflexivity.
  - rewrite (generate_3d_accepted srv files file w Hf Ha), Hsave.
    rewrite (generate_3d_try_exit0 srv _ _ _ _ _ Hrun Hcode).
    assert (Hno : ~ In "glb"%string (generated_keys (upload_output srv) w2)).
    { unfold generated_keys, output_keys, file_exists. cbn [List.filter snd].
      rewrite Hglb.
      destruct (bool_decide (is_Some (w_files w2 !! path_join (upload_output srv) "model.obj")));
      destruct (bool_decide (is_Some (w_files w2 !! path_join (upload_output srv) "texture.png")));
      destruct (bool_decide (is_Some (w_files w2 !! path_join (upload_output srv) "stats.json")));
      cbn; intros H; repeat (destruct H as [H|H]; [discriminate|]); exact H. }
    destruct (w_files w2 !! path_join (upload_output srv) "stats.json") as [text|] eqn:Hst.
    + destruct (Hjson text eq_refl) as (parsed & ->). eauto.
    + eauto.
Qed.

Lemma handlers_disagree_without_glb_witness :
  generate_3d_sync (toy_server idle_pipeline) photo_request empty_world
    = (Ok (Response 500 (ErrorBody "GLB file not generated" None)),
       put_file empty_world "/tmp/upload/room.jpg" (Binary [])) /\
  exists keys stats,
    generate_3d (toy_server idle_pipeline) photo_request empty_world
      = (Ok (Response 200 (SuccessBody keys stats)),
         put_file empty_world "/tmp/upload/room.jpg" (Binary [])) /\
    ~ In "glb"%string keys.
Proof.
  apply (handlers_disagree_without_glb (toy_server idle_pipeline) photo_request
           (Upload "room.jpg" (Binary [])) empty_world
           (put_file empty_world "/tmp/upload/room.jpg" (Binary []))
           (put_file empty_world "/tmp/upload/room.jpg" (Binary []))
           (Completed 0 "" "")).
  - vm_compute. reflexivity.
  - vm_compute. reflexivity.
  - reflexivity.
  - reflexivity.
  - reflexivity.
  - vm_compute. reflexivity.
  - intros text H. vm_compute in H. discriminate.
Defined.



(** ** The pipeline behind the server, and the check of its outputs *)

(** After a successful run the four outputs exist; stats.json holds the
    counts of a reconstructed mesh and model.obj is the encoding of that
    mesh. *)
Lemma run_single_image_leaves_outputs {Model Transform : Type}
    (torch : Torch Model Transform) (opencv : OpenCV) (o3d : Open3D)
    (exporters : Exporters) (input_path output_dir : string) (w w' : world) :
  run_single_image torch opencv o3d exporters input_path output_dir w = (Ok tt, w') ->
  exists mesh uv tex obj glb png lo hi,
    export_obj exporters (vertices mesh) (triangles mesh) uv tex = Ok obj /\
    w_files w' !! path_join output_dir "model.obj" = Some (Text obj) /\
    w_files w' !! path_join output_dir "model.glb" = Some (Binary glb) /\
    w_files w' !! path_join output_dir "texture.png" = Some png /\
    w_files w' !! path_join output_dir "stats.json"
      = Some (Json (len (vertices mesh)) (len (triangles mesh)) lo hi).
Proof.
  intros Hrun. apply run_single_image_inv in Hrun.
  destruct Hrun as (image & H & W & pcd & mesh & wa & w0 & tex & obj & png & png' & glb
                    & lo & hi & _ & _ & Hobj & _ & ->).
  exists mesh, (compute_uv mesh (infer_intrinsics W H None) W H), tex, obj, glb, png', lo, hi.
  split; [exact Hobj|].
  unfold put_file; cbn [w_files].
  assert (Hne : forall a b : string, a <> b -> path_join output_dir a <> path_join output_dir b)
    by (intros a b Hab E; apply path_join_inj in E; contradiction).
  repeat split.
  - rewrite !lookup_insert_ne by (apply Hne; discriminate). apply lookup_insert_eq.
  - rewrite lookup_insert_ne by (apply Hne; discriminate). apply lookup_insert_eq.
  - rewrite !lookup_insert_ne by (apply Hne; discriminate). apply lookup_insert_eq.
  - apply lookup_insert_eq.
Qed.

(** Extra: the server on top of the pipeline.  When the prediction the
    server starts is a successful run of run_single_image on the saved
    upload, and the parser reads the stats the run has written, /generate
    answers 200 with all of obj, glb, texture and stats and with the parsed
    stats.json of that run, and /generate-sync sends its model.glb. *)
Theorem handlers_after_successful_run {Model Transform : Type}
    (torch : Torch Model Transform) (opencv : OpenCV) (o3d : Open3D)
    (exporters : Exporters) (srv : Server) (files : gmap string upload)
    (file : upload) (w w1 w2 : world) (result : completed) :
  files !! "image"%string = Some file ->
  allowed_file (up_filename file) = true ->
  save_upload srv file (upload_path srv file) w = (Ok tt, w1) ->
  subprocess_run srv (predict_args srv (upload_path srv file) (upload_output srv)) w1
    = (Ok result, w2) ->
  returncode result = 0 ->
  run_single_image torch opencv o3d exporters (upload_path srv file) (upload_output srv) w1
    = (Ok tt, w2) ->
  (forall v f lo hi, exists parsed, json_loads srv (Json v f lo hi) = Ok parsed) ->
  (exists text parsed,
     w_files w2 !! path_join (upload_output srv) "stats.json" = Some text /\
     json_loads srv text = Ok parsed /\
     generate_3d srv files w
       = (Ok (Response 200
                (SuccessBody ["obj"; "glb"; "texture"; "stats"]%string (Some parsed))), w2)) /\
  generate_3d_sync srv files w
    = (Ok (Response 200 (FileBody (path_join (upload_output srv) "model.glb")
                           "model/gltf-binary" "model.glb")), w2).
Proof.
  intros Hf Ha Hsave Hrun Hcode Hpipe Hjson.
  destruct (run_single_image_leaves_outputs _ _ _ _ _ _ _ _ Hpipe)
    as (mesh & uv & tex & obj & glb & png & lo & hi & _ & Hobj & Hglb & Htex & Hst).
  split.
  - destruct (Hjson (len (vertices mesh)) (len (triangles mesh)) lo hi) as (parsed & Hp).
    exists (Json (len (vertices mesh)) (len (triangles mesh)) lo hi), parsed.
    split; [exact Hst|]. split; [exact Hp|].
    rewrite (generate_3d_accepted srv files file w Hf Ha), Hsave.
    rewrite (generate_3d_try_exit0 srv _ _ _ _ _ Hrun Hcode), Hst, Hp.
    unfold generated_keys, output_keys, file_exists. cbn [List.filter snd].
    rewrite Hobj, Hglb, Htex, Hst. reflexivity.
  - rewrite (generate_3d_sync_accepted srv files file w Hf Ha), Hsave.
    rewrite (generate_3d_sync_try_run srv _ _ _ _ _ Hrun), Hcode.
    unfold file_exists. rewrite Hglb. reflexivity.
Qed.

Lemma handlers_after_successful_run_witness :
  (exists text parsed,
     w_files (snd (toy_pipeline "/tmp/upload/room.jpg" "/tmp/upload/out"
                     (put_file empty_world "/tmp/upload/room.jpg" (Binary []))))
       !! path_join (upload_output (toy_server toy_pipeline)) "stats.json" = Some text /\
     json_loads (toy_server toy_pipeline) text = Ok parsed /\
     generate_3d (toy_server toy_pipeline) photo_request empty_world
       = (Ok (Response 200
                (SuccessBody ["obj"; "glb"; "texture"; "stats"]%string (Some parsed))),
          snd (toy_pipeline "/tmp/upload/room.jpg" "/tmp/upload/out"
                 (put_file empty_world "/tmp/upload/room.jpg" (Binary []))))) /\
  generate_3d_sync (toy_server toy_pipeline) photo_request empty_world
    = (Ok (Response 200 (FileBody (path_join (upload_output (toy_server toy_pipeline))
                                     "model.glb") "model/gltf-binary" "model.glb")),
       snd (toy_pipeline "/tmp/upload/room.jpg" "/tmp/upload/out"
              (put_file empty_world "/tmp/upload/room.jpg" (Binary [])))).
Proof.
  apply (handlers_after_successful_run ramp_torch toy_opencv toy_open3d toy_exporters
           (toy_server toy_pipeline) photo_request (Upload "room.jpg" (Binary []))
           empty_world (put_file empty_world "/tmp/upload/room.jpg" (Binary []))
           (snd (toy_pipeline "/tmp/upload/room.jpg" "/tmp/upload/out"
                   (put_file empty_world "/tmp/upload/room.jpg" (Binary []))))
           (Completed 0 "" "")).
  - vm_compute. reflexivity.
  - vm_compute. reflexivity.
  - reflexivity.
  - vm_compute. reflexivity.
  - reflexivity.
  - vm_compute. reflexivity.
  - intros v f lo hi. exists (Json v f lo hi). reflexivity.
Defined.

(** The check on a directory that holds a stats file and an OBJ file. *)
Lemma test_mesh_stats_main_run (chk : Checker) (script out_dir : string)
    (rest : list string) (w : world) (text obj : content) :
  w_files w !! path_join out_dir "stats.json" = Some text ->
  w_files w !! path_join out_dir "model.obj" = Some obj ->
  test_mesh_stats_main chk (script :: out_dir :: rest) w
  = (match json_load chk text with
     | Raise e => Raise e
     | Ok stats =>
         match load_mesh chk obj with
         | Raise e => Raise e
         | Ok (n_vertices, n_faces) =>
             match getitem stats "vertices" with
             | Raise e => Raise e
             | Ok sv =>
                 if negb (n_vertices =? sv) then Raise (Exn "AssertionError" "")
                 else match getitem stats "faces" with
                      | Raise e => Raise e
                      | Ok sf => if negb (n_faces =? sf)
                                 then Raise (Exn "AssertionError" "") else Ok tt
                      end
             end
         end
     end, w).
Proof.
  intros Hst Hobj. unfold test_mesh_stats_main, bind, path_exists, read_file, lift, assert_eq,
    ret, raise.
  assert (E : forall c : content, bool_decide (is_Some (Some c)) = true)
    by (intros c; apply bool_decide_eq_true; eauto).
  repeat (progress (cbn beta iota; rewrite ?Hst, ?Hobj, ?E; cbn [negb orb])).
  destruct (json_load chk text) as [stats|e]; [|reflexivity].
  repeat (progress (cbn beta iota; rewrite ?Hst, ?Hobj, ?E; cbn [negb orb])).
  destruct (load_mesh chk obj) as [[nv nf]|e]; [|reflexivity].
  cbn beta iota.
  destruct (getitem stats "vertices") as [sv|e]; [|reflexivity].
  destruct (nv =? sv); cbn [negb]; [|reflexivity].
  destruct (getitem stats "faces") as [sf|e]; [|reflexivity].
  destruct (nf =? sf); reflexivity.
Qed.

(** Extra: the check after the pipeline.  On the output directory of a
    successful run the check finds both files it needs, so it does not stop
    with "Missing outputs"; it passes exactly when loading the written OBJ
    gives back the numbers of vertices and of faces of the mesh that was
    exported, and it changes nothing. *)
Theorem test_mesh_stats_after_run {Model Transform : Type}
    (torch : Torch Model Transform) (opencv : OpenCV) (o3d : Open3D)
    (exporters : Exporters) (chk : Checker) (input_path output_dir script : string)
    (w w' : world) :
  run_single_image torch opencv o3d exporters input_path output_dir w = (Ok tt, w') ->
  (forall v f lo hi,
     json_load chk (Json v f lo hi) = Ok {[ "vertices"%string := v; "faces"%string := f ]}) ->
  exists mesh uv tex obj,
    export_obj exporters (vertices mesh) (triangles mesh) uv tex = Ok obj /\
    test_mesh_stats_main chk [script; output_dir] w'
    = (match load_mesh chk (Text obj) with
       | Raise e => Raise e
       | Ok (n_vertices, n_faces) =>
           if (n_vertices =? len (vertices mesh)) && (n_faces =? len (triangles mesh))
           then Ok tt else Raise (Exn "AssertionError" "")
       end, w').
Proof.
  intros Hrun Hjson.
  destruct (run_single_image_leaves_outputs _ _ _ _ _ _ _ _ Hrun)
    as (mesh & uv & tex & obj & glb & png & lo & hi & Hexp & Hobj & _ & _ & Hst).
  exists mesh, uv, tex, obj. split; [exact Hexp|].
  rewrite (test_mesh_stats_main_run chk script output_dir [] w' _ _ Hst Hobj), Hjson.
  destruct (load_mesh chk (Text obj)) as [[nv nf]|e]; [|reflexivity].
  unfold getitem.
  rewrite lookup_insert_eq.
  rewrite lookup_insert_ne by discriminate. rewrite lookup_singleton_eq.
  destruct (nv =? len (vertices mesh)); cbn [negb andb]; [|reflexivity].
  destruct (nf =? len (triangles mesh)); reflexivity.
Qed.

Lemma test_mesh_stats_after_run_witness :
  exists mesh uv tex obj,
    export_obj toy_exporters (vertices mesh) (triangles mesh) uv tex = Ok obj /\
    test_mesh_stats_main (toy_checker 3 1) ["test_mesh_stats.py"; "out"]%string
      (snd (toy_pipeline "room.jpg" "out" world_with_photo))
    = (match load_mesh (toy_checker 3 1) (Text obj) with
       | Raise e => Raise e
       | Ok (n_vertices, n_faces) =>
           if (n_vertices =? len (vertices mesh)) && (n_faces =? len (triangles mesh))
           then Ok tt else Raise (Exn "AssertionError" "")
       end, snd (toy_pipeline "room.jpg" "out" world_with_photo)).
Proof.
  apply (test_mesh_stats_after_run ramp_torch toy_opencv toy_open3d toy_exporters
           (toy_checker 3 1) "room.jpg" "out" "test_mesh_stats.py" world_with_photo).
  - vm_compute. reflexivity.
  - intros v f lo hi. reflexivity.
Defined.
